(** * Budget automation: spending aggregation, metrics, history, trends, alerts

    A shallow embedding of the computational core of
    [stacks/budget-automation/budget_automation.py]
    (class [EnhancedBudgetAutomation]) and the properties its specification
    states about it, together with the history endpoint of [budget_api.py]
    and [clean_test_data] of [test_management.py].

    Modelling conventions.
    - Python dictionaries are finite maps ([gmap]); a loop over [d.items()]
      is a fold over the map's enumeration.
    - Python [int]s are [Z].  Python [float]s are handled in two ways.  The
      aggregation loop is written once over an arithmetic interface
      ([PyArith]) and instantiated both with exact rationals ([Qc]) and with
      IEEE binary64 ([PrimFloat]), because rounding is observable there.  The
      remaining functions compare and combine values only, and are stated
      over exact rationals.
    - [datetime.now()] is an explicit [clock] argument.
    - Code that can raise returns a [result]; the SQLite file is an explicit
      [storage] value threaded through the calls.
    - The files under [/app] are a finite map from absolute paths to what
      they name; modification times and [datetime.now()] are microsecond
      counts. *)

From Stdlib Require Import ZArith QArith Qcanon Qround Floats Uint63 Ascii String Lia.
From stdpp Require Import gmap strings list fin_maps numbers sorting pretty.

Local Open Scope Z_scope.

(** ** Arithmetic interface of the aggregation loop *)

(** The three operations [process_transactions] performs on amounts:
    the literal [0] used as the default of [dict.get], [+], and the true
    division [int / int]. *)
Class PyArith (R : Type) := {
  py_zero : R;
  py_add : R → R → R;
  py_truediv : Z → Z → R
}.

(** Exact rationals.  The only divisor in the source is the literal 1000. *)
#[export] Instance exact_arith : PyArith Qc := {|
  py_zero := 0%Qc;
  py_add := Qcplus;
  py_truediv a b := (Qc_of_Z a / Qc_of_Z b)%Qc
|}.

(** IEEE binary64, the arithmetic of CPython's [float].  An [int] that
    meets a [float] is converted by rounding to nearest, ties to even, and
    [int / int] is the correctly rounded quotient of the two integers.
    Magnitudes beyond the range of a double, where Python raises
    [OverflowError], are not modelled. *)
Definition f64_of_Z (z : Z) : float := SF2Prim (binary_normalize 53 1024 z 0 false).

Definition spec_float_of_int (z : Z) : spec_float :=
  match z with
  | Z0 => S754_zero false
  | Zpos p => S754_finite false p 0
  | Zneg p => S754_finite true p 0
  end.

Definition int_truediv (a b : Z) : float :=
  SF2Prim (SFdiv 53 1024 (spec_float_of_int a) (spec_float_of_int b)).

Definition binary64_arith : PyArith float := {|
  py_zero := f64_of_Z 0;
  py_add := PrimFloat.add;
  py_truediv := int_truediv
|}.

(** ** Configuration ([load_environment], [setup_categories]) *)

Record config := {
  category_mapping : gmap string string;
  monthly_targets : gmap string Z;
  spending_alert_threshold : Qc
}.

(** The tables of [setup_categories] and the default alert threshold of
    [load_environment] ([SPENDING_ALERT_THRESHOLD], 90 when unset). *)
Definition default_category_mapping : gmap string string :=
  list_to_map [
    ("🥕  Groceries", "🥕 Groceries");
    ("🛋️  Shopping", "🛒 Shopping & Personal");
    ("🧘‍♀️  Personal Care", "🛒 Shopping & Personal");
    ("🍼  Baby Supplies", "🛒 Shopping & Personal");
    ("🥯  Dining Out", "🍽️ Dining Out");
    ("⛽️  Gas", "🚗 Transportation");
    ("👩‍⚕️  Medical & Pediatric", "🏥 Services & Medical");
    ("🦮  Pet Stuff", "🐕 Pet Care");
    ("🔁   Subscriptions", "🎮 Entertainment & Tech");
    ("🍿  Entertainment", "🎮 Entertainment & Tech");
    ("🔨  Home Maintenance / HOA", "🔧 Home Maintenance")
  ]%string.

Definition default_monthly_targets : gmap string Z :=
  list_to_map [
    ("🥕 Groceries"%string, 900);
    ("🛒 Shopping & Personal"%string, 675);
    ("🍽️ Dining Out"%string, 250);
    ("🚗 Transportation"%string, 150);
    ("🏥 Services & Medical"%string, 400);
    ("🐕 Pet Care"%string, 300);
    ("🎮 Entertainment & Tech"%string, 125);
    ("🔧 Home Maintenance"%string, 101)
  ].

Definition default_config : config := {|
  category_mapping := default_category_mapping;
  monthly_targets := default_monthly_targets;
  spending_alert_threshold := Qc_of_Z 90
|}.

(** ** Transactions *)

(** A field of a JSON object: absent, [null], or a string. *)
Inductive json_field :=
| Missing
| Null
| Str (s : string).

Record transaction := {
  amount : Z;                     (* signed milliunits *)
  category_name : json_field
}.

(** [transaction.get('category_name', 'Uncategorized')]; [None] is Python's
    [None], returned when the key is present with a null value. *)
Definition get_category_name (t : transaction) : option string :=
  match category_name t with
  | Missing => Some "Uncategorized"%string
  | Null => None
  | Str s => Some s
  end.

(** [self.category_mapping.get(category_name, category_name)] *)
Definition map_category (cfg : config) (name : option string) : option string :=
  match name with
  | Some s => Some (default s (category_mapping cfg !! s))
  | None => None
  end.

(** ** [process_transactions] *)

Section aggregation.
Context {R : Type} {arith : PyArith R}.
Variable cfg : config.

(** One iteration of the loop body. *)
Definition process_transaction (spending_by_category : gmap string R)
    (t : transaction) : gmap string R :=
  if bool_decide (amount t < 0) then
    match map_category cfg (get_category_name t) with
    | Some mapped_category =>
        if bool_decide (is_Some (monthly_targets cfg !! mapped_category)) then
          let amt := py_truediv (Z.abs (amount t)) 1000 in
          <[mapped_category :=
              py_add (default py_zero (spending_by_category !! mapped_category)) amt]>
            spending_by_category
        else spending_by_category
    | None => spending_by_category
    end
  else spending_by_category.

Definition process_transactions (transactions : list transaction) : gmap string R :=
  fold_left process_transaction transactions ∅.

(** The contributions of [transactions] to category [c], in input order:
    one converted amount per outflow whose mapped label is [c]. *)
Definition outflow_to (c : string) (t : transaction) : Prop :=
  amount t < 0 ∧ map_category cfg (get_category_name t) = Some c.

#[global] Instance outflow_to_dec c t : Decision (outflow_to c t).
Proof. unfold outflow_to. apply _. Defined.

Definition contributions (c : string) (transactions : list transaction) : list R :=
  (λ t, py_truediv (Z.abs (amount t)) 1000) <$> filter (outflow_to c) transactions.

(** Left-to-right sum, as the loop accumulates it. *)
Definition running_sum (start : R) (xs : list R) : R := fold_left py_add xs start.

End aggregation.

(** The aggregation as the pipeline runs it, over exact amounts. *)
Definition spending_data_of (cfg : config) (transactions : list transaction) : gmap string Qc :=
  process_transactions cfg transactions.

(** ** Exceptions *)

Inductive exn :=
| OperationalError (msg : string)      (* sqlite3.OperationalError *)
| ZeroDivisionError
| StatisticsError
| OverflowError.                       (* a date or time span out of range *)

Inductive result (A : Type) :=
| Ok (a : A)
| Raise (e : exn).
Arguments Ok {A} a.
Arguments Raise {A} e.

#[global] Instance result_ret : MRet result := λ A a, Ok a.
#[global] Instance result_bind : MBind result := λ A B f m,
  match m with
  | Ok a => f a
  | Raise e => Raise e
  end.

(** A [for] loop whose body may raise: the first exception ends the loop. *)
Fixpoint for_items {A S : Type} (body : S → A → result S) (s : S) (items : list A) : result S :=
  match items with
  | [] => Ok s
  | x :: rest => s' ← body s x; for_items body s' rest
  end.

(** [x / d] on numbers; Python raises on a zero divisor. *)
Definition py_div (x d : Qc) : result Qc :=
  if decide (d = 0%Qc) then Raise ZeroDivisionError else Ok (x / d)%Qc.

(** [max(a, b)]: the first argument is kept unless the second is greater. *)
Definition py_max (a b : Qc) : Qc := if decide (a < b)%Qc then b else a.

(** [sum(xs)], accumulated from the left starting at 0. *)
Definition py_sum (xs : list Qc) : Qc := fold_left Qcplus xs 0%Qc.
Definition py_sum_int (xs : list Z) : Z := fold_left Z.add xs 0.

(** [statistics.mean]: the exact mean; raises on an empty sample. *)
Definition mean (xs : list Qc) : result Qc :=
  match xs with
  | [] => Raise StatisticsError
  | _ => Ok (py_sum xs / Qc_of_Z (Z.of_nat (length xs)))%Qc
  end.

(** [xs[-n:]] for a positive literal [n]. *)
Definition last_n {A} (n : nat) (xs : list A) : list A := drop (length xs - n) xs.

(** [f"{q:.0f}"] for [q] ≥ 0: nearest integer, ties to even. *)
Definition round_half_even (q : Qc) : Z :=
  let f := Qfloor (this q) in
  let r := (q - Qc_of_Z f)%Qc in
  if decide (r < Qc_of_Z 1 / Qc_of_Z 2)%Qc then f
  else if decide (Qc_of_Z 1 / Qc_of_Z 2 < r)%Qc then f + 1
  else if Z.even f then f else f + 1.

Definition format_0f (q : Qc) : string := pretty (round_half_even q).

(** ** The clock *)

Record clock := {
  today : string;             (* datetime.now().strftime('%Y-%m-%d') *)
  days_ago : Z → string;      (* (datetime.now() - timedelta(days=d)).strftime('%Y-%m-%d') *)
  day_of_month : Z            (* datetime.now().day *)
}.

(** ** [calculate_metrics] *)

Record metric := {
  spent : Qc;
  target : Z;
  percentage : Qc;
  status : string;
  status_color : string
}.

Definition over_budget : string := "🚨 Over Budget".
Definition close_to_limit : string := "⚠️ Close to Limit".
Definition on_track : string := "✅ On Track".

(** The loop body for one [(category, target)] item. *)
Definition category_metric (spending_data : gmap string Qc) (category : string)
    (tgt : Z) : result metric :=
  let spent := default 0%Qc (spending_data !! category) in
  percentage ←
    (if decide (0 < tgt) then
       q ← py_div spent (Qc_of_Z tgt); Ok (q * Qc_of_Z 100)%Qc
     else Ok 0%Qc);
  let '(status, status_color) :=
    if decide (Qc_of_Z 100 < percentage)%Qc then (over_budget, "#dc3545"%string)
    else if decide (Qc_of_Z 90 < percentage)%Qc then (close_to_limit, "#ffc107"%string)
    else (on_track, "#28a745"%string) in
  Ok {| spent := spent; target := tgt; percentage := percentage;
        status := status; status_color := status_color |}.

Definition calculate_metrics (cfg : config) (spending_data : gmap string Qc)
    : result (gmap string metric) :=
  for_items
    (λ metrics '(category, tgt),
       m ← category_metric spending_data category tgt;
       Ok (<[category := m]> metrics))
    ∅ (map_to_list (monthly_targets cfg)).

(** ** The SQLite store ([setup_database]) *)

Record daily_row := {
  row_id : Z;
  row_date : string;
  row_category : string;
  row_amount : Qc;
  row_month_budget : Qc;
  row_percentage : Qc
}.

Record alert_row := {
  alert_row_id : Z;
  alert_row_date : string;
  alert_row_category : string;
  alert_row_type : string;
  alert_row_message : string
}.

(** A table with an [AUTOINCREMENT] key: its rows in rowid order and the
    largest id handed out so far. *)
Record table (Row : Type) := {
  rows : list Row;
  last_id : Z
}.
Arguments rows {Row} t.
Arguments last_id {Row} t.

Definition empty_table {Row} : table Row := {| rows := []; last_id := 0 |}.

(** The two tables; [None] while a table has not been created. *)
Record database := {
  daily_spending : option (table daily_row);
  spending_alerts : option (table alert_row)
}.

(** What is found at [db_path]. *)
Inductive storage :=
| Unopenable                 (* the path cannot be opened as a database *)
| NoFile                     (* no file yet: SQLite starts an empty database *)
| DbFile (db : database).

Definition connect (st : storage) : result database :=
  match st with
  | Unopenable => Raise (OperationalError "unable to open database file")
  | NoFile => Ok {| daily_spending := None; spending_alerts := None |}
  | DbFile db => Ok db
  end.

(** [CREATE TABLE IF NOT EXISTS] for both tables. *)
Definition setup_database (st : storage) : result storage :=
  conn ← connect st;
  Ok (DbFile {| daily_spending := Some (default empty_table (daily_spending conn));
                spending_alerts := Some (default empty_table (spending_alerts conn)) |}).

(** The [UNIQUE(date, category)] key of a row. *)
Definition row_key (r : daily_row) : string * string := (row_date r, row_category r).

(** [INSERT OR REPLACE INTO daily_spending (date, category, amount,
    month_budget, percentage)]: the row that conflicts on the unique key is
    deleted, then the new row is inserted under a fresh id. *)
Definition insert_or_replace_daily (db : database) (date category : string)
    (amount month_budget pct : Qc) : result database :=
  match daily_spending db with
  | None => Raise (OperationalError "no such table: daily_spending")
  | Some t =>
      let id := last_id t + 1 in
      let r := {| row_id := id; row_date := date; row_category := category;
                  row_amount := amount; row_month_budget := month_budget;
                  row_percentage := pct |} in
      Ok {| daily_spending :=
              Some {| rows := filter (λ r', row_key r' ≠ (date, category)) (rows t) ++ [r];
                      last_id := id |};
            spending_alerts := spending_alerts db |}
  end.

(** [INSERT INTO spending_alerts (date, category, alert_type, message)] *)
Definition insert_alert (db : database) (date category alert_type message : string)
    : result database :=
  match spending_alerts db with
  | None => Raise (OperationalError "no such table: spending_alerts")
  | Some t =>
      let id := last_id t + 1 in
      let r := {| alert_row_id := id; alert_row_date := date;
                  alert_row_category := category; alert_row_type := alert_type;
                  alert_row_message := message |} in
      Ok {| daily_spending := daily_spending db;
            spending_alerts := Some {| rows := rows t ++ [r]; last_id := id |} |}
  end.

(** ** [save_daily_data] *)

Definition save_daily_data (clk : clock) (st : storage)
    (spending_data : gmap string Qc) (metrics : gmap string metric) : result storage :=
  conn ← connect st;
  conn' ← for_items
    (λ conn '(category, data),
       insert_or_replace_daily conn (today clk) category
         (spent data) (Qc_of_Z (target data)) (percentage data))
    conn (map_to_list metrics);
  Ok (DbFile conn').

(** ** [get_historical_data] *)

Record point := {
  point_date : string;
  point_amount : Qc;
  point_percentage : Qc
}.

Definition date_le (r1 r2 : daily_row) : Prop := String.leb (row_date r1) (row_date r2).

#[global] Instance date_le_dec r1 r2 : Decision (date_le r1 r2).
Proof. unfold date_le. apply _. Defined.

(** [SELECT date, category, amount, percentage FROM daily_spending
    WHERE date >= ? ORDER BY date ASC] *)
Definition select_daily_since (db : database) (cutoff_date : string) : result (list daily_row) :=
  match daily_spending db with
  | None => Raise (OperationalError "no such table: daily_spending")
  | Some t =>
      Ok (merge_sort date_le (filter (λ r, String.leb cutoff_date (row_date r)) (rows t)))
  end.

(** [data[category].append({...})] on a [defaultdict(list)] *)
Definition append_point (data : gmap string (list point)) (r : daily_row)
    : gmap string (list point) :=
  <[row_category r :=
      default [] (data !! row_category r) ++
      [{| point_date := row_date r; point_amount := row_amount r;
          point_percentage := row_percentage r |}]]> data.

Definition get_historical_data (clk : clock) (st : storage) (days : Z)
    : result (gmap string (list point)) :=
  let cutoff_date := days_ago clk days in
  conn ← connect st;
  fetched ← select_daily_since conn cutoff_date;
  Ok (fold_left append_point fetched ∅).

(** ** [calculate_spending_trends] *)

Record trend_entry := {
  trend : string;
  trend_color : string;
  slope : Qc;
  projected_total : Qc;
  avg_daily : Qc
}.

Definition increasing : string := "📈 Increasing".
Definition decreasing : string := "📉 Decreasing".
Definition stable : string := "➡️ Stable".

(** The sums of the regression over [amounts] and the day indices
    [range(len(amounts))]. *)
Definition x_values_of (amounts : list Qc) : list Z := seqZ 0 (Z.of_nat (length amounts)).

Definition slope_numerator (amounts : list Qc) : Qc :=
  let x_values := x_values_of amounts in
  let n := Z.of_nat (length amounts) in
  let sum_x := py_sum_int x_values in
  let sum_y := py_sum amounts in
  let sum_xy := py_sum (zip_with (λ x y, Qc_of_Z x * y)%Qc x_values amounts) in
  (Qc_of_Z n * sum_xy - Qc_of_Z sum_x * sum_y)%Qc.

Definition slope_denominator (amounts : list Qc) : Z :=
  let x_values := x_values_of amounts in
  let n := Z.of_nat (length amounts) in
  let sum_x := py_sum_int x_values in
  let sum_x2 := py_sum_int ((λ x, x * x) <$> x_values) in
  n * sum_x2 - sum_x * sum_x.

(** The loop body for one category: [None] when the category is skipped.
    The list [percentages] of the source is built but never read, and is
    left out. *)
Definition category_trend (clk : clock) (data_points : list point)
    : result (option trend_entry) :=
  if decide (length data_points < 7)%nat then Ok None
  else
    let amounts := point_amount <$> last_n 14 data_points in
    if decide (2 ≤ length amounts)%nat then
      slope ← py_div (slope_numerator amounts) (Qc_of_Z (slope_denominator amounts));
      let '(trend, trend_color) :=
        if decide (Qc_of_Z 5 < slope)%Qc then (increasing, "#dc3545"%string)
        else if decide (slope < Qc_of_Z (-5))%Qc then (decreasing, "#28a745"%string)
        else (stable, "#6c757d"%string) in
      let days_left := 30 - day_of_month clk in
      let projected_additional := (slope * Qc_of_Z days_left)%Qc in
      let current_amount := default 0%Qc (last amounts) in
      let projected_total := (current_amount + py_max 0 projected_additional)%Qc in
      avg_daily ←
        (if decide (7 ≤ length amounts)%nat then mean (last_n 7 amounts) else Ok 0%Qc);
      Ok (Some {| trend := trend; trend_color := trend_color; slope := slope;
                  projected_total := projected_total; avg_daily := avg_daily |})
    else Ok None.

Definition calculate_spending_trends (clk : clock)
    (historical_data : gmap string (list point)) : result (gmap string trend_entry) :=
  for_items
    (λ trends '(category, data_points),
       r ← category_trend clk data_points;
       Ok (match r with
           | Some entry => <[category := entry]> trends
           | None => trends
           end))
    ∅ (map_to_list historical_data).

(** ** [check_spending_alerts] *)

Record alert := {
  alert_type : string;
  alert_category : string;
  alert_message : string;
  alert_severity : string
}.

Definition high_spending : string := "high_spending".
Definition over_budget_alert : string := "over_budget".
Definition warning : string := "warning".
Definition danger : string := "danger".

(** The loop body for one [(category, data)] item of [metrics]. *)
Definition check_category (cfg : config) (clk : clock)
    (state : list alert * database) (item : string * metric)
    : result (list alert * database) :=
  let '(alerts, conn) := state in
  let '(category, data) := item in
  let percentage := percentage data in
  if decide (spending_alert_threshold cfg ≤ percentage ∧ percentage < Qc_of_Z 100)%Qc then
    let alert_msg :=
      (category +:+ " is at " +:+ format_0f percentage +:+ "% of monthly budget")%string in
    let alerts := alerts ++ [{| alert_type := high_spending; alert_category := category;
                                alert_message := alert_msg; alert_severity := warning |}] in
    conn ← insert_alert conn (today clk) category high_spending alert_msg;
    Ok (alerts, conn)
  else if decide (Qc_of_Z 100 ≤ percentage)%Qc then
    let alert_msg :=
      (category +:+ " is OVER BUDGET at " +:+ format_0f percentage +:+ "%")%string in
    let alerts := alerts ++ [{| alert_type := over_budget_alert; alert_category := category;
                                alert_message := alert_msg; alert_severity := danger |}] in
    conn ← insert_alert conn (today clk) category over_budget_alert alert_msg;
    Ok (alerts, conn)
  else Ok (alerts, conn).

Definition check_spending_alerts (cfg : config) (clk : clock) (st : storage)
    (metrics : gmap string metric) : result (list alert * storage) :=
  conn ← connect st;
  '(alerts, conn') ← for_items (check_category cfg clk) ([], conn) (map_to_list metrics);
  Ok (alerts, DbFile conn').

(** ** [run]: the pipeline from the fetched transactions to the alerts *)

Record bundle := {
  bundle_metrics : gmap string metric;
  bundle_trends : gmap string trend_entry;
  bundle_alerts : list alert
}.

(** The steps of [run] up to [check_spending_alerts]; an exception of any
    step is logged and raised again, so it is the result of [run]. *)
Definition run (cfg : config) (clk : clock) (st : storage)
    (transactions : list transaction) : result (bundle * storage) :=
  let spending_data := spending_data_of cfg transactions in
  metrics ← calculate_metrics cfg spending_data;
  st1 ← save_daily_data clk st spending_data metrics;
  historical_data ← get_historical_data clk st1 30;
  trends ← calculate_spending_trends clk historical_data;
  '(alerts, st2) ← check_spending_alerts cfg clk st1 metrics;
  Ok ({| bundle_metrics := metrics; bundle_trends := trends; bundle_alerts := alerts |}, st2).

(** ** The numeric steps over an arithmetic interface *)

(** [calculate_metrics] and [calculate_spending_trends] once more, written
    over the operations they perform on Python numbers, so that what is
    proved of them holds of the binary64 arithmetic the interpreter uses as
    well as of exact arithmetic.  A number is a [float] or the [int] [0]
    that [dict.get], [sum] and [max] can return; the two are told apart only
    by formatting, and are one type here. *)
Module Numeric.

(** [of_int] is the conversion of an [int] operand that meets a [float];
    [py_lt a b] is the test [a < b] (also written [b > a]); [py_sum] is
    [sum(xs)] and [py_mean] is [statistics.mean(xs)] of a non-empty list. *)
Class PyNum (R : Type) := {
  num_arith :: PyArith R;
  of_int : Z → R;
  py_sub : R → R → R;
  py_mul : R → R → R;
  py_truediv_num : R → R → R;
  py_lt : R → R → bool;
  py_sum : list R → R;
  py_mean : list R → R
}.
#[global] Existing Instance num_arith.

(** Exact rationals. *)
#[export] Instance exact_num : PyNum Qc := {|
  num_arith := exact_arith;
  of_int := Qc_of_Z;
  py_sub := Qcminus;
  py_mul := Qcmult;
  py_truediv_num := Qcdiv;
  py_lt a b := bool_decide (a < b)%Qc;
  py_sum xs := fold_left Qcplus xs 0%Qc;
  py_mean xs := (fold_left Qcplus xs 0%Qc / Qc_of_Z (Z.of_nat (length xs)))%Qc
|}.

(** IEEE binary64.  [statistics.mean] adds the values exactly and rounds the
    quotient once.  [sum] adds from the left, as CPython does up to version
    3.11 (later versions compensate the rounding errors; both agree when
    every partial sum is exact).  The special values are not modelled. *)

(** A finite double as a multiple of 2^-1074. *)
Definition scaled_of_float (x : float) : Z :=
  match Prim2SF x with
  | S754_finite s m e =>
      let v := Z.shiftl (Zpos m) (e + 1074) in if s then - v else v
  | _ => 0
  end.

Definition float_mean (xs : list float) : float :=
  int_truediv (fold_left Z.add (scaled_of_float <$> xs) 0)
              (Z.of_nat (length xs) * 2 ^ 1074).

Definition binary64_num : PyNum float := {|
  num_arith := binary64_arith;
  of_int := f64_of_Z;
  py_sub := PrimFloat.sub;
  py_mul := PrimFloat.mul;
  py_truediv_num := PrimFloat.div;
  py_lt := PrimFloat.ltb;
  py_sum xs := fold_left PrimFloat.add xs (f64_of_Z 0);
  py_mean := float_mean
|}.

Section numeric.
Context {R : Type} {num : PyNum R}.

(** [x / d] for an [int] divisor: Python raises on zero. *)
Definition py_div (x : R) (d : Z) : result R :=
  if decide (d = 0) then Raise ZeroDivisionError else Ok (py_truediv_num x (of_int d)).

(** [max(0, x)]: the first argument is kept unless the second is greater. *)
Definition py_max0 (x : R) : R := if py_lt (of_int 0) x then x else of_int 0.

(** [statistics.mean]: raises on an empty sample. *)
Definition mean (xs : list R) : result R :=
  match xs with
  | [] => Raise StatisticsError
  | _ => Ok (py_mean xs)
  end.

(** *** [calculate_metrics] *)

Record metric := {
  spent : R;
  target : Z;
  percentage : R;
  status : string;
  status_color : string
}.

(** The loop body for one [(category, target)] item. *)
Definition category_metric (spending_data : gmap string R) (category : string)
    (tgt : Z) : result metric :=
  let spent := default py_zero (spending_data !! category) in
  percentage ←
    (if decide (0 < tgt) then
       q ← py_div spent tgt; Ok (py_mul q (of_int 100))
     else Ok (of_int 0));
  let '(status, status_color) :=
    if py_lt (of_int 100) percentage then (over_budget, "#dc3545"%string)
    else if py_lt (of_int 90) percentage then (close_to_limit, "#ffc107"%string)
    else (on_track, "#28a745"%string) in
  Ok {| spent := spent; target := tgt; percentage := percentage;
        status := status; status_color := status_color |}.

Definition calculate_metrics (cfg : config) (spending_data : gmap string R)
    : result (gmap string metric) :=
  for_items
    (λ metrics '(category, tgt),
       m ← category_metric spending_data category tgt;
       Ok (<[category := m]> metrics))
    ∅ (map_to_list (monthly_targets cfg)).

(** *** [calculate_spending_trends] *)

Record point := {
  point_date : string;
  point_amount : R;
  point_percentage : R
}.

Record trend_entry := {
  trend : string;
  trend_color : string;
  slope : R;
  projected_total : R;
  avg_daily : R
}.

(** The loop body for one category: [None] when the category is skipped.
    The list [percentages] of the source is built but never read, and is
    left out. *)
Definition category_trend (clk : clock) (data_points : list point)
    : result (option trend_entry) :=
  if decide (length data_points < 7)%nat then Ok None
  else
    let amounts := point_amount <$> last_n 14 data_points in
    if decide (2 ≤ length amounts)%nat then
      let x_values := seqZ 0 (Z.of_nat (length amounts)) in
      let n := Z.of_nat (length amounts) in
      let sum_x := py_sum_int x_values in
      let sum_y := py_sum amounts in
      let sum_xy := py_sum (zip_with (λ x y, py_mul (of_int x) y) x_values amounts) in
      let sum_x2 := py_sum_int ((λ x, x * x) <$> x_values) in
      slope ←
        py_div (py_sub (py_mul (of_int n) sum_xy) (py_mul (of_int sum_x) sum_y))
               (n * sum_x2 - sum_x * sum_x);
      let '(trend, trend_color) :=
        if py_lt (of_int 5) slope then (increasing, "#dc3545"%string)
        else if py_lt slope (of_int (-5)) then (decreasing, "#28a745"%string)
        else (stable, "#6c757d"%string) in
      let days_left := 30 - day_of_month clk in
      let projected_additional := py_mul slope (of_int days_left) in
      let current_amount := default py_zero (last amounts) in
      let projected_total := py_add current_amount (py_max0 projected_additional) in
      avg_daily ←
        (if decide (7 ≤ length amounts)%nat then mean (last_n 7 amounts) else Ok py_zero);
      Ok (Some {| trend := trend; trend_color := trend_color; slope := slope;
                  projected_total := projected_total; avg_daily := avg_daily |})
    else Ok None.

Definition calculate_spending_trends (clk : clock)
    (historical_data : gmap string (list point)) : result (gmap string trend_entry) :=
  for_items
    (λ trends '(category, data_points),
       r ← category_trend clk data_points;
       Ok (match r with
           | Some entry => <[category := entry]> trends
           | None => trends
           end))
    ∅ (map_to_list historical_data).

(** The regression slope as the specification writes it:
    [(n·Σxy − Σx·Σy) / (n·Σx² − (Σx)²)] over the day indices [0..n-1], each
    operation being the one of the arithmetic. *)
Definition ols_slope (ys : list R) : R :=
  let n := Z.of_nat (length ys) in
  let Σx := py_sum_int (seqZ 0 n) in
  let Σx2 := py_sum_int ((λ i, i * i) <$> seqZ 0 n) in
  let Σy := py_sum ys in
  let Σxy := py_sum (imap (λ i y, py_mul (of_int (Z.of_nat i)) y) ys) in
  py_truediv_num (py_sub (py_mul (of_int n) Σxy) (py_mul (of_int Σx) Σy))
                 (of_int (n * Σx2 - Σx * Σx)).

End numeric.

Arguments metric R : clear implicits.
Arguments point R : clear implicits.
Arguments trend_entry R : clear implicits.

End Numeric.

(** ** [send_slack_notification] *)

(** The JSON body posted to the webhook: the fallback text and the text of
    its single section block. *)
Record slack_message := {
  slack_text : string;
  slack_block_text : string
}.

(** What the call did: nothing, a request that succeeded, or a request that
    failed (any exception of [requests.post] or [raise_for_status] is caught
    and logged). *)
Inductive slack_outcome :=
| SlackSkipped
| SlackPosted (url : string) (message : slack_message)
| SlackFailed (url : string) (message : slack_message).

Definition newline : string := String (ascii_of_nat 10) EmptyString.

(** [webhook_url] is [os.getenv('SLACK_WEBHOOK_URL')]: [None] when unset;
    [post url message] tells whether the request went through. *)
Definition send_slack_notification (webhook_url : option string)
    (post : string → slack_message → bool) (alerts : list alert) : slack_outcome :=
  match webhook_url with
  | None => SlackSkipped
  | Some url =>
      if decide (url = ""%string ∨ alerts = []) then SlackSkipped
      else
        let critical_alerts := filter (λ a, alert_severity a = danger) alerts in
        if decide (critical_alerts = []) then SlackSkipped
        else
          let message :=
            {| slack_text := "🚨 Budget Alert: Categories Over Budget";
               slack_block_text :=
                 ("*🚨 Budget Alerts*" +:+ newline +:+
                  String.concat newline
                    ((λ a, "• " +:+ alert_message a) <$> critical_alerts))%string |} in
          if post url message then SlackPosted url message
          else SlackFailed url message
  end.

(** ** [cleanup_old_files] *)

(** The clean-up is modelled over the part of the file system it reads and
    changes: paths and what they name.  Symbolic links and failing system
    calls other than [os.listdir] of a non-directory are outside the
    model. *)

(** What a path names: a regular file with its modification time, a
    directory, or something that is neither. *)
Inductive node :=
| RegularFile (mtime : Z)
| Directory
| Special.

#[global] Instance node_eq_dec : EqDecision node.
Proof. solve_decision. Defined.

(** The file system under [/app]: absolute paths to what they name. *)
Notation filesystem := (gmap string node).

(** [s] without the leading [prefix], if it starts with it. *)
Fixpoint strip_prefix (prefix s : string) : option string :=
  match prefix with
  | EmptyString => Some s
  | String a prefix' =>
      match s with
      | String b s' => if Ascii.eqb a b then strip_prefix prefix' s' else None
      | EmptyString => None
      end
  end.

#[global] Arguments strip_prefix !_ !_ : assert.

(** [s.endswith(suffix)] *)
Fixpoint endswith (s suffix : string) : bool :=
  String.eqb s suffix ||
  match s with
  | String _ s' => endswith s' suffix
  | EmptyString => false
  end.

(** [needle in s] *)
Fixpoint str_in (needle s : string) : bool :=
  match strip_prefix needle s with
  | Some _ => true
  | None =>
      match s with
      | String _ s' => str_in needle s'
      | EmptyString => false
      end
  end.

(** [os.path.join(directory, name)] for the relative names used here. *)
Definition path_join (directory name : string) : string := directory +:+ "/" +:+ name.

(** The name under which [path] is an entry of [directory], if it is one. *)
Definition entry_name (directory path : string) : option string :=
  match strip_prefix (directory +:+ "/") path with
  | Some name =>
      if bool_decide (name = "") || str_in "/" name then None else Some name
  | None => None
  end.

(** The pattern [*] does not match names that start with a dot. *)
Definition hidden (name : string) : bool :=
  match name with
  | String "."%char _ => true
  | _ => false
  end.

Definition visible_entry (directory path : string) : bool :=
  match entry_name directory path with
  | Some name => negb (hidden name)
  | None => false
  end.

Definition isdir (fs : filesystem) (path : string) : bool :=
  bool_decide (fs !! path = Some Directory).

(** The paths of [os.listdir(directory)]. *)
Definition listdir (fs : filesystem) (directory : string) : list string :=
  filter (λ path, is_Some (entry_name directory path)) (map_to_list fs).*1.

(** [glob.glob(os.path.join(directory, "*"))] *)
Definition glob_star (fs : filesystem) (directory : string) : list string :=
  if isdir fs directory
  then filter (λ path, visible_entry directory path = true) (map_to_list fs).*1
  else [].

(** [timedelta(days=d)] in microseconds, the resolution of [datetime]. *)
Definition timedelta_days (d : Z) : Z := d * 86400000000.

(** The body of both removal loops: a regular file that is not [exempt]
    and was modified before [cutoff] is removed. *)
Definition remove_expired (cutoff : Z) (exempt : string → bool)
    (fs : filesystem) (file_path : string) : filesystem :=
  match fs !! file_path with
  | Some (RegularFile file_time) =>
      if exempt file_path then fs
      else if bool_decide (file_time < cutoff) then delete file_path fs else fs
  | _ => fs
  end.

Inductive cleanup_result :=
| Cleaned (fs : filesystem)
| NotADirectoryError (path : string)      (* os.listdir of a non-directory *)
| FileNotFoundError (path : string).      (* os.listdir of a missing path *)

Definition production_exempt (file_path : string) : bool :=
  endswith file_path "latest_budget_data.json" || str_in "/test/" file_path.

Definition cleanup_directory (cutoff_date test_cutoff_date : Z) (directory : string)
    (fs : filesystem) : cleanup_result :=
  let fs1 := foldl (remove_expired cutoff_date production_exempt) fs
               (glob_star fs directory) in
  let test_dir := path_join directory "test" in
  match fs1 !! test_dir with
  | Some _ =>
      let fs2 := foldl (remove_expired test_cutoff_date (λ _, false)) fs1
                   (glob_star fs1 test_dir) in
      match fs2 !! test_dir with
      | Some Directory =>
          match listdir fs2 test_dir with
          | [] => Cleaned (delete test_dir fs2)
          | _ => Cleaned fs2
          end
      | Some _ => NotADirectoryError test_dir
      | None => FileNotFoundError test_dir
      end
  | None => Cleaned fs1
  end.

(** [now] and [now'] are the two readings of [datetime.now()], in
    microseconds. *)
Definition cleanup_old_files (now now' : Z) (fs : filesystem) : cleanup_result :=
  let cutoff_date := now - timedelta_days 90 in
  let test_cutoff_date := now' - timedelta_days 7 in
  match cleanup_directory cutoff_date test_cutoff_date "/app/reports" fs with
  | Cleaned fs1 => cleanup_directory cutoff_date test_cutoff_date "/app/logs" fs1
  | raised => raised
  end.

(** ** [budget_api.py]: [serve_historical_data] *)

(** One element of the [data] list of the response. *)
Record history_item := {
  item_date : string;
  item_category : string;
  item_amount : Qc;
  item_percentage : Qc;
  item_month_budget : Qc
}.

Record history_response := {
  response_days : Z;
  response_start_date : string;
  response_data : list history_item;
  response_count : nat
}.

(** What the handler sends: the JSON body with status 200, or
    [send_error] with 404 or 500. *)
Inductive http_reply :=
| Json200 (response : history_response)
| Error404 (message : string)
| Error500 (message : string).

(** The order of [(date, category)] keys, byte by byte in each column. *)
Definition key_le (k1 k2 : string * string) : Prop :=
  match String.compare k1.1 k2.1 with
  | Lt => True
  | Eq => String.leb k1.2 k2.2
  | Gt => False
  end.

#[global] Instance key_le_dec k1 k2 : Decision (key_le k1 k2).
Proof. unfold key_le. destruct (String.compare k1.1 k2.1); apply _. Defined.

Definition history_order (r1 r2 : daily_row) : Prop := key_le (row_key r1) (row_key r2).

#[global] Instance history_order_dec r1 r2 : Decision (history_order r1 r2).
Proof. unfold history_order. apply _. Defined.

(** [SELECT date, category, amount, percentage, month_budget
    FROM daily_spending WHERE date >= ? ORDER BY date ASC, category ASC] *)
Definition select_history (db : database) (cutoff_date : string) : result (list daily_row) :=
  match daily_spending db with
  | None => Raise (OperationalError "no such table: daily_spending")
  | Some t =>
      Ok (merge_sort history_order
            (filter (λ r, String.leb cutoff_date (row_date r)) (rows t)))
  end.

Definition item_of_row (row : daily_row) : history_item :=
  {| item_date := row_date row; item_category := row_category row;
     item_amount := row_amount row; item_percentage := row_percentage row;
     item_month_budget := row_month_budget row |}.

(** The clock of the API process: the proleptic Gregorian ordinal of the
    day of [datetime.now()], from 1 for 0001-01-01 to 3652059 for
    9999-12-31, and the ['%Y-%m-%d'] text of the day with a given ordinal. *)
Record api_clock := {
  now_ordinal : Z;
  strftime_ymd : Z → string
}.

(** [timedelta(days=days)]: the constructor refuses more than 999999999
    days in either direction. *)
Definition timedelta (days : Z) : result Z :=
  if decide (Z.abs days ≤ 999999999) then Ok days else Raise OverflowError.

(** [datetime - timedelta]: the day reached must lie in the years 1 to
    9999. *)
Definition datetime_sub (ordinal delta : Z) : result Z :=
  if decide (1 ≤ ordinal - delta ≤ 3652059) then Ok (ordinal - delta)
  else Raise OverflowError.

(** [(datetime.now() - timedelta(days=days)).strftime('%Y-%m-%d')] *)
Definition cutoff_date_of (clk : api_clock) (days : Z) : result string :=
  delta ← timedelta days;
  day ← datetime_sub (now_ordinal clk) delta;
  Ok (strftime_ymd clk day).

(** [path_exists] is [os.path.exists(self.db_path)].  The function either
    sends a reply and returns, or raises: the cut-off is computed before
    the [try], so its [OverflowError] leaves the function, while any
    exception of the query is caught and answered with status 500. *)
Definition serve_historical_data (path_exists : bool) (clk : api_clock) (st : storage)
    (days : Z) : result http_reply :=
  if negb path_exists then Ok (Error404 "No historical data available")
  else
    cutoff_date ← cutoff_date_of clk days;
    Ok match conn ← connect st; select_history conn cutoff_date with
       | Ok fetched =>
           let data := item_of_row <$> fetched in
           Json200 {| response_days := days; response_start_date := cutoff_date;
                      response_data := data; response_count := length data |}
       | Raise _ => Error500 "Failed to load historical data"
       end.

(** ** [test_management.py]: [clean_test_data] *)

Inductive os_error :=
| ENOENT        (* FileNotFoundError *)
| ENOTDIR       (* NotADirectoryError *)
| ENOTEMPTY.    (* OSError: directory not empty *)

(** How [clean_test_data] ends: it returns at once, it returns after
    removing the directory, or [os.rmdir] raises; the file system is the one
    it leaves behind. *)
Inductive clean_test_outcome :=
| NothingToClean
| TestDataCleaned (fs : filesystem)
| RmdirFailed (e : os_error) (fs : filesystem).

(** [os.rmdir(path)] *)
Definition rmdir (fs : filesystem) (path : string) : clean_test_outcome :=
  match fs !! path with
  | Some Directory =>
      match listdir fs path with
      | [] => TestDataCleaned (delete path fs)
      | _ => RmdirFailed ENOTEMPTY fs
      end
  | Some _ => RmdirFailed ENOTDIR fs
  | None => RmdirFailed ENOENT fs
  end.

(** [if os.path.isfile(file_path): os.remove(file_path)] *)
Definition remove_file (fs : filesystem) (file_path : string) : filesystem :=
  match fs !! file_path with
  | Some (RegularFile _) => delete file_path fs
  | _ => fs
  end.

(** [os.path.join(path, name)] for a relative [name]: no separator is added
    to an empty [path] or to one that ends with a separator. *)
Definition os_path_join (path name : string) : string :=
  if bool_decide (path = "") || endswith path "/" then path +:+ name
  else path +:+ "/" +:+ name.

(** The paths that are keys of the file system and that [glob] reads
    literally: absolute, without a trailing or doubled separator, without
    [.] or [..] components, and without the pattern characters [*], [?]
    and [[]. *)
Definition plain_path (path : string) : bool :=
  bool_decide (is_Some (strip_prefix "/" path)) &&
  negb (endswith path "/") && negb (str_in "//" path) &&
  negb (str_in "/./" path) && negb (endswith path "/.") &&
  negb (str_in "/../" path) && negb (endswith path "/..") &&
  negb (str_in "*" path) && negb (str_in "?" path) && negb (str_in "[" path).

(** The file system answers for [reports_dir] as the operating system does
    only when it is a [plain_path], as the default [/app/reports] is. *)
Definition clean_test_data (reports_dir : string) (fs : filesystem) : clean_test_outcome :=
  let test_dir := os_path_join reports_dir "test" in
  match fs !! test_dir with
  | None => NothingToClean
  | Some _ =>
      let test_files := glob_star fs test_dir in
      match test_files with
      | [] => rmdir fs test_dir
      | _ => rmdir (foldl remove_file fs test_files) test_dir
      end
  end.

(** ** Letter case of labels *)

(** ASCII lower-casing, used to say that two labels differ only in letter
    case; bytes outside [A-Z] are kept. *)
Definition ascii_lower (a : ascii) : ascii :=
  let n := nat_of_ascii a in
  if decide (65 ≤ n ≤ 90)%nat then ascii_of_nat (n + 32) else a.

Fixpoint string_lower (s : string) : string :=
  match s with
  | EmptyString => EmptyString
  | String a rest => String (ascii_lower a) (string_lower rest)
  end.

Definition same_up_to_case (s1 s2 : string) : Prop := string_lower s1 = string_lower s2.

(** ** Notions used to state the properties *)

(** The label a transaction is booked under, as the claim reads a
    transaction: its category label; a transaction without the field is
    booked under [Uncategorized], one whose field is null under no label. *)
Definition booked_label (t : transaction) : option string :=
  match category_name t with
  | Str label => Some label
  | Missing => Some "Uncategorized"%string
  | Null => None
  end.

(** [t] is an outflow whose label the mapping table sends to [c]; a label
    that is not in the table stands for itself. *)
Definition counts_towards (cfg : config) (c : string) (t : transaction) : Prop :=
  amount t < 0 ∧
  match booked_label t with
  | Some label => default label (category_mapping cfg !! label) = c
  | None => False
  end.

#[global] Instance counts_towards_dec cfg c t : Decision (counts_towards cfg c t).
Proof. unfold counts_towards. destruct (booked_label t); apply _. Defined.

(** The alert one item of [metrics] gives rise to, read off the two branches
    of the loop body. *)
Definition raised_alert (cfg : config) (category : string) (data : metric) : option alert :=
  let p := percentage data in
  if decide (spending_alert_threshold cfg ≤ p ∧ p < Qc_of_Z 100)%Qc then
    Some {| alert_type := high_spending; alert_category := category;
            alert_message :=
              (category +:+ " is at " +:+ format_0f p +:+ "% of monthly budget")%string;
            alert_severity := warning |}
  else if decide (Qc_of_Z 100 ≤ p)%Qc then
    Some {| alert_type := over_budget_alert; alert_category := category;
            alert_message :=
              (category +:+ " is OVER BUDGET at " +:+ format_0f p +:+ "%")%string;
            alert_severity := danger |}
  else None.

Definition raised_alerts (cfg : config) (items : list (string * metric)) : list alert :=
  items ≫= λ '(category, data), option_list (raised_alert cfg category data).

(** The stored rows under one [(date, category)] key. *)
Definition rows_with (k : string * string) (rs : list daily_row) : list daily_row :=
  filter (λ r, row_key r = k) rs.

(** The row holds the values of a metrics entry. *)
Definition row_holds (r : daily_row) (data : metric) : Prop :=
  row_amount r = spent data ∧
  row_month_budget r = Qc_of_Z (target data) ∧
  row_percentage r = percentage data.

(** The regression slope as the specification writes it:
    [(n·Σxy − Σx·Σy) / (n·Σx² − (Σx)²)] with the sums over the day
    indices [0..n-1]. *)
Fixpoint sigma (n : nat) (f : nat → Qc) : Qc :=
  match n with
  | O => 0%Qc
  | S k => (sigma k f + f k)%Qc
  end.

Definition ols_slope (ys : list Qc) : Qc :=
  let n := length ys in
  let x := λ i : nat, Qc_of_Z (Z.of_nat i) in
  let y := λ i : nat, default 0%Qc (ys !! i) in
  ((Qc_of_Z (Z.of_nat n) * sigma n (λ i, x i * y i) - sigma n x * sigma n y) /
   (Qc_of_Z (Z.of_nat n) * sigma n (λ i, x i * x i) - sigma n x * sigma n x))%Qc.

(** The row [INSERT INTO spending_alerts] stores for an alert. *)
Definition alert_row_of (date : string) (id : Z) (a : alert) : alert_row :=
  {| alert_row_id := id; alert_row_date := date;
     alert_row_category := alert_category a; alert_row_type := alert_type a;
     alert_row_message := alert_message a |}.

(** The row [INSERT OR REPLACE INTO daily_spending] stores for an item of
    [metrics]. *)
Definition daily_row_of (date : string) (id : Z) (item : string * metric) : daily_row :=
  {| row_id := id; row_date := date; row_category := item.1;
     row_amount := spent item.2; row_month_budget := Qc_of_Z (target item.2);
     row_percentage := percentage item.2 |}.

(** A row that a save of [metrics] on [date] replaces. *)
Definition overwritten (date : string) (metrics : gmap string metric) (r : daily_row) : Prop :=
  row_date r = date ∧ is_Some (metrics !! row_category r).

(** The point [get_historical_data] builds from a fetched row, and the
    order of points by date. *)
Definition point_of_row (r : daily_row) : point :=
  {| point_date := row_date r; point_amount := row_amount r;
     point_percentage := row_percentage r |}.

Definition point_date_le (p q : point) : Prop := String.leb (point_date p) (point_date q).

(** The rows of category [c] dated [cutoff_date] or later. *)
Definition selected_rows (cutoff_date c : string) (rs : list daily_row) : list daily_row :=
  filter (λ r, row_category r = c ∧ String.leb cutoff_date (row_date r)) rs.

(** The amount of a transaction in currency units. *)
Definition outflow_units (t : transaction) : Qc :=
  (Qc_of_Z (Z.abs (amount t)) / Qc_of_Z 1000)%Qc.

(** The integrity constraints of the schema: ids are positive, distinct and
    at most the table's counter ([PRIMARY KEY AUTOINCREMENT]), and a
    [(date, category)] key occurs once ([UNIQUE(date, category)]). *)
Definition ids_ok {Row : Type} (id_of : Row → Z) (t : table Row) : Prop :=
  NoDup (id_of <$> rows t) ∧ Forall (λ r, 0 < id_of r ≤ last_id t) (rows t).

#[global] Instance overwritten_dec date metrics r : Decision (overwritten date metrics r).
Proof. unfold overwritten. apply _. Defined.

Definition database_ok (db : database) : Prop :=
  ∃ t a,
    daily_spending db = Some t ∧ spending_alerts db = Some a ∧
    NoDup (row_key <$> rows t) ∧ 0 ≤ last_id t ∧ 0 ≤ last_id a ∧
    ids_ok row_id t ∧ ids_ok alert_row_id a.

(** A regular file that a removal loop with this [cutoff] and exemption
    removes. *)
Definition expired (cutoff : Z) (exempt : string → bool) (path : string)
    (n : option node) : bool :=
  match n with
  | Some (RegularFile t) => negb (exempt path) && bool_decide (t < cutoff)
  | _ => false
  end.

(** What [cleanup_directory] removes from [directory], in terms of the file
    system before and after. *)
Definition removed_by (cutoff_date test_cutoff_date : Z) (fs fs' : filesystem) (directory p : string)
    (n : node) : Prop :=
  let test_dir := path_join directory "test" in
  (fs !! directory = Some Directory ∧ visible_entry directory p = true ∧
   expired cutoff_date production_exempt p (Some n) = true) ∨
  (fs !! test_dir = Some Directory ∧ visible_entry test_dir p = true ∧
   expired test_cutoff_date (λ _, false) p (Some n) = true) ∨
  (p = test_dir ∧ n = Directory ∧ listdir fs' test_dir = []).

(** [directory/test] stops the clean-up when it names something that is not
    a directory and that the first loop leaves in place. *)
Definition test_path_blocks (cutoff_date : Z) (fs : filesystem) (directory : string) : bool :=
  match fs !! path_join directory "test" with
  | Some (RegularFile t) => negb (isdir fs directory && bool_decide (t < cutoff_date))
  | Some Special => true
  | Some Directory | None => false
  end.

(** The key of an item of the API response. *)
Definition item_key (i : history_item) : string * string := (item_date i, item_category i).

(** The item the API serves for a metrics entry saved on [date]. *)
Definition item_of_metric (date c : string) (data : metric) : history_item :=
  {| item_date := date; item_category := c; item_amount := spent data;
     item_percentage := percentage data; item_month_budget := Qc_of_Z (target data) |}.

(** A path that [clean_test_data] removes in its loop: a visible regular
    file directly in the test directory. *)
Definition test_file (fs : filesystem) (test_dir p : string) : bool :=
  isdir fs test_dir && visible_entry test_dir p &&
  match fs !! p with Some (RegularFile _) => true | _ => false end.

(** The exact model read as the numeric model over the rationals. *)
Definition numeric_point (p : point) : Numeric.point Qc :=
  {| Numeric.point_date := point_date p; Numeric.point_amount := point_amount p;
     Numeric.point_percentage := point_percentage p |}.

Definition exact_metric (m : Numeric.metric Qc) : metric :=
  {| spent := Numeric.spent m; target := Numeric.target m;
     percentage := Numeric.percentage m; status := Numeric.status m;
     status_color := Numeric.status_color m |}.

Definition exact_trend_entry (e : Numeric.trend_entry Qc) : trend_entry :=
  {| trend := Numeric.trend e; trend_color := Numeric.trend_color e;
     slope := Numeric.slope e; projected_total := Numeric.projected_total e;
     avg_daily := Numeric.avg_daily e |}.

(** ** Sample inputs *)

(** Sample transactions: three grocery outflows of 0.10, 0.20 and 0.30
    currency units, in both orders. *)
Definition grocery_outflow (milliunits : Z) : transaction :=
  {| amount := milliunits; category_name := Str "🥕  Groceries" |}.

Definition outflows_up : list transaction :=
  [grocery_outflow (-100); grocery_outflow (-200); grocery_outflow (-300)].

Definition outflows_down : list transaction :=
  [grocery_outflow (-300); grocery_outflow (-200); grocery_outflow (-100)].

(** Sample inputs: a clock, a store as [setup_database] leaves it on first
    use, and metrics with one category at 90 percent and one at 100. *)
Definition sample_clock : clock :=
  {| today := "2025-06-10"; days_ago := λ _, "2025-05-11"%string; day_of_month := 10 |}.

(** The API process on the same day. *)
Definition sample_api_clock : api_clock :=
  {| now_ordinal := 739412;
     strftime_ymd := λ day, if decide (day = 739382) then "2025-05-11"%string
                            else "2025-06-10"%string |}.

Definition fresh_database : database :=
  {| daily_spending := Some empty_table; spending_alerts := Some empty_table |}.

Definition sample_metric (spent_units target_units : Z) (st : string) : metric :=
  {| spent := Qc_of_Z spent_units; target := target_units;
     percentage := (Qc_of_Z spent_units / Qc_of_Z target_units * Qc_of_Z 100)%Qc;
     status := st; status_color := "#28a745" |}.

Definition sample_metrics : gmap string metric :=
  {[ "🥕 Groceries"%string := sample_metric 810 900 on_track;
     "🍽️ Dining Out"%string := sample_metric 250 250 close_to_limit ]}.

(** Spending that stands at exactly 100 percent of the groceries target and
    at 120 percent of the dining target. *)
Definition spending_at_the_mark : gmap string Qc :=
  {[ "🥕 Groceries"%string := Qc_of_Z 900; "🍽️ Dining Out"%string := Qc_of_Z 300 ]}.

(** A store with earlier snapshots: one dated before the cut-off of
    [sample_clock], two of the day before the run, one of the day of the
    run. *)
Definition stored_row (id : Z) (date category : string) (units : Z) : daily_row :=
  {| row_id := id; row_date := date; row_category := category;
     row_amount := Qc_of_Z units; row_month_budget := Qc_of_Z 900;
     row_percentage := 0%Qc |}.

Definition stored_rows : list daily_row :=
  [stored_row 1 "2025-04-30" "🥕 Groceries" 700;
   stored_row 2 "2025-06-10" "🥕 Groceries" 500;
   stored_row 3 "2025-06-09" "🥕 Groceries" 450;
   stored_row 4 "2025-06-09" "🍽️ Dining Out" 120].

Definition stored_database : database :=
  {| daily_spending := Some {| rows := stored_rows; last_id := 4 |};
     spending_alerts := Some empty_table |}.

(** Sample history: seven daily snapshots of one category, the last one
    higher. *)
Definition week_amounts : list Z := [100; 100; 100; 100; 100; 100; 200].

Definition week_points : list point :=
  (λ z, {| point_date := "2025-06-10"; point_amount := Qc_of_Z z;
           point_percentage := 0%Qc |}) <$> week_amounts.

Definition sample_history : gmap string (list point) :=
  {[ "🥕 Groceries"%string := week_points ]}.

(** Fourteen snapshots, then the same amounts under other dates and
    percentages and behind one older snapshot. *)
Definition fortnight_amounts : list Z :=
  [100; 120; 150; 150; 180; 210; 260; 300; 310; 350; 400; 420; 480; 510].

Definition fortnight_points : list point :=
  (λ z, {| point_date := "2025-06-10"; point_amount := Qc_of_Z z;
           point_percentage := 0%Qc |}) <$> fortnight_amounts.

Definition older_point : point :=
  {| point_date := "2025-04-01"; point_amount := Qc_of_Z 999;
     point_percentage := Qc_of_Z 111 |}.

Definition redated_points : list point :=
  older_point ::
  ((λ z, {| point_date := "2025-05-01"; point_amount := Qc_of_Z z;
            point_percentage := Qc_of_Z 50 |}) <$> fortnight_amounts).

(** The sample week as stored doubles. *)
Definition week_points_binary64 : list (Numeric.point float) :=
  (λ z, {| Numeric.point_date := "2025-06-10"; Numeric.point_amount := f64_of_Z z;
           Numeric.point_percentage := f64_of_Z 0 |}) <$> week_amounts.

(** A week of amounts 0.01, 5.01, ..., 30.01 as stored doubles. *)
Definition cent_points_binary64 : list (Numeric.point float) :=
  (λ z, {| Numeric.point_date := "2025-06-10"; Numeric.point_amount := int_truediv z 100;
           Numeric.point_percentage := f64_of_Z 0 |}) <$> [1; 501; 1001; 1501; 2001; 2501; 3001].




(** A reports directory a hundred days after its first export. *)
Definition sample_files : filesystem :=
  list_to_map
    [("/app/reports"%string, Directory);
     ("/app/reports/latest_budget_data.json"%string, RegularFile 0);
     ("/app/reports/budget_data_20250301_060000.json"%string, RegularFile 0);
     ("/app/reports/enhanced_budget_report_20250608_060000.html"%string,
      RegularFile (timedelta_days 99));
     ("/app/reports/test"%string, Directory);
     ("/app/reports/test/test_budget_data_20250520_060000.json"%string,
      RegularFile (timedelta_days 80));
     ("/app/logs"%string, Directory)].

Definition sample_now : Z := timedelta_days 100.

(** What is left of [sample_files]. *)
Definition sample_files_cleaned : filesystem :=
  list_to_map
    [("/app/reports"%string, Directory);
     ("/app/reports/latest_budget_data.json"%string, RegularFile 0);
     ("/app/reports/enhanced_budget_report_20250608_060000.html"%string,
      RegularFile (timedelta_days 99));
     ("/app/logs"%string, Directory)].

(** * Properties *)

(** ** Aggregation *)

Section aggregation_properties.
Context {R : Type} {arith : PyArith R}.
Variable cfg : config.

Lemma process_transaction_other spending t c :
¬ (outflow_to cfg c t ∧ is_Some (monthly_targets cfg !! c)) →
process_transaction cfg spending t !! c = spending !! c.
Proof.
intros Hno. unfold process_transaction.
case_bool_decide as Hneg; [|done].
destruct (map_category cfg (get_category_name t)) as [m|] eqn:Hm; [|done].
case_bool_decide as Htgt; [|done].
destruct (decide (m = c)) as [->|Hne].
- exfalso. apply Hno. by repeat split.
- by rewrite lookup_insert_ne.
Qed.

Lemma process_transaction_hit spending t c :
outflow_to cfg c t → is_Some (monthly_targets cfg !! c) →
process_transaction cfg spending t !! c =
  Some (py_add (default py_zero (spending !! c)) (py_truediv (Z.abs (amount t)) 1000)).
Proof.
intros [Hneg Hm] Htgt. unfold process_transaction.
rewrite bool_decide_eq_true_2 by done. rewrite Hm.
rewrite bool_decide_eq_true_2 by done. by rewrite lookup_insert_eq.
Qed.

(** The loop invariant: the entry of [c] after folding [transactions]
  into an arbitrary accumulator. *)
Lemma fold_process_lookup transactions spending c :
fold_left (process_transaction cfg) transactions spending !! c =
  if decide (is_Some (monthly_targets cfg !! c)) then
    match contributions cfg c transactions with
    | [] => spending !! c
    | xs => Some (running_sum (default py_zero (spending !! c)) xs)
    end
  else spending !! c.
Proof.
revert spending. induction transactions as [|t ts IH]; intros spending; simpl.
{ by case_decide. }
rewrite IH. unfold contributions. rewrite filter_cons.
case_decide as Htgt.
- destruct (decide (outflow_to cfg c t)) as [Hout|Hout].
  + rewrite process_transaction_hit by done. rewrite fmap_cons.
    by destruct (_ <$> filter _ ts).
  + rewrite process_transaction_other; [done|]. by intros [? _].
- rewrite process_transaction_other; [done|]. by intros [_ ?].
Qed.


Lemma process_transactions_lookup transactions c :
  process_transactions cfg transactions !! c =
    if decide (is_Some (monthly_targets cfg !! c) ∧ contributions cfg c transactions ≠ [])
    then Some (running_sum py_zero (contributions cfg c transactions))
    else None.
Proof.
  unfold process_transactions. rewrite fold_process_lookup, lookup_empty.
  destruct (decide (is_Some (monthly_targets cfg !! c))) as [Ht|Ht].
  - destruct (contributions cfg c transactions) eqn:Hc.
    + rewrite decide_False; [done|]. by intros [_ ?].
    + by rewrite decide_True.
  - rewrite decide_False; [done|]. by intros [? _].
Qed.

Lemma contributions_perm c (l1 l2 : list transaction) :
  l1 ≡ₚ l2 → contributions cfg c l1 ≡ₚ contributions cfg c l2.
Proof. intros Hp. unfold contributions. by rewrite Hp. Qed.

(** Reordering the summands of a left-to-right sum keeps its value as soon
    as the addition is associative and commutative. *)
Lemma running_sum_perm (xs ys : list R) :
  Assoc (=) (py_add (R:=R)) → Comm (=) (py_add (R:=R)) →
  xs ≡ₚ ys → ∀ start, running_sum start xs = running_sum start ys.
Proof.
  intros Ha Hc Hp. unfold running_sum.
  induction Hp as [|x l1 l2 _ IH|x y l|l1 l2 l3 _ IH1 _ IH2]; intros start; simpl.
  - done.
  - apply IH.
  - f_equal. rewrite <-!(assoc py_add). f_equal. apply (comm py_add).
  - by rewrite IH1.
Qed.

Lemma is_Some_guarded {A} (P : Prop) `{Decision P} (x : A) :
  is_Some (if decide P then Some x else None) ↔ P.
Proof.
  destruct (decide P) as [HP|HP]; split; intros Hs; try done.
Qed.

Lemma process_transactions_dom_perm (l1 l2 : list transaction) :
  l1 ≡ₚ l2 → dom (process_transactions cfg l1) = dom (process_transactions cfg l2).
Proof.
  intros Hp. apply set_eq. intros c. rewrite !elem_of_dom, !process_transactions_lookup.
  pose proof (contributions_perm c _ _ Hp) as Hc.
  assert (contributions cfg c l1 = [] ↔ contributions cfg c l2 = []) as Hnil.
  { split; intros E; rewrite E in Hc.
    - by apply Permutation_nil in Hc.
    - symmetry in Hc. by apply Permutation_nil in Hc. }
  rewrite !is_Some_guarded. by rewrite Hnil.
Qed.

Lemma process_transactions_perm_eq (l1 l2 : list transaction) :
  Assoc (=) (py_add (R:=R)) → Comm (=) (py_add (R:=R)) →
  l1 ≡ₚ l2 → process_transactions cfg l1 = process_transactions cfg l2.
Proof.
  intros Ha Hc Hp. apply map_eq. intros c.
  pose proof (process_transactions_dom_perm _ _ Hp) as Hdom.
  assert (is_Some (process_transactions cfg l1 !! c) ↔
          is_Some (process_transactions cfg l2 !! c)) as Hsome.
  { by rewrite <-!elem_of_dom, Hdom. }
  revert Hsome. rewrite !process_transactions_lookup.
  pose proof (running_sum_perm _ _ Ha Hc (contributions_perm c _ _ Hp) py_zero) as Hsum.
  repeat case_decide; intros Hsome.
  - by rewrite Hsum.
  - destruct Hsome as [Hs _]. by destruct Hs.
  - destruct Hsome as [_ Hs]. by destruct Hs.
  - done.
Qed.

End aggregation_properties.

(** The transactions the loop books under [c] are the outflows whose own
    label is mapped to [c]. *)
Lemma counts_towards_outflow (cfg : config) (c : string) (t : transaction) :
  counts_towards cfg c t ↔ outflow_to cfg c t.
Proof.
  unfold counts_towards, outflow_to, booked_label, get_category_name, map_category.
  destruct (category_name t) as [| |label]; split; intros [Hneg Hc]; split; try done.
  - by rewrite Hc.
  - by injection Hc.
  - by rewrite Hc.
  - by injection Hc.
Qed.

Lemma contributions_counted {R : Type} {arith : PyArith R} (cfg : config) (c : string)
    (transactions : list transaction) :
  contributions cfg c transactions =
    (λ t, py_truediv (Z.abs (amount t)) 1000) <$> filter (counts_towards cfg c) transactions.
Proof.
  unfold contributions. f_equal. apply list_filter_iff.
  intros t. symmetry. apply counts_towards_outflow.
Qed.

(** C1. For every sequence of transactions, [process_transactions] maps each
    category that has a configured target to the left-to-right sum of
    [abs(amount)/1000] over the transactions with [amount < 0] whose own
    label is mapped to that category; a category without target or without
    such a transaction is absent; a transaction with [amount >= 0], or whose
    mapped label has no target, leaves the running totals unchanged.  This
    holds in every arithmetic (exact or binary64). *)
Theorem process_transactions_spec {R : Type} {arith : PyArith R} (cfg : config)
    (transactions : list transaction) :
  (∀ c,
     let counted := filter (counts_towards cfg c) transactions in
     process_transactions cfg transactions !! c =
       if decide (is_Some (monthly_targets cfg !! c) ∧ counted ≠ [])
       then Some (running_sum py_zero
                    ((λ t, py_truediv (Z.abs (amount t)) 1000) <$> counted))
       else None) ∧
  (∀ (spending : gmap string R) t,
     0 ≤ amount t → process_transaction cfg spending t = spending) ∧
  (∀ (spending : gmap string R) t,
     (∀ c, counts_towards cfg c t → monthly_targets cfg !! c = None) →
     process_transaction cfg spending t = spending).
Proof.
  split; [|split].
  - intros c counted. rewrite process_transactions_lookup, contributions_counted.
    fold counted.
    destruct (decide (is_Some (monthly_targets cfg !! c) ∧ counted ≠ [])) as [Hc|Hc].
    + rewrite decide_True; [done|]. destruct Hc as [Ht Hne]. split; [done|].
      intros Hnil. by apply fmap_nil_inv in Hnil.
    + rewrite decide_False; [done|]. intros [Ht Hne]. apply Hc. split; [done|].
      intros Hnil. by rewrite Hnil in Hne.
  - intros spending t Hpos. unfold process_transaction.
    rewrite bool_decide_eq_false_2; [done|lia].
  - intros spending t Hno. unfold process_transaction.
    case_bool_decide as Hneg; [|done].
    destruct (map_category cfg (get_category_name t)) as [m|] eqn:Hm; [|done].
    rewrite bool_decide_eq_false_2; [done|].
    rewrite (Hno m); [by intros [? ?]|].
    apply counts_towards_outflow. by split.
Qed.

(** C9, as stated, fails under binary64: the three outflows 0.1, 0.2, 0.3
    sum to a different double when taken in the opposite order. *)
Lemma process_transactions_order_sensitive :
  outflows_down ≡ₚ outflows_up ∧
  process_transactions (arith := binary64_arith) default_config outflows_up ≠
  process_transactions (arith := binary64_arith) default_config outflows_down.
Proof.
  split.
  - unfold outflows_down, outflows_up.
    change [grocery_outflow (-300); grocery_outflow (-200); grocery_outflow (-100)]
      with (reverse outflows_up).
    apply reverse_Permutation.
  - intros Heq.
    pose (below := λ (m1 m2 : gmap string float),
      match m1 !! "🥕 Groceries"%string, m2 !! "🥕 Groceries"%string with
      | Some x, Some y => PrimFloat.ltb x y
      | _, _ => false
      end).
    assert (below (process_transactions (arith := binary64_arith) default_config outflows_down)
                  (process_transactions (arith := binary64_arith) default_config outflows_up)
            = true) as Hlt by (vm_compute; reflexivity).
    rewrite Heq in Hlt. vm_compute in Hlt. discriminate.
Qed.

(** C9, amended. Under any reordering of the transactions the result has the
    same categories, and each category receives the same contributions in a
    possibly different order; the mappings are identical whenever the
    addition is associative and commutative, as for exact amounts. *)
Theorem process_transactions_reorder {R : Type} {arith : PyArith R} (cfg : config)
    (l1 l2 : list transaction) :
  l1 ≡ₚ l2 →
  dom (process_transactions cfg l1) = dom (process_transactions cfg l2) ∧
  (∀ c, contributions cfg c l1 ≡ₚ contributions cfg c l2) ∧
  (Assoc (=) (py_add (R:=R)) → Comm (=) (py_add (R:=R)) →
   process_transactions cfg l1 = process_transactions cfg l2).
Proof.
  intros Hp. split; [|split].
  - by apply process_transactions_dom_perm.
  - intros c. by apply contributions_perm.
  - intros Ha Hc. by apply process_transactions_perm_eq.
Qed.

Lemma process_transactions_reorder_witness :
  dom (process_transactions (arith := exact_arith) default_config outflows_down) =
    dom (process_transactions (arith := exact_arith) default_config outflows_up) ∧
  process_transactions (arith := exact_arith) default_config outflows_down =
    process_transactions (arith := exact_arith) default_config outflows_up.
Proof.
  assert (outflows_down ≡ₚ outflows_up) as Hp.
  { change outflows_down with (reverse outflows_up). apply reverse_Permutation. }
  destruct (process_transactions_reorder (arith := exact_arith) default_config _ _ Hp)
    as (Hdom & _ & Heq).
  split; [exact Hdom|]. apply Heq.
  - exact Qcplus_assoc.
  - exact Qcplus_comm.
Defined.

(** C7, as stated, fails: the lookup distinguishes letter case.  The label
    with a lower-case g differs from the table's key only in case, yet it
    is passed through instead of being mapped. *)
Lemma map_category_case_sensitive :
  same_up_to_case "🥕  groceries" "🥕  Groceries" ∧
  map_category default_config (Some "🥕  Groceries"%string) = Some "🥕 Groceries"%string ∧
  map_category default_config (Some "🥕  groceries"%string) = Some "🥕  groceries"%string ∧
  map_category default_config (Some "🥕  groceries"%string) ≠
    map_category default_config (Some "🥕  Groceries"%string).
Proof.
  split; [|split; [|split]].
  - vm_compute. reflexivity.
  - vm_compute. reflexivity.
  - vm_compute. reflexivity.
  - vm_compute. discriminate.
Qed.

(** C7, amended. The lookup is a case-sensitive exact match: a label that is
    a key of the mapping table yields the category stored under that key,
    and every other label, also one that differs from a key only in letter
    case, passes through unchanged as its own identifier. *)
Theorem map_category_exact_match (cfg : config) (label : string) :
  (∀ c, category_mapping cfg !! label = Some c →
        map_category cfg (Some label) = Some c) ∧
  (category_mapping cfg !! label = None →
        map_category cfg (Some label) = Some label) ∧
  (∀ key, same_up_to_case label key → category_mapping cfg !! label = None →
        map_category cfg (Some label) = Some label).
Proof.
  unfold map_category. split; [|split].
  - intros c Hc. by rewrite Hc.
  - intros Hn. by rewrite Hn.
  - intros key _ Hn. by rewrite Hn.
Qed.

(** ** Loops that fill a dictionary *)

Section loops.
Context {A B : Type}.

(** A loop over the items of a dictionary whose body either stores a value
    under the item's key or leaves the accumulator alone, and whose body
    never raises on these items, ends normally; each key holds what its own
    item stored. *)
Lemma for_items_insert_spec (f : string → A → result (option B))
    (l : list (string * A)) :
  NoDup l.*1 →
  (∀ k a, (k, a) ∈ l → ∃ r, f k a = Ok r) →
  ∀ acc : gmap string B,
  ∃ m,
    for_items
      (λ acc '(k, a),
         r ← f k a;
         Ok (match r with Some b => <[k := b]> acc | None => acc end))
      acc l = Ok m ∧
    ∀ k,
      match (list_to_map l : gmap string A) !! k with
      | Some a => ∃ r, f k a = Ok r ∧
                       m !! k = match r with Some b => Some b | None => acc !! k end
      | None => m !! k = acc !! k
      end.
Proof.
  induction l as [|[k0 a0] l IH]; intros Hnd Hok acc.
  { exists acc. split; [done|]. intros k. simpl. by rewrite lookup_empty. }
  simpl in Hnd. apply NoDup_cons in Hnd as [Hk0 Hnd].
  destruct (Hok k0 a0) as [r0 Hr0]; [left|].
  destruct (IH Hnd) with
    (acc := match r0 with Some b => <[k0 := b]> acc | None => acc end)
    as (m & Hm & Hlook).
  { intros k a Hin. apply Hok. by right. }
  exists m. split.
  { simpl. rewrite Hr0. simpl. exact Hm. }
  intros k. specialize (Hlook k). simpl.
  destruct (decide (k = k0)) as [->|Hne].
  - rewrite lookup_insert_eq.
    rewrite (not_elem_of_list_to_map_1 _ _ Hk0) in Hlook.
    exists r0. split; [done|]. rewrite Hlook.
    destruct r0; [by rewrite lookup_insert_eq|done].
  - rewrite lookup_insert_ne by done.
    destruct (list_to_map l !! k) as [a|].
    + destruct Hlook as (r & Hr & Hmk). exists r. split; [done|]. rewrite Hmk.
      destruct r; [done|]. destruct r0; [by rewrite lookup_insert_ne|done].
    + rewrite Hlook. destruct r0; [by rewrite lookup_insert_ne|done].
Qed.

Lemma for_items_cons {S X : Type} (body : S → X → result S) (x : X) (l : list X) (s : S) :
  for_items body s (x :: l) = s' ← body s x; for_items body s' l.
Proof. reflexivity. Qed.

(** Two loop bodies that agree on every item run alike. *)
Lemma for_items_ext {S X : Type} (body1 body2 : S → X → result S) (l : list X) (s : S) :
  (∀ s x, x ∈ l → body1 s x = body2 s x) →
  for_items body1 s l = for_items body2 s l.
Proof.
  revert s. induction l as [|x l IH]; intros s Hext; [done|].
  simpl. rewrite Hext by left. destruct (body2 s x); simpl; [|done].
  apply IH. intros s' y Hy. apply Hext. by right.
Qed.

End loops.

(** ** Order on amounts *)

(** Closes a goal that follows from the order facts in the context, or
    whose premises contradict them. *)
Ltac qc_order :=
  intros;
  repeat match goal with H : _ ∧ _ |- _ => destruct H end;
  first
    [ done
    | by auto
    | exfalso;
      match goal with
      | Hle : (?x ≤ ?y)%Qc, Hlt : (?y < ?x)%Qc |- _ =>
          exact (proj1 (Qcle_ngt x y) Hle Hlt)
      end ].

(** ** Metrics *)

Lemma status_labels_distinct :
  over_budget ≠ close_to_limit ∧ over_budget ≠ on_track ∧ close_to_limit ≠ on_track.
Proof. unfold over_budget, close_to_limit, on_track. repeat split; discriminate. Qed.

(** One category: the body never raises, and the entry it builds. *)
Lemma category_metric_spec (spending_data : gmap string Qc) (c : string) (tgt : Z) :
  ∃ m, category_metric spending_data c tgt = Ok m ∧
    spent m = default 0%Qc (spending_data !! c) ∧
    target m = tgt ∧
    (0 < tgt → percentage m = (spent m / Qc_of_Z tgt * Qc_of_Z 100)%Qc) ∧
    (tgt ≤ 0 → percentage m = 0%Qc) ∧
    (status m = over_budget ↔ (Qc_of_Z 100 < percentage m)%Qc) ∧
    (status m = close_to_limit ↔
       (Qc_of_Z 90 < percentage m)%Qc ∧ (percentage m ≤ Qc_of_Z 100)%Qc) ∧
    (status m = on_track ↔ (percentage m ≤ Qc_of_Z 90)%Qc).
Proof.
  destruct status_labels_distinct as (Hoc & Hot & Hct).
  assert (Qc_of_Z 90 < Qc_of_Z 100)%Qc as H90 by (by apply Z2Qc_inj_lt).
  unfold category_metric.
  set (sp := default 0%Qc (spending_data !! c)).
  assert (∃ p, (if decide (0 < tgt)
                then q ← py_div sp (Qc_of_Z tgt); Ok (q * Qc_of_Z 100)%Qc
                else Ok 0%Qc) = Ok p ∧
               (0 < tgt → p = (sp / Qc_of_Z tgt * Qc_of_Z 100)%Qc) ∧
               (tgt ≤ 0 → p = 0%Qc)) as (p & -> & Hpos & Hzero).
  { destruct (decide (0 < tgt)) as [Hlt|Hge].
    - unfold py_div. rewrite decide_False.
      + eexists. split; [done|]. split; [done|lia].
      + rewrite <-Z2Qc_inj_0. intros E%Z2Qc_inj. lia.
    - eexists. split; [done|]. split; [lia|done]. }
  simpl.
  destruct (decide (Qc_of_Z 100 < p)%Qc) as [Hover|Hnover].
  - assert (Qc_of_Z 90 < p)%Qc by (by trans (Qc_of_Z 100)).
    eexists. split; [done|]. simpl. repeat split; qc_order.
  - apply Qcle_ngt in Hnover.
    destruct (decide (Qc_of_Z 90 < p)%Qc) as [Hclose|Hnclose].
    + eexists. split; [done|]. simpl. repeat split; qc_order.
    + apply Qcle_ngt in Hnclose.
      eexists. split; [done|]. simpl. repeat split; qc_order.
Qed.

(** [calculate_metrics] ends normally, and each entry is what the loop body
    builds for that category. *)
Lemma calculate_metrics_entries (cfg : config) (spending_data : gmap string Qc) :
  ∃ metrics, calculate_metrics cfg spending_data = Ok metrics ∧
    ∀ c, metrics !! c =
      match monthly_targets cfg !! c with
      | Some tgt => match category_metric spending_data c tgt with
                    | Ok m => Some m
                    | Raise _ => None
                    end
      | None => None
      end.
Proof.
  pose (f := λ (c : string) (tgt : Z),
    m ← category_metric spending_data c tgt; Ok (Some m)).
  destruct (for_items_insert_spec f (map_to_list (monthly_targets cfg)))
    with (acc := (∅ : gmap string metric)) as (metrics & Hrun & Hlook).
  { apply NoDup_fst_map_to_list. }
  { intros c tgt _. unfold f.
    destruct (category_metric_spec spending_data c tgt) as (m & -> & _).
    by eexists. }
  exists metrics. split.
  { rewrite <-Hrun. unfold calculate_metrics. apply for_items_ext.
    intros s [c tgt] _. unfold f.
    by destruct (category_metric spending_data c tgt). }
  intros c. specialize (Hlook c). rewrite list_to_map_to_list in Hlook.
  destruct (monthly_targets cfg !! c) as [tgt|]; [|by rewrite Hlook].
  destruct Hlook as (r & Hr & ->). unfold f in Hr.
  destruct (category_metric_spec spending_data c tgt) as (m & Hm & _).
  rewrite Hm in *. simpl in Hr. by injection Hr as <-.
Qed.

(** *** The metrics in every arithmetic *)

Section numeric_metrics.
Import Numeric.
Context {R : Type} {num : PyNum R}.

(** One category: the body never raises, and the entry it builds. *)
Lemma numeric_category_metric_spec (spending_data : gmap string R) (c : string) (tgt : Z) :
  ∃ m, Numeric.category_metric spending_data c tgt = Ok m ∧
    Numeric.spent m = default py_zero (spending_data !! c) ∧
    Numeric.target m = tgt ∧
    (0 < tgt →
       Numeric.percentage m =
         py_mul (py_truediv_num (Numeric.spent m) (of_int tgt)) (of_int 100)) ∧
    (tgt ≤ 0 → Numeric.percentage m = of_int 0) ∧
    (Numeric.status m = over_budget ↔ py_lt (of_int 100) (Numeric.percentage m) = true) ∧
    (Numeric.status m = close_to_limit ↔
       py_lt (of_int 100) (Numeric.percentage m) = false ∧
       py_lt (of_int 90) (Numeric.percentage m) = true) ∧
    (Numeric.status m = on_track ↔
       py_lt (of_int 100) (Numeric.percentage m) = false ∧
       py_lt (of_int 90) (Numeric.percentage m) = false).
Proof.
  destruct status_labels_distinct as (Hoc & Hot & Hct).
  unfold Numeric.category_metric.
  set (sp := default py_zero (spending_data !! c)).
  assert (∃ p, (if decide (0 < tgt)
                then q ← Numeric.py_div sp tgt; Ok (py_mul q (of_int 100))
                else Ok (of_int 0)) = Ok p ∧
               (0 < tgt → p = py_mul (py_truediv_num sp (of_int tgt)) (of_int 100)) ∧
               (tgt ≤ 0 → p = of_int 0)) as (p & -> & Hpos & Hzero).
  { destruct (decide (0 < tgt)) as [Hlt|Hge].
    - unfold Numeric.py_div. rewrite decide_False by lia.
      eexists. split; [reflexivity|]. split; [done|lia].
    - eexists. split; [reflexivity|]. split; [lia|done]. }
  cbv beta iota delta [mbind result_bind].
  destruct (py_lt (of_int 100) p) eqn:Hover.
  - eexists. split; [reflexivity|]. cbn [Numeric.spent Numeric.target Numeric.percentage
      Numeric.status]. rewrite Hover.
    split; [done|]. split; [done|]. split; [done|]. split; [done|].
    split; [done|]. split; (split; [intros ?; by exfalso; auto|by intros [? _]]).
  - destruct (py_lt (of_int 90) p) eqn:Hclose.
    + eexists. split; [reflexivity|]. cbn [Numeric.spent Numeric.target Numeric.percentage
        Numeric.status]. rewrite Hover, Hclose.
      split; [done|]. split; [done|]. split; [done|]. split; [done|].
      split; [split; [intros ?; by exfalso; auto|done]|].
      split; [done|]. split; [intros ?; by exfalso; auto|by intros [_ ?]].
    + eexists. split; [reflexivity|]. cbn [Numeric.spent Numeric.target Numeric.percentage
        Numeric.status]. rewrite Hover, Hclose.
      split; [done|]. split; [done|]. split; [done|]. split; [done|].
      split; [split; [intros ?; by exfalso; auto|done]|].
      split; [split; [intros ?; by exfalso; auto|by intros [_ ?]]|done].
Qed.

(** [calculate_metrics] ends normally, and each entry is what the loop body
    builds for that category. *)
Lemma numeric_calculate_metrics_entries (cfg : config) (spending_data : gmap string R) :
  ∃ metrics, Numeric.calculate_metrics cfg spending_data = Ok metrics ∧
    ∀ c, metrics !! c =
      match monthly_targets cfg !! c with
      | Some tgt => match Numeric.category_metric spending_data c tgt with
                    | Ok m => Some m
                    | Raise _ => None
                    end
      | None => None
      end.
Proof.
  pose (f := λ (c : string) (tgt : Z),
    m ← Numeric.category_metric spending_data c tgt; Ok (Some m)).
  destruct (for_items_insert_spec f (map_to_list (monthly_targets cfg)))
    with (acc := (∅ : gmap string (Numeric.metric R))) as (metrics & Hrun & Hlook).
  { apply NoDup_fst_map_to_list. }
  { intros c tgt _. unfold f.
    destruct (numeric_category_metric_spec spending_data c tgt) as (m & -> & _).
    by eexists. }
  exists metrics. split.
  { rewrite <-Hrun. unfold Numeric.calculate_metrics. apply for_items_ext.
    intros s [c tgt] _. unfold f.
    by destruct (Numeric.category_metric spending_data c tgt). }
  intros c. specialize (Hlook c). rewrite list_to_map_to_list in Hlook.
  destruct (monthly_targets cfg !! c) as [tgt|]; [|by rewrite Hlook].
  destruct Hlook as (r & Hr & ->). unfold f in Hr.
  destruct (numeric_category_metric_spec spending_data c tgt) as (m & Hm & _).
  rewrite Hm in *. cbv beta iota delta [mbind result_bind] in Hr. by injection Hr as <-.
Qed.

End numeric_metrics.

(** *** Comparisons of doubles *)

Lemma SFcompare_antisym (x y : spec_float) :
  SFcompare y x = option_map CompOpp (SFcompare x y).
Proof.
  destruct x as [[]|[]| |[] m1 e1], y as [[]|[]| |[] m2 e2]; try reflexivity;
    cbn [SFcompare option_map]; f_equal;
    rewrite (Z.compare_antisym e2 e1); destruct (e2 ?= e1); cbn [CompOpp]; try reflexivity;
    change (Pcompare ?a ?b Eq) with (Pos.compare a b);
    rewrite (Pos.compare_antisym m2 m1); by destruct (m2 ?= m1)%positive.
Qed.

(** [not (a < p)] is [p <= a] unless [p] is a NaN. *)
Lemma binary64_not_lt (a p : float) :
  SFcompare (Prim2SF a) (Prim2SF p) ≠ None →
  PrimFloat.ltb a p = false ↔ PrimFloat.leb p a = true.
Proof.
  rewrite FloatAxioms.ltb_spec, FloatAxioms.leb_spec. unfold SFltb, SFleb.
  rewrite (SFcompare_antisym (Prim2SF a) (Prim2SF p)).
  by destruct (SFcompare (Prim2SF a) (Prim2SF p)) as [[]|].
Qed.

Lemma binary64_above_90 (p : float) :
  PrimFloat.ltb (f64_of_Z 90) p = false → PrimFloat.ltb (f64_of_Z 100) p = false.
Proof.
  rewrite !FloatAxioms.ltb_spec. unfold SFltb.
  replace (Prim2SF (f64_of_Z 90)) with (S754_finite false 6333186975989760 (-46))
    by (vm_compute; reflexivity).
  replace (Prim2SF (f64_of_Z 100)) with (S754_finite false 7036874417766400 (-46))
    by (vm_compute; reflexivity).
  destruct (Prim2SF p) as [[]|[]| |[] m e]; cbn [SFcompare];
    [exact id|exact id|exact id|exact id|exact id|exact id|].
  destruct (Z.compare_spec (-46) e) as [He|He|He]; [|exact id|exact id].
  change (PosDef.Pos.compare_cont Eq ?a ?b) with (Pos.compare a b).
  intros H90. destruct (7036874417766400 ?= m)%positive eqn:H100; [reflexivity| |reflexivity].
  exfalso.
  assert (6333186975989760 < m)%positive as Hlt.
  { apply (Pos.lt_trans _ 7036874417766400); [vm_compute; reflexivity|exact H100]. }
  unfold Pos.lt in Hlt. rewrite Hlt in H90. discriminate H90.
Qed.

Lemma binary64_compared_90 (p : float) :
  PrimFloat.ltb (f64_of_Z 90) p = true →
  SFcompare (Prim2SF (f64_of_Z 100)) (Prim2SF p) ≠ None.
Proof.
  rewrite FloatAxioms.ltb_spec. unfold SFltb.
  replace (Prim2SF (f64_of_Z 90)) with (S754_finite false 6333186975989760 (-46))
    by (vm_compute; reflexivity).
  replace (Prim2SF (f64_of_Z 100)) with (S754_finite false 7036874417766400 (-46))
    by (vm_compute; reflexivity).
  destruct (Prim2SF p) as [[]|[]| |[] m e]; cbn [SFcompare]; intros H; discriminate.
Qed.

(** C2. In every arithmetic (exact or binary64), [calculate_metrics] never
    raises, so no division by a zero target is performed, and returns an
    entry for exactly the configured categories, also those without spending
    (whose [spent] is 0); the percentage is [spent/target*100], computed with
    the operations of the arithmetic in this order, for a positive target
    and 0 otherwise; the status is over budget when [percentage > 100],
    close to limit when that test fails and [percentage > 90], on track
    when both tests fail.  In binary64 this reads: over budget when
    [percentage > 100], close to limit when [90 < percentage <= 100], on
    track otherwise. *)
Theorem calculate_metrics_spec :
  (∀ (R : Type) (num : Numeric.PyNum R) (cfg : config) (spending_data : gmap string R),
     ∃ metrics, Numeric.calculate_metrics cfg spending_data = Ok metrics ∧
       dom metrics = dom (monthly_targets cfg) ∧
       ∀ c tgt, monthly_targets cfg !! c = Some tgt →
         ∃ m, metrics !! c = Some m ∧
           Numeric.spent m = default py_zero (spending_data !! c) ∧
           Numeric.target m = tgt ∧
           (0 < tgt →
              Numeric.percentage m =
                Numeric.py_mul
                  (Numeric.py_truediv_num (Numeric.spent m) (Numeric.of_int tgt))
                  (Numeric.of_int 100)) ∧
           (tgt ≤ 0 → Numeric.percentage m = Numeric.of_int 0) ∧
           (Numeric.status m = over_budget ↔
              Numeric.py_lt (Numeric.of_int 100) (Numeric.percentage m) = true) ∧
           (Numeric.status m = close_to_limit ↔
              Numeric.py_lt (Numeric.of_int 100) (Numeric.percentage m) = false ∧
              Numeric.py_lt (Numeric.of_int 90) (Numeric.percentage m) = true) ∧
           (Numeric.status m = on_track ↔
              Numeric.py_lt (Numeric.of_int 100) (Numeric.percentage m) = false ∧
              Numeric.py_lt (Numeric.of_int 90) (Numeric.percentage m) = false)) ∧
  (∀ (cfg : config) (spending_data : gmap string float)
     (metrics : gmap string (Numeric.metric float)) (c : string) (m : Numeric.metric float),
     Numeric.calculate_metrics (num := Numeric.binary64_num) cfg spending_data = Ok metrics →
     metrics !! c = Some m →
     (Numeric.status m = over_budget ↔
        PrimFloat.ltb (f64_of_Z 100) (Numeric.percentage m) = true) ∧
     (Numeric.status m = close_to_limit ↔
        PrimFloat.ltb (f64_of_Z 90) (Numeric.percentage m) = true ∧
        PrimFloat.leb (Numeric.percentage m) (f64_of_Z 100) = true) ∧
     (Numeric.status m = on_track ↔
        PrimFloat.ltb (f64_of_Z 90) (Numeric.percentage m) = false)).
Proof.
  assert (∀ (R : Type) (num : Numeric.PyNum R) (cfg : config)
            (spending_data : gmap string R),
            ∃ metrics, Numeric.calculate_metrics cfg spending_data = Ok metrics ∧
              dom metrics = dom (monthly_targets cfg) ∧
              ∀ c tgt, monthly_targets cfg !! c = Some tgt →
                ∃ m, metrics !! c = Some m ∧
                  Numeric.spent m = default py_zero (spending_data !! c) ∧
                  Numeric.target m = tgt ∧
                  (0 < tgt →
                     Numeric.percentage m =
                       Numeric.py_mul
                         (Numeric.py_truediv_num (Numeric.spent m) (Numeric.of_int tgt))
                         (Numeric.of_int 100)) ∧
                  (tgt ≤ 0 → Numeric.percentage m = Numeric.of_int 0) ∧
                  (Numeric.status m = over_budget ↔
                     Numeric.py_lt (Numeric.of_int 100) (Numeric.percentage m) = true) ∧
                  (Numeric.status m = close_to_limit ↔
                     Numeric.py_lt (Numeric.of_int 100) (Numeric.percentage m) = false ∧
                     Numeric.py_lt (Numeric.of_int 90) (Numeric.percentage m) = true) ∧
                  (Numeric.status m = on_track ↔
                     Numeric.py_lt (Numeric.of_int 100) (Numeric.percentage m) = false ∧
                     Numeric.py_lt (Numeric.of_int 90) (Numeric.percentage m) = false))
    as Hgeneric.
  { intros R num cfg spending_data.
    destruct (numeric_calculate_metrics_entries cfg spending_data)
      as (metrics & Hcalc & Hentry).
    exists metrics. split; [done|]. split.
    - apply set_eq. intros c. rewrite !elem_of_dom, Hentry.
      destruct (monthly_targets cfg !! c) as [tgt|].
      + destruct (numeric_category_metric_spec spending_data c tgt) as (m & -> & _).
        split; by eauto.
      + split; intros [? ?]; done.
    - intros c tgt Hc. rewrite Hentry, Hc.
      destruct (numeric_category_metric_spec spending_data c tgt) as (m & -> & Hm).
      by exists m. }
  split; [exact Hgeneric|].
  intros cfg spending_data metrics c m Hcalc Hm.
  destruct (Hgeneric float Numeric.binary64_num cfg spending_data)
    as (metrics' & Hcalc' & Hdom & Hentries).
  rewrite Hcalc in Hcalc'. injection Hcalc' as <-.
  assert (is_Some (monthly_targets cfg !! c)) as [tgt Htgt].
  { apply elem_of_dom. rewrite <-Hdom. apply elem_of_dom. by exists m. }
  destruct (Hentries c tgt Htgt) as (m' & Hm' & _ & _ & _ & _ & Hover & Hclose & Htrack).
  rewrite Hm in Hm'. injection Hm' as <-.
  change (Numeric.py_lt (Numeric.of_int 100) (Numeric.percentage m))
    with (PrimFloat.ltb (f64_of_Z 100) (Numeric.percentage m)) in *.
  change (Numeric.py_lt (Numeric.of_int 90) (Numeric.percentage m))
    with (PrimFloat.ltb (f64_of_Z 90) (Numeric.percentage m)) in *.
  split; [exact Hover|]. split.
  - rewrite Hclose. split.
    + intros [H100 H90]. split; [exact H90|].
      apply binary64_not_lt; [by apply binary64_compared_90|exact H100].
    + intros [H90 H100]. split; [|exact H90].
      apply binary64_not_lt; [by apply binary64_compared_90|exact H100].
  - rewrite Htrack. split.
    + by intros [_ H90].
    + intros H90. split; [by apply binary64_above_90|exact H90].
Qed.

Lemma home_maintenance_metric :
  ∃ metrics m,
    Numeric.calculate_metrics (num := Numeric.binary64_num) default_config
      {[ "🔧 Home Maintenance"%string := int_truediv 90900 1000 ]} = Ok metrics ∧
    metrics !! "🔧 Home Maintenance"%string = Some m ∧
    Numeric.percentage m = f64_of_Z 90.
Proof. eexists _, _. vm_compute. repeat split. Qed.

Lemma calculate_metrics_spec_witness :
  ∃ metrics m,
    Numeric.calculate_metrics (num := Numeric.binary64_num) default_config
      {[ "🔧 Home Maintenance"%string := int_truediv 90900 1000 ]} = Ok metrics ∧
    metrics !! "🔧 Home Maintenance"%string = Some m ∧
    Numeric.percentage m = f64_of_Z 90 ∧
    Numeric.status m = on_track.
Proof.
  destruct home_maintenance_metric as (metrics & m & Hcalc & Hm & Hp).
  destruct (proj2 calculate_metrics_spec default_config _ metrics _ m Hcalc Hm)
    as (_ & _ & Htrack).
  exists metrics, m. split; [exact Hcalc|]. split; [exact Hm|]. split; [exact Hp|].
  apply Htrack. rewrite Hp. reflexivity.
Defined.

(** Rounding is observable in the status.  In binary64 the double nearest
    to 90.9 under a target of 101 stands at exactly 90 %, and the sum of the
    doubles nearest to 8.33 and 82.57 under the same target stands just
    below 90 %: both are on track. *)
Example category_metric_binary64 :
  match Numeric.category_metric (num := Numeric.binary64_num)
          {[ "🔧 Home Maintenance"%string := int_truediv 90900 1000 ]}
          "🔧 Home Maintenance" 101,
        Numeric.category_metric (num := Numeric.binary64_num)
          {[ "🔧 Home Maintenance"%string :=
               PrimFloat.add (int_truediv 8330 1000) (int_truediv 82570 1000) ]}
          "🔧 Home Maintenance" 101
  with
  | Ok m1, Ok m2 =>
      Numeric.percentage m1 = f64_of_Z 90 ∧ Numeric.status m1 = on_track ∧
      PrimFloat.ltb (Numeric.percentage m2) (f64_of_Z 90) = true ∧
      Numeric.status m2 = on_track
  | _, _ => False
  end.
Proof. vm_compute. repeat split. Qed.

(** ** Alerts *)

Lemma check_category_spec cfg clk alerts conn t category data :
  spending_alerts conn = Some t →
  ∃ conn' t',
    check_category cfg clk (alerts, conn) (category, data) =
      Ok (alerts ++ option_list (raised_alert cfg category data), conn') ∧
    spending_alerts conn' = Some t' ∧
    daily_spending conn' = daily_spending conn.
Proof.
  intros Ht. unfold check_category, raised_alert, insert_alert. rewrite Ht.
  repeat case_decide; simpl; eexists _, _; (split; [|split]); try done.
  by rewrite app_nil_r.
Qed.

Lemma check_loop_spec cfg clk (items : list (string * metric)) :
  ∀ alerts conn t,
  spending_alerts conn = Some t →
  ∃ conn' t',
    for_items (check_category cfg clk) (alerts, conn) items =
      Ok (alerts ++ raised_alerts cfg items, conn') ∧
    spending_alerts conn' = Some t' ∧
    daily_spending conn' = daily_spending conn.
Proof.
  induction items as [|[category data] items IH]; intros alerts conn t Ht.
  { exists conn, t. simpl. by rewrite app_nil_r. }
  destruct (check_category_spec cfg clk alerts conn t category data Ht)
    as (conn1 & t1 & Hstep & Ht1 & Hd1).
  destruct (IH (alerts ++ option_list (raised_alert cfg category data)) conn1 t1 Ht1)
    as (conn2 & t2 & Hrest & Ht2 & Hd2).
  exists conn2, t2. split; [|split].
  - rewrite for_items_cons, Hstep. simpl. rewrite Hrest.
    unfold raised_alerts. simpl. by rewrite (assoc (++)).
  - done.
  - by rewrite Hd2.
Qed.

Lemma raised_alert_category cfg category data a :
  raised_alert cfg category data = Some a → alert_category a = category.
Proof.
  unfold raised_alert. repeat case_decide; intros E; by simplify_eq.
Qed.

(** With one item per category, the alerts about a category are those of
    its own item. *)
Lemma raised_alerts_filter cfg (items : list (string * metric)) c :
  NoDup items.*1 →
  filter (λ a, alert_category a = c) (raised_alerts cfg items) =
    match (list_to_map items : gmap string metric) !! c with
    | Some data => option_list (raised_alert cfg c data)
    | None => []
    end.
Proof.
  unfold raised_alerts.
  induction items as [|[k d] items IH]; intros Hnd.
  { by rewrite list_to_map_nil, lookup_empty. }
  rewrite fmap_cons in Hnd. apply NoDup_cons in Hnd as [Hk Hnd].
  rewrite bind_cons, filter_app, IH, list_to_map_cons by done.
  destruct (decide (c = k)) as [->|Hne].
  - rewrite lookup_insert_eq, (not_elem_of_list_to_map_1 _ _ Hk), app_nil_r.
    destruct (raised_alert cfg k d) as [a|] eqn:Ha; simpl; [|done].
    rewrite filter_cons, decide_True; [done|]. by eapply raised_alert_category.
  - rewrite lookup_insert_ne by done.
    destruct (raised_alert cfg k d) as [a|] eqn:Ha; simpl; [|done].
    rewrite filter_cons, decide_False; [done|].
    rewrite (raised_alert_category _ _ _ _ Ha). congruence.
Qed.

Lemma alert_labels_distinct : high_spending ≠ over_budget_alert ∧ warning ≠ danger.
Proof. unfold high_spending, over_budget_alert, warning, danger. split; discriminate. Qed.

(** C3. On a store that has the alerts table, [check_spending_alerts] ends
    normally and its list holds at most one alert per category: a
    high-spending warning exactly when T <= percentage < 100, an over-budget
    danger alert exactly when percentage >= 100, nothing when the percentage
    is below both T and 100, and nothing for a name that is not in the
    metrics; no category gets both kinds. *)
Theorem check_spending_alerts_spec (cfg : config) (clk : clock) (db : database)
    (t : table alert_row) (metrics : gmap string metric) :
  spending_alerts db = Some t →
  ∃ alerts st',
    check_spending_alerts cfg clk (DbFile db) metrics = Ok (alerts, st') ∧
    ∀ c,
      let about_c := filter (λ a, alert_category a = c) alerts in
      let T := spending_alert_threshold cfg in
      (length about_c ≤ 1)%nat ∧
      ¬ (∃ a b, a ∈ about_c ∧ b ∈ about_c ∧
                alert_type a = high_spending ∧ alert_type b = over_budget_alert) ∧
      match metrics !! c with
      | None => about_c = []
      | Some data =>
          let p := percentage data in
          ((T ≤ p ∧ p < Qc_of_Z 100)%Qc ↔
             ∃ a, about_c = [a] ∧ alert_type a = high_spending ∧
                  alert_severity a = warning) ∧
          ((Qc_of_Z 100 ≤ p)%Qc ↔
             ∃ a, about_c = [a] ∧ alert_type a = over_budget_alert ∧
                  alert_severity a = danger) ∧
          ((p < T)%Qc → (p < Qc_of_Z 100)%Qc → about_c = [])
      end.
Proof.
  intros Ht.
  destruct (check_loop_spec cfg clk (map_to_list metrics) [] db t Ht)
    as (conn' & t' & Hloop & _ & _).
  exists (raised_alerts cfg (map_to_list metrics)), (DbFile conn'). split.
  { unfold check_spending_alerts. simpl. by rewrite Hloop. }
  intros c. simpl.
  rewrite raised_alerts_filter by apply NoDup_fst_map_to_list.
  rewrite list_to_map_to_list.
  destruct alert_labels_distinct as [Hty Hsev].
  destruct (metrics !! c) as [data|]; [|split; [simpl; lia|split; [|done]]].
  2:{ intros (a & b & Ha & _). by apply elem_of_nil in Ha. }
  unfold raised_alert.
  destruct (decide (spending_alert_threshold cfg ≤ percentage data ∧
                    percentage data < Qc_of_Z 100)%Qc) as [[HT H100]|Hnot].
  - simpl. split; [lia|]. split; [|split; [|split]].
    + intros (a & b & _ & Hb & _ & Hbt). apply list_elem_of_singleton in Hb as ->.
      simpl in Hbt. by destruct Hty.
    + split; [by eauto|done].
    + split.
      * intros Hge. exfalso. by apply Qcle_ngt in Hge.
      * intros (a & Ha & Hat & _). injection Ha as <-. simpl in Hat. by destruct Hty.
    + intros HpT _. exfalso. by apply Qcle_ngt in HT.
  - destruct (decide (Qc_of_Z 100 ≤ percentage data)%Qc) as [Hge|Hlt].
    + simpl. split; [lia|]. split; [|split; [|split]].
      * intros (a & b & Ha & _ & Hat & _). apply list_elem_of_singleton in Ha as ->.
        simpl in Hat. by destruct Hty.
      * split; [by intros ?|].
        intros (a & Ha & Hat & _). injection Ha as <-. simpl in Hat. by destruct Hty.
      * split; [by eauto|done].
      * intros _ Hp. exfalso. by apply Qcle_ngt in Hge.
    + simpl. split; [lia|]. split; [|split; [|split]].
      * intros (a & b & Ha & _). by apply elem_of_nil in Ha.
      * split; [by intros ?|]. by intros (a & Ha & _).
      * split; [by intros ?|]. by intros (a & Ha & _).
      * done.
Qed.

Lemma check_spending_alerts_witness :
  spending_alerts fresh_database = Some empty_table ∧
  ∃ alerts st',
    check_spending_alerts default_config sample_clock (DbFile fresh_database)
      sample_metrics = Ok (alerts, st').
Proof.
  split; [reflexivity|].
  destruct (check_spending_alerts_spec default_config sample_clock fresh_database
              empty_table sample_metrics eq_refl) as (alerts & st' & Hrun & _).
  exists alerts, st'. exact Hrun.
Defined.

(** With the default threshold 90, a category at 90 percent gets the
    high-spending warning and one at exactly 100 percent the over-budget
    alert. *)
Example alerts_at_90_and_100 :
  match check_spending_alerts default_config sample_clock (DbFile fresh_database)
          sample_metrics with
  | Ok (alerts, _) =>
      Some ((λ a, (alert_category a, alert_type a, alert_severity a)) <$> alerts)
  | Raise _ => None
  end
  = Some [("🍽️ Dining Out"%string, over_budget_alert, danger);
          ("🥕 Groceries"%string, high_spending, warning)].
Proof. vm_compute. reflexivity. Qed.

(** ** The daily ledger *)

Lemma rows_with_replaced k (rs : list daily_row) (r : daily_row) :
  row_key r = k →
  rows_with k (filter (λ r', row_key r' ≠ k) rs ++ [r]) = [r].
Proof.
  intros Hk. unfold rows_with. rewrite filter_app.
  rewrite (filter_cons _ r), decide_True, filter_nil by done.
  replace (filter (λ r0, row_key r0 = k) (filter (λ r', row_key r' ≠ k) rs)) with (@nil daily_row);
    [done|].
  symmetry. induction rs as [|x rs IH]; [done|].
  rewrite (filter_cons _ x). destruct (decide (row_key x ≠ k)) as [Hne|Heq]; [|done].
  rewrite (filter_cons _ x), decide_False by done. exact IH.
Qed.

Lemma rows_with_other k k' (rs : list daily_row) (r : daily_row) :
  row_key r = k → k' ≠ k →
  rows_with k' (filter (λ r', row_key r' ≠ k) rs ++ [r]) = rows_with k' rs.
Proof.
  intros Hk Hne. unfold rows_with. rewrite filter_app.
  rewrite (filter_cons _ r), decide_False, filter_nil, app_nil_r by congruence.
  induction rs as [|x rs IH]; [done|].
  rewrite !(filter_cons _ x).
  destruct (decide (row_key x = k')) as [Hx|Hx].
  - rewrite decide_True by congruence. by rewrite filter_cons, decide_True, IH.
  - destruct (decide (row_key x ≠ k)); [|done].
    by rewrite filter_cons, decide_False.
Qed.

Lemma keys_unique_replaced k (rs : list daily_row) (r : daily_row) :
  row_key r = k → NoDup (row_key <$> rs) →
  NoDup (row_key <$> (filter (λ r', row_key r' ≠ k) rs ++ [r])).
Proof.
  intros Hk Hnd. rewrite fmap_app. apply NoDup_app. split; [|split].
  - induction rs as [|x rs IH]; [constructor|].
    rewrite fmap_cons in Hnd. apply NoDup_cons in Hnd as [Hx Hnd].
    rewrite filter_cons. case_decide; [|by apply IH].
    rewrite fmap_cons. apply NoDup_cons. split; [|by apply IH].
    intros Hin. apply Hx. apply list_elem_of_fmap in Hin as (y & -> & Hy).
    apply list_elem_of_fmap. exists y. split; [done|].
    by apply list_elem_of_filter in Hy as [_ ?].
  - intros k0 Hin Hin'. apply list_elem_of_fmap in Hin as (y & -> & Hy).
    apply list_elem_of_filter in Hy as [Hy _].
    apply list_elem_of_singleton in Hin'. simpl in Hin'. congruence.
  - apply NoDup_singleton.
Qed.

(** One [INSERT OR REPLACE] on an existing table. *)
Lemma insert_or_replace_daily_spec db t date category amount month_budget pct :
  daily_spending db = Some t →
  ∃ db' t' r,
    insert_or_replace_daily db date category amount month_budget pct = Ok db' ∧
    daily_spending db' = Some t' ∧
    spending_alerts db' = spending_alerts db ∧
    rows t' = filter (λ r', row_key r' ≠ (date, category)) (rows t) ++ [r] ∧
    row_key r = (date, category) ∧
    row_amount r = amount ∧ row_month_budget r = month_budget ∧ row_percentage r = pct.
Proof.
  intros Ht. unfold insert_or_replace_daily. rewrite Ht.
  eexists _, _, _. repeat split.
Qed.

(** The loop of [save_daily_data] over items with distinct categories. *)
Lemma save_loop_spec (clk : clock) (items : list (string * metric)) :
  NoDup items.*1 →
  ∀ conn t,
  daily_spending conn = Some t →
  ∃ conn' t',
    for_items
      (λ conn '(category, data),
         insert_or_replace_daily conn (today clk) category
           (spent data) (Qc_of_Z (target data)) (percentage data))
      conn items = Ok conn' ∧
    daily_spending conn' = Some t' ∧
    spending_alerts conn' = spending_alerts conn ∧
    (NoDup (row_key <$> rows t) → NoDup (row_key <$> rows t')) ∧
    (∀ c data, (list_to_map items : gmap string metric) !! c = Some data →
       ∃ r, rows_with (today clk, c) (rows t') = [r] ∧ row_holds r data) ∧
    (∀ k, (k.1 ≠ today clk ∨ (list_to_map items : gmap string metric) !! k.2 = None) →
       rows_with k (rows t') = rows_with k (rows t)).
Proof.
  induction items as [|[c0 d0] items IH]; intros Hnd conn t Ht.
  { exists conn, t. by repeat split. }
  rewrite fmap_cons in Hnd. apply NoDup_cons in Hnd as [Hc0 Hnd]. simpl in Hc0.
  destruct (insert_or_replace_daily_spec conn t (today clk) c0
              (spent d0) (Qc_of_Z (target d0)) (percentage d0) Ht)
    as (conn1 & t1 & r0 & Hstep & Ht1 & Ha1 & Hrows1 & Hkey0 & Hamt & Hbud & Hpct).
  destruct (IH Hnd conn1 t1 Ht1) as (conn' & t' & Hrest & Ht' & Ha' & Huniq & Hhit & Hmiss).
  exists conn', t'. split; [|split; [|split; [|split; [|split]]]].
  - rewrite for_items_cons, Hstep. exact Hrest.
  - done.
  - by rewrite Ha'.
  - intros Hu. apply Huniq. rewrite Hrows1. by apply keys_unique_replaced.
  - intros c data. rewrite list_to_map_cons.
    destruct (decide (c = c0)) as [->|Hne].
    + rewrite lookup_insert_eq. intros [= <-].
      exists r0. split; [|done].
      rewrite Hmiss.
      * rewrite Hrows1. by apply rows_with_replaced.
      * right. simpl. by apply not_elem_of_list_to_map_1.
    + rewrite lookup_insert_ne by done. apply Hhit.
  - intros k Hk. rewrite list_to_map_cons in Hk. rewrite Hmiss.
    + rewrite Hrows1. apply rows_with_other; [done|].
      intros ->. simpl in Hk. rewrite lookup_insert_eq in Hk. by destruct Hk.
    + destruct Hk as [Hk|Hk]; [by left|]. right.
      destruct (decide (k.2 = c0)) as [E|Hne].
      * rewrite E, lookup_insert_eq in Hk. done.
      * by rewrite lookup_insert_ne in Hk.
Qed.

Lemma save_daily_data_spec (clk : clock) (db : database) (t : table daily_row)
    (spending_data : gmap string Qc) (metrics : gmap string metric) :
  daily_spending db = Some t →
  ∃ db' t',
    save_daily_data clk (DbFile db) spending_data metrics = Ok (DbFile db') ∧
    daily_spending db' = Some t' ∧
    spending_alerts db' = spending_alerts db ∧
    (NoDup (row_key <$> rows t) → NoDup (row_key <$> rows t')) ∧
    (∀ c data, metrics !! c = Some data →
       ∃ r, rows_with (today clk, c) (rows t') = [r] ∧ row_holds r data) ∧
    (∀ k, (k.1 ≠ today clk ∨ metrics !! k.2 = None) →
       rows_with k (rows t') = rows_with k (rows t)).
Proof.
  intros Ht.
  destruct (save_loop_spec clk (map_to_list metrics) (NoDup_fst_map_to_list _) db t Ht)
    as (db' & t' & Hloop & Ht' & Ha' & Huniq & Hhit & Hmiss).
  rewrite list_to_map_to_list in Hhit, Hmiss.
  exists db', t'. repeat split; try done.
  unfold save_daily_data. simpl. by rewrite Hloop.
Qed.

(** C4. Two calls of [save_daily_data] with the same date, on a store whose
    daily table exists and holds each (date, category) key at most once,
    both end normally; afterwards every key is still held at most once, each
    category of the second call has exactly one row for that date, with the
    second call's spent, target and percentage, and a category written only
    by the first call keeps its single row. *)
Theorem save_daily_data_twice (clk : clock) (db : database) (t : table daily_row)
    (spending1 spending2 : gmap string Qc) (metrics1 metrics2 : gmap string metric) :
  daily_spending db = Some t →
  NoDup (row_key <$> rows t) →
  ∃ st1 db2 t2,
    save_daily_data clk (DbFile db) spending1 metrics1 = Ok st1 ∧
    save_daily_data clk st1 spending2 metrics2 = Ok (DbFile db2) ∧
    daily_spending db2 = Some t2 ∧
    NoDup (row_key <$> rows t2) ∧
    (∀ c data, metrics2 !! c = Some data →
       ∃ r, rows_with (today clk, c) (rows t2) = [r] ∧ row_holds r data) ∧
    (∀ c data, metrics1 !! c = Some data → metrics2 !! c = None →
       ∃ r, rows_with (today clk, c) (rows t2) = [r] ∧ row_holds r data).
Proof.
  intros Ht Hu.
  destruct (save_daily_data_spec clk db t spending1 metrics1 Ht)
    as (db1 & t1 & Hsave1 & Ht1 & _ & Hu1 & Hhit1 & _).
  destruct (save_daily_data_spec clk db1 t1 spending2 metrics2 Ht1)
    as (db2 & t2 & Hsave2 & Ht2 & _ & Hu2 & Hhit2 & Hmiss2).
  exists (DbFile db1), db2, t2. repeat split; try done.
  - auto.
  - intros c data H1 H2. rewrite Hmiss2 by (by right). by apply Hhit1.
Qed.

Lemma save_daily_data_twice_witness :
  ∃ st1 db2 t2,
    save_daily_data sample_clock (DbFile fresh_database) ∅ sample_metrics = Ok st1 ∧
    save_daily_data sample_clock st1 ∅ sample_metrics = Ok (DbFile db2) ∧
    daily_spending db2 = Some t2 ∧
    NoDup (row_key <$> rows t2).
Proof.
  destruct (save_daily_data_twice sample_clock fresh_database empty_table
              ∅ ∅ sample_metrics sample_metrics eq_refl NoDup_nil_2)
    as (st1 & db2 & t2 & H1 & H2 & Ht2 & Hu & _).
  exists st1, db2, t2. exact (conj H1 (conj H2 (conj Ht2 Hu))).
Defined.

(** Saving the sample metrics and then a new groceries figure the same day
    replaces the groceries row (the new row takes the next id). *)
Example save_twice_rows :
  match save_daily_data sample_clock (DbFile fresh_database) ∅ sample_metrics with
  | Ok st1 =>
      match save_daily_data sample_clock st1 ∅
              {[ "🥕 Groceries"%string := sample_metric 950 900 over_budget ]} with
      | Ok (DbFile db) =>
          (λ t, (λ r, (row_id r, row_category r, this (row_amount r))) <$> rows t)
            <$> daily_spending db
      | _ => None
      end
  | Raise _ => None
  end
  = Some [(1, "🍽️ Dining Out"%string, 250%Q); (3, "🥕 Groceries"%string, 950%Q)].
Proof. vm_compute. reflexivity. Qed.

(** ** Trends *)

Lemma py_sum_snoc (l : list Qc) (a : Qc) : py_sum (l ++ [a]) = (py_sum l + a)%Qc.
Proof. unfold py_sum. by rewrite fold_left_app. Qed.

Lemma py_sum_int_snoc (l : list Z) (a : Z) : py_sum_int (l ++ [a]) = py_sum_int l + a.
Proof. unfold py_sum_int. by rewrite fold_left_app. Qed.

Lemma sigma_ext (n : nat) (f g : nat → Qc) :
  (∀ i, (i < n)%nat → f i = g i) → sigma n f = sigma n g.
Proof.
  induction n as [|n IH]; intros Hfg; [done|]. simpl.
  rewrite IH, (Hfg n) by (intros; try apply Hfg; lia). done.
Qed.

(** Python's [sum] adds up the entries by index. *)
Lemma py_sum_sigma (l : list Qc) :
  py_sum l = sigma (length l) (λ i, default 0%Qc (l !! i)).
Proof.
  induction l as [|a l IH] using rev_ind; [done|].
  rewrite py_sum_snoc, length_app, Nat.add_1_r. simpl.
  rewrite list_lookup_middle by done. simpl. f_equal.
  rewrite IH. apply sigma_ext. intros i Hi. by rewrite lookup_app_l.
Qed.

Lemma py_sum_int_Qc (l : list Z) : Qc_of_Z (py_sum_int l) = py_sum (Qc_of_Z <$> l).
Proof.
  induction l as [|a l IH] using rev_ind; [by apply Qc_is_canon|].
  by rewrite fmap_snoc, py_sum_int_snoc, py_sum_snoc, Z2Qc_inj_add, IH.
Qed.

Lemma sum_range (n : nat) :
  2 * py_sum_int (seqZ 0 (Z.of_nat n)) = Z.of_nat n * (Z.of_nat n - 1).
Proof.
  induction n as [|n IH]; [done|].
  rewrite seqZ_S, py_sum_int_snoc. lia.
Qed.

Lemma sum_squares (n : nat) :
  6 * py_sum_int ((λ x, x * x) <$> seqZ 0 (Z.of_nat n)) =
    (Z.of_nat n - 1) * Z.of_nat n * (2 * Z.of_nat n - 1).
Proof.
  induction n as [|n IH]; [done|].
  rewrite seqZ_S, fmap_snoc, py_sum_int_snoc. nia.
Qed.

(** The divisor of the slope is [n²(n²-1)/12]: positive from two points on. *)
Lemma slope_denominator_pos (amounts : list Qc) :
  (2 ≤ length amounts)%nat → 0 < slope_denominator amounts.
Proof.
  intros Hn. unfold slope_denominator, x_values_of.
  pose proof (sum_range (length amounts)) as H1.
  pose proof (sum_squares (length amounts)) as H2.
  set (n := Z.of_nat (length amounts)) in *.
  set (s1 := py_sum_int (seqZ 0 n)) in *.
  set (s2 := py_sum_int ((λ x, x * x) <$> seqZ 0 n)) in *.
  assert (2 ≤ n) as Hn' by lia.
  assert (12 * (n * s2 - s1 * s1) = n * n * (n - 1) * (n + 1)) as H12 by nia.
  assert (0 < n * n * (n - 1) * (n + 1)) by (repeat apply Z.mul_pos_pos; lia).
  lia.
Qed.

Lemma py_sum_indexed (l : list Qc) (n : nat) (f : nat → Qc) :
  length l = n → (∀ i, (i < n)%nat → l !! i = Some (f i)) → py_sum l = sigma n f.
Proof.
  intros Hlen Hl. rewrite py_sum_sigma, Hlen. apply sigma_ext.
  intros i Hi. by rewrite Hl.
Qed.

Section regression.
Variable amounts : list Qc.
Let n := length amounts.
Let x := λ i : nat, Qc_of_Z (Z.of_nat i).
Let y := λ i : nat, default 0%Qc (amounts !! i).

Lemma sum_x_sigma : Qc_of_Z (py_sum_int (x_values_of amounts)) = sigma n x.
Proof.
  rewrite py_sum_int_Qc. apply py_sum_indexed.
  - unfold x_values_of. rewrite length_fmap, length_seqZ. apply Nat2Z.id.
  - intros i Hi. unfold x_values_of.
    rewrite list_lookup_fmap, lookup_seqZ_lt by (subst n; lia). done.
Qed.

Lemma sum_x2_sigma :
  Qc_of_Z (py_sum_int ((λ v, v * v) <$> x_values_of amounts)) = sigma n (λ i, x i * x i)%Qc.
Proof.
  rewrite py_sum_int_Qc. apply py_sum_indexed.
  - unfold x_values_of. rewrite !length_fmap, length_seqZ. apply Nat2Z.id.
  - intros i Hi. unfold x_values_of.
    rewrite !list_lookup_fmap, lookup_seqZ_lt by (subst n; lia). simpl.
    by rewrite Z2Qc_inj_mul.
Qed.

Lemma sum_xy_sigma :
  py_sum (zip_with (λ v w, Qc_of_Z v * w)%Qc (x_values_of amounts) amounts) =
    sigma n (λ i, x i * y i)%Qc.
Proof.
  apply py_sum_indexed.
  - unfold x_values_of. rewrite length_zip_with, length_seqZ, Nat2Z.id. subst n. lia.
  - intros i Hi. unfold x_values_of, y.
    rewrite lookup_zip_with, lookup_seqZ_lt by (subst n; lia). simpl.
    destruct (lookup_lt_is_Some_2 amounts i Hi) as [a Ha]. by rewrite Ha.
Qed.

Lemma sum_y_sigma : py_sum amounts = sigma n y.
Proof.
  apply py_sum_indexed; [done|]. intros i Hi. unfold y.
  destruct (lookup_lt_is_Some_2 amounts i Hi) as [a Ha]. by rewrite Ha.
Qed.

(** The quotient the code computes is the specification's slope. *)
Lemma slope_refines :
  (slope_numerator amounts / Qc_of_Z (slope_denominator amounts))%Qc = ols_slope amounts.
Proof.
  unfold slope_numerator, slope_denominator, ols_slope.
  rewrite Z2Qc_inj_sub, !Z2Qc_inj_mul.
  by rewrite sum_x_sigma, sum_x2_sigma, sum_xy_sigma, sum_y_sigma.
Qed.

End regression.

Lemma length_last_n {A} (k : nat) (l : list A) : length (last_n k l) = (k `min` length l)%nat.
Proof. unfold last_n. rewrite length_drop. lia. Qed.

Lemma last_n_all {A} (k : nat) (l : list A) : (length l ≤ k)%nat → last_n k l = l.
Proof. intros Hl. unfold last_n. by replace (length l - k)%nat with 0%nat by lia. Qed.

Lemma trend_labels_distinct :
  increasing ≠ decreasing ∧ increasing ≠ stable ∧ decreasing ≠ stable.
Proof. unfold increasing, decreasing, stable. repeat split; discriminate. Qed.

(** A category with fewer than seven points is skipped. *)
Lemma category_trend_skip (clk : clock) (data_points : list point) :
  (length data_points < 7)%nat → category_trend clk data_points = Ok None.
Proof. intros Hlen. unfold category_trend. by rewrite decide_True. Qed.

(** A category with at least seven points: the body never raises, and the
    entry it stores. *)
Lemma category_trend_spec (clk : clock) (data_points : list point) :
  (7 ≤ length data_points)%nat →
  let amounts := point_amount <$> last_n 14 data_points in
  ∃ e, category_trend clk data_points = Ok (Some e) ∧
    (7 ≤ length amounts ≤ 14)%nat ∧
    slope e = ols_slope amounts ∧
    (trend e = increasing ↔ (Qc_of_Z 5 < slope e)%Qc) ∧
    (trend e = decreasing ↔ (slope e < Qc_of_Z (-5))%Qc) ∧
    (trend e = stable ↔ (Qc_of_Z (-5) ≤ slope e)%Qc ∧ (slope e ≤ Qc_of_Z 5)%Qc) ∧
    projected_total e =
      (default 0 (last amounts) +
       py_max 0 (slope e * Qc_of_Z (30 - day_of_month clk)))%Qc ∧
    mean (last_n 7 amounts) = Ok (avg_daily e) ∧
    length (last_n 7 amounts) = 7%nat.
Proof.
  intros Hlen amounts.
  assert (7 ≤ length amounts ≤ 14)%nat as Hwin.
  { subst amounts. rewrite length_fmap, length_last_n. lia. }
  assert (length (last_n 7 amounts) = 7%nat) as Hlast7.
  { rewrite length_last_n. lia. }
  destruct trend_labels_distinct as (Hid & His & Hds).
  assert (Qc_of_Z (-5) < Qc_of_Z 5)%Qc as H55 by (by apply Z2Qc_inj_lt).
  unfold category_trend.
  destruct (decide (length data_points < 7)%nat); [lia|]. fold amounts.
  destruct (decide (2 ≤ length amounts)%nat); [|lia].
  unfold py_div.
  destruct (decide (Qc_of_Z (slope_denominator amounts) = 0%Qc)) as [E|_].
  { exfalso. rewrite <-Z2Qc_inj_0 in E. apply Z2Qc_inj in E.
    pose proof (slope_denominator_pos amounts). lia. }
  cbv beta iota delta [mbind result_bind]. rewrite slope_refines.
  set (s := ols_slope amounts).
  destruct (decide (7 ≤ length amounts)%nat); [|lia].
  assert (∃ avg, mean (last_n 7 amounts) = Ok avg) as [avg Havg].
  { unfold mean. destruct (last_n 7 amounts); [done|by eexists]. }
  rewrite Havg. cbv beta iota delta [mbind result_bind].
  destruct (decide (Qc_of_Z 5 < s)%Qc) as [Hinc|Hninc].
  - assert (Qc_of_Z (-5) < s)%Qc as Hlow by (by trans (Qc_of_Z 5)).
    eexists. split; [reflexivity|]. cbn [slope trend projected_total avg_daily].
    split; [exact Hwin|]. split; [reflexivity|]. split; [|split; [|split]].
    + split; [by intros _|by intros _].
    + split; [intros E; by destruct Hid|].
      intros Hlt. exfalso. apply (Qclt_not_le _ _ Hlow). by apply Qclt_le_weak.
    + split; [intros E; by destruct His|].
      intros [_ Hle]. exfalso. by apply (Qclt_not_le _ _ Hinc).
    + split; [reflexivity|]. split; [reflexivity|exact Hlast7].
  - apply Qcle_ngt in Hninc.
    destruct (decide (s < Qc_of_Z (-5))%Qc) as [Hdec|Hndec].
    + eexists. split; [reflexivity|]. cbn [slope trend projected_total avg_daily].
      split; [exact Hwin|]. split; [reflexivity|]. split; [|split; [|split]].
      * split; [intros E; symmetry in E; by destruct Hid|].
        intros Hlt. exfalso. by apply (Qclt_not_le _ _ Hlt).
      * split; [by intros _|by intros _].
      * split; [intros E; by destruct Hds|].
        intros [Hle _]. exfalso. by apply (Qclt_not_le _ _ Hdec).
      * split; [reflexivity|]. split; [reflexivity|exact Hlast7].
    + apply Qcle_ngt in Hndec.
      eexists. split; [reflexivity|]. cbn [slope trend projected_total avg_daily].
      split; [exact Hwin|]. split; [reflexivity|]. split; [|split; [|split]].
      * split; [intros E; symmetry in E; by destruct His|].
        intros Hlt. exfalso. by apply (Qclt_not_le _ _ Hlt).
      * split; [intros E; symmetry in E; by destruct Hds|].
        intros Hlt. exfalso. by apply (Qclt_not_le _ _ Hlt).
      * split; [by intros _|by intros _].
      * split; [reflexivity|]. split; [reflexivity|exact Hlast7].
Qed.

(** The body of the trend loop never raises. *)
Lemma category_trend_total (clk : clock) (data_points : list point) :
  ∃ r, category_trend clk data_points = Ok r.
Proof.
  destruct (decide (length data_points < 7)%nat) as [Hlt|Hge].
  - exists None. by apply category_trend_skip.
  - destruct (category_trend_spec clk data_points) as (e & He & _); [lia|].
    by exists (Some e).
Qed.

(** [calculate_spending_trends] ends normally, and the entry of each
    category is what the loop body yields on that category's points. *)
Lemma calculate_spending_trends_lookup (clk : clock)
    (historical_data : gmap string (list point)) :
  ∃ trends, calculate_spending_trends clk historical_data = Ok trends ∧
    ∀ c,
      match historical_data !! c with
      | Some data_points => category_trend clk data_points = Ok (trends !! c)
      | None => trends !! c = None
      end.
Proof.
  destruct (for_items_insert_spec (λ _ : string, category_trend clk)
              (map_to_list historical_data)) with (acc := (∅ : gmap string trend_entry))
    as (trends & Hrun & Hlook).
  { apply NoDup_fst_map_to_list. }
  { intros c dps _. apply category_trend_total. }
  exists trends. split; [exact Hrun|].
  intros c. specialize (Hlook c). rewrite list_to_map_to_list in Hlook.
  destruct (historical_data !! c) as [dps|] eqn:Hc.
  - destruct Hlook as (r & Hr & Hm). rewrite Hr, Hm. by destruct r.
  - by rewrite Hlook.
Qed.




(** *** The trends in every arithmetic *)

(** The divisor of the slope is [n²(n²-1)/12]: positive from two points on. *)
Lemma slope_divisor_pos (n : nat) :
  (2 ≤ n)%nat →
  0 < Z.of_nat n * py_sum_int ((λ x, x * x) <$> seqZ 0 (Z.of_nat n)) -
      py_sum_int (seqZ 0 (Z.of_nat n)) * py_sum_int (seqZ 0 (Z.of_nat n)).
Proof.
  intros Hn.
  pose proof (sum_range n) as H1. pose proof (sum_squares n) as H2.
  set (k := Z.of_nat n) in *.
  set (s1 := py_sum_int (seqZ 0 k)) in *.
  set (s2 := py_sum_int ((λ x, x * x) <$> seqZ 0 k)) in *.
  assert (2 ≤ k) as Hk by lia.
  assert (12 * (k * s2 - s1 * s1) = k * k * (k - 1) * (k + 1)) as H12 by nia.
  assert (0 < k * k * (k - 1) * (k + 1)) by (repeat apply Z.mul_pos_pos; lia).
  lia.
Qed.

(** Pairing a list with the day indices, as [zip(x_values, amounts)] does. *)
Lemma zip_with_seqZ_imap {A B} (f : Z → A → B) (l : list A) (k : Z) :
  zip_with f (seqZ k (Z.of_nat (length l))) l = imap (λ i y, f (k + Z.of_nat i) y) l.
Proof.
  revert k f. induction l as [|y l IH]; intros k f; [done|].
  rewrite seqZ_cons by (cbn [length]; lia).
  cbn [zip_with imap]. f_equal; [f_equal; lia|].
  replace (Z.pred (Z.of_nat (length (y :: l)))) with (Z.of_nat (length l))
    by (cbn [length]; lia).
  rewrite IH. apply imap_ext. intros i x _. cbn. f_equal. lia.
Qed.

Lemma zip_with_range_imap {A B} (f : Z → A → B) (l : list A) :
  zip_with f (seqZ 0 (Z.of_nat (length l))) l = imap (λ i y, f (Z.of_nat i) y) l.
Proof. rewrite zip_with_seqZ_imap. apply imap_ext. intros i x _. cbn. f_equal. Qed.

Section numeric_trends.
Import Numeric.
Context {R : Type} {num : PyNum R}.

(** A category with fewer than seven points is skipped. *)
Lemma numeric_category_trend_skip (clk : clock) (data_points : list (Numeric.point R)) :
  (length data_points < 7)%nat → Numeric.category_trend clk data_points = Ok None.
Proof. intros Hlen. unfold Numeric.category_trend. by rewrite decide_True. Qed.

(** A category with at least seven points: the body never raises, and the
    entry it stores. *)
Lemma numeric_category_trend_spec (clk : clock) (data_points : list (Numeric.point R)) :
  (7 ≤ length data_points)%nat →
  let amounts := Numeric.point_amount <$> last_n 14 data_points in
  ∃ e, Numeric.category_trend clk data_points = Ok (Some e) ∧
    (7 ≤ length amounts ≤ 14)%nat ∧
    Numeric.slope e = Numeric.ols_slope amounts ∧
    (Numeric.trend e = increasing ↔ py_lt (of_int 5) (Numeric.slope e) = true) ∧
    (Numeric.trend e = decreasing ↔
       py_lt (of_int 5) (Numeric.slope e) = false ∧
       py_lt (Numeric.slope e) (of_int (-5)) = true) ∧
    (Numeric.trend e = stable ↔
       py_lt (of_int 5) (Numeric.slope e) = false ∧
       py_lt (Numeric.slope e) (of_int (-5)) = false) ∧
    Numeric.projected_total e =
      py_add (default py_zero (last amounts))
             (Numeric.py_max0 (py_mul (Numeric.slope e) (of_int (30 - day_of_month clk)))) ∧
    Numeric.avg_daily e = py_mean (last_n 7 amounts).
Proof.
  intros Hlen amounts.
  assert (7 ≤ length amounts ≤ 14)%nat as Hwin.
  { subst amounts. rewrite length_fmap, length_last_n. lia. }
  assert (length (last_n 7 amounts) = 7%nat) as Hlast7.
  { rewrite length_last_n. lia. }
  destruct trend_labels_distinct as (Hid & His & Hds).
  unfold Numeric.category_trend.
  rewrite decide_False by lia. cbv zeta. fold amounts.
  rewrite decide_True by lia.
  unfold Numeric.py_div at 1.
  assert (2 ≤ length amounts)%nat as Htwo by lia.
  pose proof (slope_divisor_pos (length amounts) Htwo) as Hdiv.
  destruct (decide (_ = 0)) as [Hz|_]; [rewrite Hz in Hdiv; lia|].
  destruct (decide (7 ≤ length amounts)%nat) as [_|?]; [|lia].
  assert (Numeric.mean (last_n 7 amounts) = Ok (py_mean (last_n 7 amounts))) as ->.
  { unfold Numeric.mean. destruct (last_n 7 amounts); [done|done]. }
  cbv beta iota delta [mbind result_bind].
  match goal with |- context [py_lt (of_int 5) ?x] => set (sl := x) end.
  assert (sl = Numeric.ols_slope amounts) as Hsl.
  { unfold sl, Numeric.ols_slope. cbv zeta.
    by rewrite (zip_with_range_imap (λ x y, py_mul (of_int x) y) amounts). }
  destruct (py_lt (of_int 5) sl) eqn:Hup.
  - eexists. split; [reflexivity|].
    cbn [Numeric.slope Numeric.trend Numeric.projected_total Numeric.avg_daily].
    rewrite Hup. split; [done|]. split; [done|]. split; [done|].
    split; [split; [intros ?; by exfalso; auto|by intros [? _]]|].
    split; [split; [intros ?; by exfalso; auto|by intros [? _]]|done].
  - destruct (py_lt sl (of_int (-5))) eqn:Hdown.
    + eexists. split; [reflexivity|].
      cbn [Numeric.slope Numeric.trend Numeric.projected_total Numeric.avg_daily].
      rewrite Hup, Hdown. split; [done|]. split; [done|].
      split; [split; [intros ?; by exfalso; auto|done]|].
      split; [done|].
      split; [split; [intros ?; by exfalso; auto|by intros [_ ?]]|done].
    + eexists. split; [reflexivity|].
      cbn [Numeric.slope Numeric.trend Numeric.projected_total Numeric.avg_daily].
      rewrite Hup, Hdown. split; [done|]. split; [done|].
      split; [split; [intros ?; by exfalso; auto|done]|].
      split; [split; [intros ?; by exfalso; auto|by intros [_ ?]]|].
      split; [done|done].
Qed.

(** [calculate_spending_trends] ends normally, and the entry of each
    category is what the loop body yields on that category's points. *)
Lemma numeric_trends_lookup (clk : clock)
    (historical_data : gmap string (list (Numeric.point R))) :
  ∃ trends, Numeric.calculate_spending_trends clk historical_data = Ok trends ∧
    ∀ c,
      match historical_data !! c with
      | Some data_points => Numeric.category_trend clk data_points = Ok (trends !! c)
      | None => trends !! c = None
      end.
Proof.
  destruct (for_items_insert_spec (λ _ : string, Numeric.category_trend clk)
              (map_to_list historical_data))
    with (acc := (∅ : gmap string (Numeric.trend_entry R))) as (trends & Hrun & Hlook).
  { apply NoDup_fst_map_to_list. }
  { intros c dps _. destruct (decide (length dps < 7)%nat) as [Hlt|Hge].
    - exists None. by apply numeric_category_trend_skip.
    - destruct (numeric_category_trend_spec clk dps) as (e & He & _); [lia|].
      by exists (Some e). }
  exists trends. split; [exact Hrun|].
  intros c. specialize (Hlook c). rewrite list_to_map_to_list in Hlook.
  destruct (historical_data !! c) as [dps|]; [|by rewrite Hlook, lookup_empty].
  destruct Hlook as (r & Hr & ->). rewrite Hr. by destruct r.
Qed.

End numeric_trends.

(** The slope of the sample week in binary64. *)
Lemma week_slope_binary64 :
  PrimFloat.ltb (f64_of_Z 5)
    (Numeric.ols_slope (num := Numeric.binary64_num) (f64_of_Z <$> week_amounts)) = true.
Proof. vm_compute. reflexivity. Qed.

(** C5. In every arithmetic (exact or binary64), [calculate_spending_trends]
    ends normally; a category with fewer than seven points has no entry; a
    category with at least seven points has an entry whose slope is the
    least-squares formula [(n·Σxy − Σx·Σy)/(n·Σx² − (Σx)²)] over the day
    indices [0..n-1] of its window, evaluated with the operations of the
    arithmetic, the window being the last at most 14 amounts in their
    stored order, and whose label is increasing exactly when [slope > 5].
    In binary64, for the seven amounts 100, 100, 100, 100, 100, 100, 200
    the slope exceeds 5 and the label is increasing. *)
Theorem calculate_spending_trends_spec :
  (∀ (R : Type) (num : Numeric.PyNum R) (clk : clock)
     (historical_data : gmap string (list (Numeric.point R))),
     ∃ trends, Numeric.calculate_spending_trends clk historical_data = Ok trends ∧
       ∀ c,
         match historical_data !! c with
         | None => trends !! c = None
         | Some data_points =>
             let amounts := Numeric.point_amount <$> last_n 14 data_points in
             ((length data_points < 7)%nat → trends !! c = None) ∧
             ((7 ≤ length data_points)%nat →
                ∃ e, trends !! c = Some e ∧
                  (∃ older, Numeric.point_amount <$> data_points = older ++ amounts) ∧
                  length amounts = (14 `min` length data_points)%nat ∧
                  Numeric.slope e = Numeric.ols_slope amounts ∧
                  (Numeric.trend e = increasing ↔
                     Numeric.py_lt (Numeric.of_int 5) (Numeric.slope e) = true) ∧
                  (Numeric.trend e = decreasing ↔
                     Numeric.py_lt (Numeric.of_int 5) (Numeric.slope e) = false ∧
                     Numeric.py_lt (Numeric.slope e) (Numeric.of_int (-5)) = true) ∧
                  (Numeric.trend e = stable ↔
                     Numeric.py_lt (Numeric.of_int 5) (Numeric.slope e) = false ∧
                     Numeric.py_lt (Numeric.slope e) (Numeric.of_int (-5)) = false))
         end) ∧
  (∀ (clk : clock) (historical_data : gmap string (list (Numeric.point float)))
     (c : string) (data_points : list (Numeric.point float)),
     historical_data !! c = Some data_points →
     Numeric.point_amount <$> data_points = f64_of_Z <$> week_amounts →
     ∃ trends e,
       Numeric.calculate_spending_trends (num := Numeric.binary64_num) clk historical_data
         = Ok trends ∧
       trends !! c = Some e ∧
       PrimFloat.ltb (f64_of_Z 5) (Numeric.slope e) = true ∧
       Numeric.trend e = increasing).
Proof.
  split.
  - intros R num clk historical_data.
    destruct (numeric_trends_lookup clk historical_data) as (trends & Hrun & Hlook).
    exists trends. split; [exact Hrun|].
    intros c. specialize (Hlook c).
    destruct (historical_data !! c) as [dps|]; [|exact Hlook].
    intros amounts. split.
    + intros Hlen. rewrite numeric_category_trend_skip in Hlook by done.
      by injection Hlook.
    + intros Hlen.
      destruct (numeric_category_trend_spec clk dps Hlen)
        as (e & He & _ & Hs & Hi & Hd & Hst & _).
      rewrite He in Hlook. injection Hlook as Hlook.
      exists e. split; [done|]. split.
      { exists (Numeric.point_amount <$> take (length dps - 14) dps).
        subst amounts. unfold last_n. by rewrite <-fmap_app, take_drop. }
      split.
      { subst amounts. by rewrite length_fmap, length_last_n. }
      exact (conj Hs (conj Hi (conj Hd Hst))).
  - intros clk historical_data c dps Hc Hweek.
    destruct (numeric_trends_lookup (num := Numeric.binary64_num) clk historical_data)
      as (trends & Hrun & Hlook).
    specialize (Hlook c). rewrite Hc in Hlook.
    assert (length dps = 7%nat) as Hlen.
    { rewrite <-(length_fmap Numeric.point_amount), Hweek. reflexivity. }
    destruct (numeric_category_trend_spec (num := Numeric.binary64_num) clk dps)
      as (e & He & _ & Hs & Hi & _); [lia|].
    rewrite He in Hlook. injection Hlook as Hlook.
    rewrite (last_n_all 14 dps), Hweek in Hs by lia.
    assert (PrimFloat.ltb (f64_of_Z 5) (Numeric.slope e) = true) as Hup.
    { rewrite Hs. exact week_slope_binary64. }
    exists trends, e. split; [exact Hrun|]. split; [done|]. split; [exact Hup|].
    apply Hi. exact Hup.
Qed.

Lemma calculate_spending_trends_spec_witness :
  ∃ trends e,
    Numeric.calculate_spending_trends (num := Numeric.binary64_num) sample_clock
      {[ "🥕 Groceries"%string := week_points_binary64 ]} = Ok trends ∧
    trends !! "🥕 Groceries"%string = Some e ∧
    PrimFloat.ltb (f64_of_Z 5) (Numeric.slope e) = true ∧
    Numeric.trend e = increasing.
Proof.
  exact (proj2 calculate_spending_trends_spec sample_clock
           {[ "🥕 Groceries"%string := week_points_binary64 ]} "🥕 Groceries"
           week_points_binary64 eq_refl eq_refl).
Defined.

(** Rounding is observable in the label.  In binary64 the week of amounts
    0.01, 5.01, ..., 30.01 has the slope 5 exactly, so it is stable. *)
Example category_trend_binary64 :
  match Numeric.category_trend (num := Numeric.binary64_num) sample_clock
          cent_points_binary64 with
  | Ok (Some e) => Numeric.slope e = f64_of_Z 5 ∧ Numeric.trend e = stable
  | _ => False
  end.
Proof. vm_compute. split; reflexivity. Qed.

(** ** The exact model as an instance of the numeric model *)

Lemma Qc_of_Z_eq_0 (z : Z) : Qc_of_Z z = 0%Qc → z = 0.
Proof. rewrite <-Z2Qc_inj_0. apply Z2Qc_inj. Qed.

(** Over the rationals the numeric loop bodies are the exact ones: the
    exact model is the instance of the numeric model in which no operation
    rounds. *)
Lemma category_metric_exact (spending_data : gmap string Qc) (c : string) (tgt : Z) :
  category_metric spending_data c tgt =
    match Numeric.category_metric (num := Numeric.exact_num) spending_data c tgt with
    | Ok m => Ok (exact_metric m)
    | Raise e => Raise e
    end.
Proof.
  unfold category_metric, Numeric.category_metric, py_div, Numeric.py_div.
  cbn [Numeric.exact_num Numeric.of_int Numeric.py_mul Numeric.py_truediv_num
       Numeric.py_lt Numeric.num_arith py_zero exact_arith].
  destruct (decide (0 < tgt)) as [Hpos|Hnpos].
  - destruct (decide (Qc_of_Z tgt = 0%Qc)) as [Hz|_].
    { apply Qc_of_Z_eq_0 in Hz. lia. }
    destruct (decide (tgt = 0)) as [Hz|_]; [lia|].
    cbv beta iota delta [mbind result_bind].
    set (p := (_ / _ * _)%Qc).
    destruct (decide (Qc_of_Z 100 < p)%Qc) as [H1|H1].
    { rewrite bool_decide_eq_true_2 by done. reflexivity. }
    rewrite (bool_decide_eq_false_2 _ H1).
    destruct (decide (Qc_of_Z 90 < p)%Qc) as [H2|H2].
    { rewrite bool_decide_eq_true_2 by done. reflexivity. }
    rewrite (bool_decide_eq_false_2 _ H2). reflexivity.
  - rewrite Z2Qc_inj_0. cbv beta iota delta [mbind result_bind].
    destruct (decide (Qc_of_Z 100 < 0)%Qc) as [H1|H1].
    { exfalso. apply (Qclt_not_le _ _ H1). rewrite <-Z2Qc_inj_0. by apply Z2Qc_inj_le. }
    rewrite (bool_decide_eq_false_2 _ H1).
    destruct (decide (Qc_of_Z 90 < 0)%Qc) as [H2|H2].
    { exfalso. apply (Qclt_not_le _ _ H2). rewrite <-Z2Qc_inj_0. by apply Z2Qc_inj_le. }
    rewrite (bool_decide_eq_false_2 _ H2). reflexivity.
Qed.

Lemma last_n_fmap {A B} (f : A → B) (k : nat) (l : list A) :
  f <$> last_n k l = last_n k (f <$> l).
Proof. unfold last_n. by rewrite fmap_drop, length_fmap. Qed.

Lemma category_trend_exact (clk : clock) (data_points : list point) :
  category_trend clk data_points =
    match Numeric.category_trend (num := Numeric.exact_num) clk
            (numeric_point <$> data_points) with
    | Ok (Some e) => Ok (Some (exact_trend_entry e))
    | Ok None => Ok None
    | Raise e => Raise e
    end.
Proof.
  unfold category_trend, Numeric.category_trend.
  rewrite (length_fmap numeric_point data_points).
  destruct (decide (length data_points < 7)%nat) as [|Hlen]; [done|].
  rewrite <-(last_n_fmap numeric_point 14 data_points), <-list_fmap_compose.
  change (Numeric.point_amount ∘ numeric_point) with point_amount.
  set (amounts := point_amount <$> last_n 14 data_points).
  destruct (decide (2 ≤ length amounts)%nat) as [Htwo|]; [|done].
  unfold py_div, Numeric.py_div, slope_numerator, slope_denominator, x_values_of,
    py_max, Numeric.py_max0, mean, Numeric.mean, py_sum.
  cbn [Numeric.exact_num Numeric.of_int Numeric.py_mul Numeric.py_sub
       Numeric.py_truediv_num Numeric.py_lt Numeric.py_sum Numeric.py_mean
       Numeric.num_arith py_zero py_add exact_arith].
  cbv zeta.
  set (d := Z.of_nat (length amounts) * _ - _).
  destruct (decide (Qc_of_Z d = 0%Qc)) as [Hz|Hnz], (decide (d = 0)) as [Hz'|Hnz'].
  - done.
  - by apply Qc_of_Z_eq_0 in Hz.
  - rewrite Hz' in Hnz. by rewrite Z2Qc_inj_0 in Hnz.
  - cbv beta iota delta [mbind result_bind].
    set (sl := (_ / Qc_of_Z d)%Qc). rewrite Z2Qc_inj_0.
    set (proj := (sl * _)%Qc).
    assert (bool_decide (0 < proj)%Qc = if decide (0 < proj)%Qc then true else false) as ->.
    { by destruct (decide (0 < proj)%Qc); [rewrite bool_decide_eq_true_2|rewrite bool_decide_eq_false_2]. }
    destruct (decide (7 ≤ length amounts)%nat) as [Hseven|Hseven].
    + destruct (last_n 7 amounts) as [|a rest] eqn:Hlast.
      { exfalso. apply (f_equal length) in Hlast. rewrite length_last_n in Hlast.
        cbn [length] in Hlast. lia. }
      cbv beta iota delta [mbind result_bind].
      destruct (decide (Qc_of_Z 5 < sl)%Qc) as [H1|H1].
      { rewrite bool_decide_eq_true_2 by done. by destruct (decide (0 < proj)%Qc). }
      rewrite (bool_decide_eq_false_2 _ H1).
      destruct (decide (sl < Qc_of_Z (-5))%Qc) as [H2|H2].
      { rewrite bool_decide_eq_true_2 by done. by destruct (decide (0 < proj)%Qc). }
      rewrite (bool_decide_eq_false_2 _ H2). by destruct (decide (0 < proj)%Qc).
    + cbv beta iota delta [mbind result_bind].
      destruct (decide (Qc_of_Z 5 < sl)%Qc) as [H1|H1].
      { rewrite bool_decide_eq_true_2 by done. by destruct (decide (0 < proj)%Qc). }
      rewrite (bool_decide_eq_false_2 _ H1).
      destruct (decide (sl < Qc_of_Z (-5))%Qc) as [H2|H2].
      { rewrite bool_decide_eq_true_2 by done. by destruct (decide (0 < proj)%Qc). }
      rewrite (bool_decide_eq_false_2 _ H2). by destruct (decide (0 < proj)%Qc).
Qed.

(** The seven sample amounts give the slope 75/7. *)
Example week_slope :
  match calculate_spending_trends sample_clock sample_history with
  | Ok trends =>
      (λ e, (trend e, this (slope e), this (projected_total e), this (avg_daily e)))
        <$> trends !! "🥕 Groceries"%string
  | Raise _ => None
  end = Some (increasing, (75 # 7)%Q, (2900 # 7)%Q, (800 # 7)%Q).
Proof. vm_compute. reflexivity. Qed.







(** ** An unavailable store *)

(** Without the daily table every [INSERT OR REPLACE] raises. *)
Lemma save_loop_no_table (clk : clock) (items : list (string * metric)) (conn : database) :
  daily_spending conn = None →
  for_items
    (λ conn '(category, data),
       insert_or_replace_daily conn (today clk) category
         (spent data) (Qc_of_Z (target data)) (percentage data))
    conn items =
  match items with
  | [] => Ok conn
  | _ => Raise (OperationalError "no such table: daily_spending")
  end.
Proof.
  intros Hnone. destruct items as [|[c d] items]; [done|].
  rewrite for_items_cons. unfold insert_or_replace_daily. by rewrite Hnone.
Qed.

Lemma run_raises_without_store (cfg : config) (clk : clock) (st : storage)
    (transactions : list transaction) :
  st = Unopenable ∨ st = NoFile → ∃ e, run cfg clk st transactions = Raise e.
Proof.
  intros Hst. unfold run.
  destruct (calculate_metrics_entries cfg (spending_data_of cfg transactions))
    as (metrics & -> & _).
  cbv beta iota delta [mbind result_bind].
  destruct Hst as [-> | ->].
  - by eexists.
  - unfold save_daily_data, connect. cbv beta iota delta [mbind result_bind].
    rewrite save_loop_no_table by done.
    destruct (map_to_list metrics); by eexists.
Qed.

(** C8, as stated, fails: on a store that cannot be opened, and on a missing
    database file, [get_historical_data] raises instead of returning an
    empty result. *)
Lemma get_historical_data_raises :
  get_historical_data sample_clock Unopenable 30 =
    Raise (OperationalError "unable to open database file") ∧
  get_historical_data sample_clock NoFile 30 =
    Raise (OperationalError "no such table: daily_spending") ∧
  get_historical_data sample_clock Unopenable 30 ≠ Ok ∅ ∧
  get_historical_data sample_clock NoFile 30 ≠ Ok ∅.
Proof. repeat split; try reflexivity; discriminate. Qed.

(** C8, amended. If the store is unavailable, because the database cannot be
    opened or because its file is missing, [get_historical_data] raises the
    store's error, and [run], which has no fallback for it, ends with an
    exception instead of a result; on a store whose daily table exists the
    read ends normally. *)
Theorem store_unavailable_is_fatal (cfg : config) (clk : clock) (days : Z)
    (transactions : list transaction) :
  get_historical_data clk Unopenable days =
    Raise (OperationalError "unable to open database file") ∧
  get_historical_data clk NoFile days =
    Raise (OperationalError "no such table: daily_spending") ∧
  (∃ e, run cfg clk Unopenable transactions = Raise e) ∧
  (∃ e, run cfg clk NoFile transactions = Raise e) ∧
  (∀ db t, daily_spending db = Some t →
     ∃ data, get_historical_data clk (DbFile db) days = Ok data).
Proof.
  split; [reflexivity|]. split; [reflexivity|]. split; [|split].
  - apply run_raises_without_store. by left.
  - apply run_raises_without_store. by right.
  - intros db t Ht. unfold get_historical_data, connect.
    cbv beta iota delta [mbind result_bind]. unfold select_daily_since.
    rewrite Ht. by eexists.
Qed.

(** * Further properties of the store *)

(** ** [setup_database] *)

(** [setup_database] fails only when the database cannot be opened.
    Otherwise both tables exist afterwards, a table that existed keeps its
    rows and its id counter, and a second call changes nothing. *)
Theorem setup_database_keeps_rows (st : storage) :
  match st with
  | Unopenable => ∃ e, setup_database st = Raise e
  | _ =>
      ∃ db', setup_database st = Ok (DbFile db') ∧
        is_Some (daily_spending db') ∧ is_Some (spending_alerts db') ∧
        setup_database (DbFile db') = Ok (DbFile db') ∧
        ∀ db, st = DbFile db →
          (∀ t, daily_spending db = Some t → daily_spending db' = Some t) ∧
          (∀ a, spending_alerts db = Some a → spending_alerts db' = Some a)
  end.
Proof.
  destruct st as [| |db0].
  - by eexists.
  - eexists. split; [reflexivity|]. cbn.
    split; [by eexists|]. split; [by eexists|]. split; [reflexivity|].
    intros db [=].
  - eexists. split; [reflexivity|]. cbn.
    split; [by destruct (daily_spending db0); eexists|].
    split; [by destruct (spending_alerts db0); eexists|].
    split.
    + unfold setup_database. cbn.
      by destruct (daily_spending db0), (spending_alerts db0).
    + intros db [= <-]. split.
      * intros t Ht. by rewrite Ht.
      * intros a Ha. by rewrite Ha.
Qed.

(** ** What the two writing loops store *)

Lemma check_category_step cfg clk alerts conn t category data :
  spending_alerts conn = Some t →
  check_category cfg clk (alerts, conn) (category, data) =
    match raised_alert cfg category data with
    | None => Ok (alerts, conn)
    | Some a =>
        Ok (alerts ++ [a],
            {| daily_spending := daily_spending conn;
               spending_alerts :=
                 Some {| rows := rows t ++ [alert_row_of (today clk) (last_id t + 1) a];
                         last_id := last_id t + 1 |} |})
    end.
Proof.
  intros Ht. unfold check_category, raised_alert, insert_alert. rewrite Ht.
  repeat case_decide; reflexivity.
Qed.

Lemma raised_alerts_cons cfg category data items :
  raised_alerts cfg ((category, data) :: items) =
    option_list (raised_alert cfg category data) ++ raised_alerts cfg items.
Proof. reflexivity. Qed.

(** The alert loop appends one row per alert, in the order of the returned
    list, under consecutive fresh ids. *)
Lemma check_loop_rows cfg clk (items : list (string * metric)) :
  ∀ alerts conn t,
  spending_alerts conn = Some t →
  ∃ conn' t',
    for_items (check_category cfg clk) (alerts, conn) items =
      Ok (alerts ++ raised_alerts cfg items, conn') ∧
    spending_alerts conn' = Some t' ∧
    daily_spending conn' = daily_spending conn ∧
    rows t' = rows t ++
      imap (λ i a, alert_row_of (today clk) (last_id t + 1 + Z.of_nat i) a)
        (raised_alerts cfg items) ∧
    last_id t' = last_id t + Z.of_nat (length (raised_alerts cfg items)).
Proof.
  induction items as [|[category data] items IH]; intros alerts conn t Ht.
  { exists conn, t. cbn. rewrite !app_nil_r. repeat split; try done. lia. }
  rewrite for_items_cons, (check_category_step _ _ _ _ t) by done.
  rewrite raised_alerts_cons.
  destruct (raised_alert cfg category data) as [a|].
  - change (option_list (Some a) ++ raised_alerts cfg items)
      with (a :: raised_alerts cfg items).
    set (conn1 := {| daily_spending := daily_spending conn;
                     spending_alerts := Some {| rows := rows t ++ [alert_row_of (today clk) (last_id t + 1) a];
                                                last_id := last_id t + 1 |} |}).
    destruct (IH (alerts ++ [a]) conn1 _ eq_refl) as (conn' & t' & Hrun & Ht' & Hd & Hrows & Hid).
    cbn [rows last_id] in Hrows, Hid.
    exists conn', t'. split; [|split; [|split; [|split]]].
    + cbv beta iota delta [mbind result_bind]. rewrite Hrun.
      by rewrite <-(assoc (++)).
    + done.
    + by rewrite Hd.
    + rewrite Hrows, imap_cons, <-(assoc (++)). cbn [app]. f_equal. f_equal.
      * f_equal. lia.
      * apply imap_ext. intros i x _. cbn. f_equal. lia.
    + rewrite Hid. rewrite length_cons. lia.
  - change (option_list None ++ raised_alerts cfg items) with (raised_alerts cfg items).
    destruct (IH alerts conn t Ht) as (conn' & t' & Hrun & Ht' & Hd & Hrows & Hid).
    exists conn', t'. by repeat split.
Qed.

Lemma filter_not_key_member (today_ : string) (c0 : string) (cs : list string)
    (rs : list daily_row) :
  filter (λ r, ¬ (row_date r = today_ ∧ row_category r ∈ cs))
    (filter (λ r, row_key r ≠ (today_, c0)) rs) =
  filter (λ r, ¬ (row_date r = today_ ∧ row_category r ∈ c0 :: cs)) rs.
Proof.
  induction rs as [|r rs IH]; [done|].
  rewrite !(filter_cons _ r).
  destruct (decide (row_key r ≠ (today_, c0))) as [Hne|Heq].
  - rewrite (filter_cons _ r).
    destruct (decide (¬ (row_date r = today_ ∧ row_category r ∈ cs))) as [Hout|Hin].
    + rewrite decide_True; [by rewrite IH|].
      intros [Hd Hc]. apply elem_of_cons in Hc as [Hc|Hc]; [|by apply Hout].
      apply Hne. unfold row_key. by rewrite Hd, Hc.
    + rewrite decide_False; [exact IH|].
      intros Hno. apply Hin. intros [Hd Hc]. apply Hno. split; [done|by right].
  - rewrite decide_False; [exact IH|].
    intros Hno. apply Hno. apply dec_stable in Heq. unfold row_key in Heq.
    injection Heq as Hd Hc. split; [done|]. rewrite Hc. by left.
Qed.

Lemma filter_all {A} (P : A → Prop) `{∀ x, Decision (P x)} (l : list A) :
  (∀ x, x ∈ l → P x) → filter P l = l.
Proof.
  induction l as [|x l IH]; intros Hall; [done|].
  rewrite filter_cons, decide_True by (apply Hall; left).
  f_equal. apply IH. intros y Hy. apply Hall. by right.
Qed.

Lemma insert_or_replace_daily_step db t date category amount month_budget pct :
  daily_spending db = Some t →
  insert_or_replace_daily db date category amount month_budget pct =
    Ok {| daily_spending :=
            Some {| rows :=
                      filter (λ r', row_key r' ≠ (date, category)) (rows t) ++
                      [{| row_id := last_id t + 1; row_date := date;
                          row_category := category; row_amount := amount;
                          row_month_budget := month_budget; row_percentage := pct |}];
                    last_id := last_id t + 1 |};
          spending_alerts := spending_alerts db |}.
Proof. intros Ht. unfold insert_or_replace_daily. by rewrite Ht. Qed.

(** The save loop keeps every row it does not replace, in place, and appends
    one row per item under consecutive fresh ids. *)
Lemma save_loop_rows (clk : clock) (items : list (string * metric)) :
  NoDup items.*1 →
  ∀ conn t,
  daily_spending conn = Some t →
  ∃ conn' t',
    for_items
      (λ conn '(category, data),
         insert_or_replace_daily conn (today clk) category
           (spent data) (Qc_of_Z (target data)) (percentage data))
      conn items = Ok conn' ∧
    daily_spending conn' = Some t' ∧
    spending_alerts conn' = spending_alerts conn ∧
    rows t' =
      filter (λ r, ¬ (row_date r = today clk ∧ row_category r ∈ items.*1)) (rows t) ++
      imap (λ i item, daily_row_of (today clk) (last_id t + 1 + Z.of_nat i) item) items ∧
    last_id t' = last_id t + Z.of_nat (length items).
Proof.
  induction items as [|[c0 d0] items IH]; intros Hnd conn t Ht.
  { exists conn, t. cbn [for_items imap length]. rewrite app_nil_r.
    split; [done|]. split; [done|]. split; [done|]. split; [|lia].
    symmetry. apply filter_all. intros r _ [_ Hin]. by apply elem_of_nil in Hin. }
  rewrite fmap_cons in Hnd. apply NoDup_cons in Hnd as [Hc0 Hnd]. cbn [fst] in Hc0.
  rewrite for_items_cons. cbv beta iota.
  rewrite (insert_or_replace_daily_step _ t) by done.
  set (r0 := {| row_id := last_id t + 1; row_date := today clk; row_category := c0;
                row_amount := spent d0; row_month_budget := Qc_of_Z (target d0);
                row_percentage := percentage d0 |}).
  set (t1 := {| rows := filter (λ r', row_key r' ≠ (today clk, c0)) (rows t) ++ [r0];
                last_id := last_id t + 1 |}).
  set (conn1 := {| daily_spending := Some t1; spending_alerts := spending_alerts conn |}).
  destruct (IH Hnd conn1 t1 eq_refl) as (conn' & t' & Hrun & Ht' & Ha & Hrows & Hid).
  unfold t1 in Hrows, Hid. cbn [rows last_id] in Hrows, Hid.
  exists conn', t'. split; [|split; [|split; [|split]]].
  - cbv beta iota delta [mbind result_bind]. exact Hrun.
  - done.
  - by rewrite Ha.
  - rewrite Hrows, filter_app, filter_not_key_member, fmap_cons, imap_cons.
    rewrite (filter_cons _ r0), decide_True, filter_nil.
    2:{ intros [_ Hin]. by apply Hc0. }
    rewrite <-(assoc (++)). cbn [app fst]. f_equal. f_equal.
    + unfold daily_row_of, r0. cbn. f_equal. lia.
    + apply imap_ext. intros i x _. cbn. f_equal. lia.
  - rewrite Hid, length_cons. lia.
Qed.

Lemma category_in_items (metrics : gmap string metric) (c : string) :
  c ∈ (map_to_list metrics).*1 ↔ is_Some (metrics !! c).
Proof.
  rewrite list_elem_of_fmap. split.
  - intros ([c' d] & -> & Hin). apply elem_of_map_to_list in Hin. by eexists.
  - intros [d Hd]. exists (c, d). split; [done|]. by apply elem_of_map_to_list.
Qed.

(** [save_daily_data] on a store with the daily table: what is stored. *)
Lemma save_daily_data_stores (clk : clock) (db : database) (t : table daily_row)
    (spending_data : gmap string Qc) (metrics : gmap string metric) :
  daily_spending db = Some t →
  ∃ db' t',
    save_daily_data clk (DbFile db) spending_data metrics = Ok (DbFile db') ∧
    daily_spending db' = Some t' ∧
    spending_alerts db' = spending_alerts db ∧
    rows t' =
      filter (λ r, ¬ overwritten (today clk) metrics r) (rows t) ++
      imap (λ i item, daily_row_of (today clk) (last_id t + 1 + Z.of_nat i) item)
        (map_to_list metrics) ∧
    last_id t' = last_id t + Z.of_nat (size metrics).
Proof.
  intros Ht.
  destruct (save_loop_rows clk (map_to_list metrics) (NoDup_fst_map_to_list _) db t Ht)
    as (db' & t' & Hloop & Ht' & Ha & Hrows & Hid).
  exists db', t'. split; [|split; [done|split; [done|split]]].
  - unfold save_daily_data, connect. cbv beta iota delta [mbind result_bind].
    by rewrite Hloop.
  - rewrite Hrows. f_equal. apply list_filter_iff. intros r.
    unfold overwritten. by rewrite category_in_items.
  - by rewrite Hid, length_map_to_list.
Qed.

(** [check_spending_alerts] on a store with the alerts table: what is
    returned and stored. *)
Lemma check_spending_alerts_stores (cfg : config) (clk : clock) (db : database)
    (t : table alert_row) (metrics : gmap string metric) :
  spending_alerts db = Some t →
  ∃ db' t',
    check_spending_alerts cfg clk (DbFile db) metrics =
      Ok (raised_alerts cfg (map_to_list metrics), DbFile db') ∧
    spending_alerts db' = Some t' ∧
    daily_spending db' = daily_spending db ∧
    rows t' = rows t ++
      imap (λ i a, alert_row_of (today clk) (last_id t + 1 + Z.of_nat i) a)
        (raised_alerts cfg (map_to_list metrics)) ∧
    last_id t' = last_id t + Z.of_nat (length (raised_alerts cfg (map_to_list metrics))).
Proof.
  intros Ht.
  destruct (check_loop_rows cfg clk (map_to_list metrics) [] db t Ht)
    as (db' & t' & Hloop & Ht' & Hd & Hrows & Hid).
  exists db', t'. split; [|done].
  unfold check_spending_alerts, connect. cbv beta iota delta [mbind result_bind].
  by rewrite Hloop.
Qed.

(** Every alert that [check_spending_alerts] returns is appended to the
    alert log, in the order of the returned list, dated today and under
    consecutive fresh ids; rows already in the log and the daily table are
    left alone (the log is append-only and nothing is deduplicated). *)
Theorem check_spending_alerts_persists (cfg : config) (clk : clock) (db : database)
    (t : table alert_row) (metrics : gmap string metric) :
  spending_alerts db = Some t →
  ∃ alerts db' t',
    check_spending_alerts cfg clk (DbFile db) metrics = Ok (alerts, DbFile db') ∧
    spending_alerts db' = Some t' ∧
    daily_spending db' = daily_spending db ∧
    rows t' = rows t ++
      imap (λ i a, alert_row_of (today clk) (last_id t + 1 + Z.of_nat i) a) alerts ∧
    length (rows t') = (length (rows t) + length alerts)%nat ∧
    last_id t' = last_id t + Z.of_nat (length alerts).
Proof.
  intros Ht.
  destruct (check_spending_alerts_stores cfg clk db t metrics Ht)
    as (db' & t' & Hrun & Ht' & Hd & Hrows & Hid).
  exists (raised_alerts cfg (map_to_list metrics)), db', t'.
  split; [exact Hrun|]. split; [exact Ht'|]. split; [exact Hd|].
  split; [exact Hrows|]. split; [|exact Hid].
  by rewrite Hrows, length_app, length_imap.
Qed.

Lemma check_spending_alerts_persists_witness :
  ∃ alerts db' t',
    check_spending_alerts default_config sample_clock (DbFile fresh_database)
      sample_metrics = Ok (alerts, DbFile db') ∧
    spending_alerts db' = Some t' ∧
    length (rows t') = length alerts.
Proof.
  destruct (check_spending_alerts_persists default_config sample_clock fresh_database
              empty_table sample_metrics eq_refl)
    as (alerts & db' & t' & Hrun & Ht' & _ & _ & Hlen & _).
  exists alerts, db', t'. exact (conj Hrun (conj Ht' Hlen)).
Defined.

(** [save_daily_data] replaces exactly the rows dated today whose category
    is in [metrics]: every other row is kept, in its place, and one row per
    entry of [metrics] is appended, under consecutive fresh ids in the order
    in which the loop visits the entries; the alert log is not touched. *)
Theorem save_daily_data_rows (clk : clock) (db : database) (t : table daily_row)
    (spending_data : gmap string Qc) (metrics : gmap string metric) :
  daily_spending db = Some t →
  ∃ db' t' items,
    save_daily_data clk (DbFile db) spending_data metrics = Ok (DbFile db') ∧
    daily_spending db' = Some t' ∧
    spending_alerts db' = spending_alerts db ∧
    items ≡ₚ map_to_list metrics ∧
    rows t' =
      filter (λ r, ¬ overwritten (today clk) metrics r) (rows t) ++
      imap (λ i item, daily_row_of (today clk) (last_id t + 1 + Z.of_nat i) item) items ∧
    (∀ r, r ∈ rows t → ¬ overwritten (today clk) metrics r → r ∈ rows t') ∧
    (∀ c data, metrics !! c = Some data →
       ∃ r, rows_with (today clk, c) (rows t') = [r] ∧ row_holds r data) ∧
    (∀ r, r ∈ rows t' → row_date r ≠ today clk → r ∈ rows t).
Proof.
  intros Ht.
  destruct (save_daily_data_stores clk db t spending_data metrics Ht)
    as (db' & t' & Hrun & Ht' & Ha & Hrows & _).
  destruct (save_daily_data_spec clk db t spending_data metrics Ht)
    as (db1 & t1 & Hrun1 & Ht1 & _ & _ & Hhit & _).
  rewrite Hrun in Hrun1. injection Hrun1 as <-.
  rewrite Ht' in Ht1. injection Ht1 as <-.
  exists db', t', (map_to_list metrics).
  split; [exact Hrun|]. split; [exact Ht'|]. split; [exact Ha|].
  split; [done|]. split; [exact Hrows|]. split; [|split; [exact Hhit|]].
  - intros r Hr Hkeep. rewrite Hrows. apply elem_of_app. left.
    by apply list_elem_of_filter.
  - intros r Hr Hdate. rewrite Hrows in Hr. apply elem_of_app in Hr as [Hr|Hr].
    + by apply list_elem_of_filter in Hr as [_ ?].
    + apply elem_of_lookup_imap in Hr as (i & item & -> & _). by destruct Hdate.
Qed.

Lemma save_daily_data_rows_witness :
  ∃ db' t',
    save_daily_data sample_clock (DbFile stored_database) ∅ sample_metrics
      = Ok (DbFile db') ∧
    daily_spending db' = Some t' ∧
    stored_row 1 "2025-04-30" "🥕 Groceries" 700 ∈ rows t' ∧
    stored_row 3 "2025-06-09" "🥕 Groceries" 450 ∈ rows t' ∧
    stored_row 4 "2025-06-09" "🍽️ Dining Out" 120 ∈ rows t' ∧
    stored_row 2 "2025-06-10" "🥕 Groceries" 500 ∉ rows t'.
Proof.
  destruct (save_daily_data_rows sample_clock stored_database
              {| rows := stored_rows; last_id := 4 |} ∅ sample_metrics eq_refl)
    as (db' & t' & items & Hrun & Ht' & _ & _ & _ & Hkeep & Hhit & _).
  exists db', t'. split; [exact Hrun|]. split; [exact Ht'|].
  cbn [rows last_id] in Hkeep.
  split; [|split; [|split]].
  - apply Hkeep; [apply (list_elem_of_lookup_2 _ 0%nat); reflexivity|].
    intros [Hdate _]. cbv in Hdate. discriminate Hdate.
  - apply Hkeep; [apply (list_elem_of_lookup_2 _ 2%nat); reflexivity|].
    intros [Hdate _]. cbv in Hdate. discriminate Hdate.
  - apply Hkeep; [apply (list_elem_of_lookup_2 _ 3%nat); reflexivity|].
    intros [Hdate _]. cbv in Hdate. discriminate Hdate.
  - intros Hin.
    destruct (Hhit "🥕 Groceries"%string (sample_metric 810 900 on_track))
      as (r & Hr & Hamount & _).
    { unfold sample_metrics. apply lookup_insert_eq. }
    assert (stored_row 2 "2025-06-10" "🥕 Groceries" 500
            ∈ rows_with (today sample_clock, "🥕 Groceries"%string) (rows t')) as Hkey.
    { apply list_elem_of_filter. split; [reflexivity|exact Hin]. }
    rewrite Hr in Hkey. apply list_elem_of_singleton in Hkey. subst r.
    cbn [stored_row row_amount sample_metric spent] in Hamount.
    apply Z2Qc_inj in Hamount. discriminate Hamount.
Defined.

(** ** The schema's constraints are kept *)

(** Keeping some rows of a table and appending rows under the next ids
    keeps the ids positive, distinct and bounded by the counter. *)
Lemma ids_ok_extend {Row : Type} (id_of : Row → Z) (t : table Row) (kept new : list Row) :
  ids_ok id_of t → 0 ≤ last_id t →
  kept `sublist_of` rows t →
  (∀ i r, new !! i = Some r → id_of r = last_id t + 1 + Z.of_nat i) →
  ids_ok id_of {| rows := kept ++ new; last_id := last_id t + Z.of_nat (length new) |}.
Proof.
  intros [Hnd Hbound] Hpos Hsub Hnew. unfold ids_ok. cbn [rows last_id].
  assert (∀ r, r ∈ kept → 0 < id_of r ≤ last_id t) as Hkept.
  { intros r Hr. rewrite Forall_forall in Hbound. apply Hbound.
    by eapply elem_of_sublist. }
  split.
  - rewrite fmap_app. apply NoDup_app. split; [|split].
    + apply (sublist_NoDup _ _ Hnd). by apply fmap_sublist.
    + intros x Hx Hx'.
      apply list_elem_of_fmap in Hx as (r & -> & Hr).
      apply list_elem_of_fmap in Hx' as (r' & Heq & Hr').
      apply list_elem_of_lookup in Hr' as [i Hi].
      specialize (Hkept r Hr). specialize (Hnew i r' Hi). lia.
    + apply NoDup_alt. intros i j x Hi Hj.
      rewrite list_lookup_fmap in Hi, Hj.
      destruct (new !! i) as [ri|] eqn:Hri; [|done].
      destruct (new !! j) as [rj|] eqn:Hrj; [|done].
      cbn in Hi, Hj. injection Hi as Hi. injection Hj as Hj.
      specialize (Hnew i ri Hri) as Hni. specialize (Hnew j rj Hrj) as Hnj. lia.
  - apply Forall_app. split.
    + apply Forall_forall. intros r Hr. specialize (Hkept r Hr). lia.
    + apply Forall_lookup. intros i r Hi.
      specialize (Hnew i r Hi). apply lookup_lt_Some in Hi. lia.
Qed.

Lemma save_daily_data_ok (clk : clock) (db : database)
    (spending_data : gmap string Qc) (metrics : gmap string metric) :
  database_ok db →
  ∃ db', save_daily_data clk (DbFile db) spending_data metrics = Ok (DbFile db') ∧
    database_ok db'.
Proof.
  intros (t & a & Ht & Ha & Hkeys & Hpt & Hpa & Hidt & Hida).
  destruct (save_daily_data_stores clk db t spending_data metrics Ht)
    as (db' & t' & Hrun & Ht' & Ha' & Hrows & Hid).
  destruct (save_daily_data_spec clk db t spending_data metrics Ht)
    as (db2 & t2 & Hrun2 & Ht2 & _ & Huniq & _).
  rewrite Hrun in Hrun2. injection Hrun2 as <-.
  rewrite Ht' in Ht2. injection Ht2 as <-.
  exists db'. split; [exact Hrun|].
  exists t', a. split; [exact Ht'|]. split; [by rewrite Ha'|].
  split; [by apply Huniq|]. split; [lia|]. split; [exact Hpa|]. split; [|exact Hida].
  destruct t' as [rows' last']. cbn [rows last_id] in Hrows, Hid. subst rows' last'.
  rewrite <-length_map_to_list.
  rewrite <-(length_imap (λ i item, daily_row_of (today clk) (last_id t + 1 + Z.of_nat i) item)).
  apply ids_ok_extend; [done|done|apply sublist_filter|].
  intros i r Hi. apply list_lookup_imap_Some in Hi as (item & _ & ->). done.
Qed.

Lemma check_spending_alerts_ok (cfg : config) (clk : clock) (db : database)
    (metrics : gmap string metric) :
  database_ok db →
  ∃ db', check_spending_alerts cfg clk (DbFile db) metrics =
           Ok (raised_alerts cfg (map_to_list metrics), DbFile db') ∧
    database_ok db' ∧ daily_spending db' = daily_spending db.
Proof.
  intros (t & a & Ht & Ha & Hkeys & Hpt & Hpa & Hidt & Hida).
  destruct (check_spending_alerts_stores cfg clk db a metrics Ha)
    as (db' & a' & Hrun & Ha' & Hd & Hrows & Hid).
  exists db'. split; [exact Hrun|]. split; [|exact Hd].
  exists t, a'. split; [by rewrite Hd|]. split; [exact Ha'|].
  split; [exact Hkeys|]. split; [exact Hpt|]. split; [lia|]. split; [exact Hidt|].
  destruct a' as [rows' last']. cbn [rows last_id] in Hrows, Hid. subst rows' last'.
  rewrite <-(length_imap (λ i x, alert_row_of (today clk) (last_id a + 1 + Z.of_nat i) x)).
  apply ids_ok_extend; [done|done|done|].
  intros i r Hi. apply list_lookup_imap_Some in Hi as (x & _ & ->). done.
Qed.

(** A database on which [setup_database] has just created both tables
    satisfies the constraints. *)
Lemma fresh_database_ok : database_ok fresh_database.
Proof.
  exists empty_table, empty_table. repeat split; try done; try constructor.
Qed.

(** ** Reading the history *)

(** The order on dates: [String.leb] compares byte by byte, as SQLite's
    default collation does. *)
Lemma string_compare_refl (s : string) : String.compare s s = Eq.
Proof.
  induction s as [|a s IH]; [done|]. cbn.
  unfold Ascii.compare. by rewrite N.compare_refl.
Qed.

Lemma string_compare_lt_trans (s1 s2 s3 : string) :
  String.compare s1 s2 = Lt → String.compare s2 s3 = Lt → String.compare s1 s3 = Lt.
Proof.
  revert s2 s3. induction s1 as [|a1 s1 IH]; intros [|a2 s2] [|a3 s3]; cbn; try done.
  destruct (Ascii.compare a1 a2) eqn:H12; try done;
    destruct (Ascii.compare a2 a3) eqn:H23; try done.
  - apply Ascii.compare_eq_iff in H12 as ->. rewrite H23. apply IH.
  - apply Ascii.compare_eq_iff in H12 as ->. by rewrite H23.
  - apply Ascii.compare_eq_iff in H23 as <-. by rewrite H12.
  - intros _ _. unfold Ascii.compare in *.
    apply N.compare_lt_iff in H12. apply N.compare_lt_iff in H23.
    pose proof (N.lt_trans _ _ _ H12 H23) as H13.
    apply N.compare_lt_iff in H13. by rewrite H13.
Qed.

Lemma string_leb_spec (s1 s2 : string) :
  String.leb s1 s2 = true ↔ String.compare s1 s2 = Lt ∨ s1 = s2.
Proof.
  unfold String.leb. destruct (String.compare s1 s2) eqn:Hc.
  - apply String.compare_eq_iff in Hc. naive_solver.
  - naive_solver.
  - split; [done|]. intros [?| ->]; [done|]. by rewrite string_compare_refl in Hc.
Qed.

Lemma string_leb_trans (s1 s2 s3 : string) :
  String.leb s1 s2 = true → String.leb s2 s3 = true → String.leb s1 s3 = true.
Proof.
  rewrite !string_leb_spec. intros [H12| ->] [H23| ->]; auto.
  left. by eapply string_compare_lt_trans.
Qed.

#[global] Instance date_le_trans : Transitive date_le.
Proof.
  intros r1 r2 r3. unfold date_le. rewrite !Is_true_true. apply string_leb_trans.
Qed.

#[global] Instance date_le_total : Total date_le.
Proof.
  intros r1 r2. unfold date_le. rewrite !Is_true_true. apply String.leb_total.
Qed.

Lemma StronglySorted_filter {A} (R : relation A) (P : A → Prop)
    `{∀ x, Decision (P x)} (l : list A) :
  StronglySorted R l → StronglySorted R (filter P l).
Proof.
  induction 1 as [|x l Hl IH Hx]; [constructor|].
  rewrite filter_cons. case_decide; [|done].
  constructor; [done|]. rewrite Forall_forall in Hx. apply Forall_forall.
  intros y Hy. apply Hx. by apply list_elem_of_filter in Hy as [_ ?].
Qed.

(** Grouping the fetched rows: each category collects the points of its own
    rows, in the order fetched. *)
Lemma fold_append_point_lookup (fetched : list daily_row)
    (data : gmap string (list point)) (c : string) :
  fold_left append_point fetched data !! c =
    match filter (λ r, row_category r = c) fetched with
    | [] => data !! c
    | rs => Some (default [] (data !! c) ++ (point_of_row <$> rs))
    end.
Proof.
  revert data. induction fetched as [|r fetched IH]; intros data; [done|].
  cbn [fold_left]. rewrite IH, filter_cons.
  assert (append_point data r =
          <[row_category r := default [] (data !! row_category r) ++ [point_of_row r]]> data)
    as -> by reflexivity.
  destruct (decide (row_category r = c)) as [<-|Hne].
  - rewrite lookup_insert_eq. cbn [default].
    destruct (filter _ fetched) as [|r' rs]; [done|].
    unfold id. by rewrite <-(assoc (++)).
  - by rewrite lookup_insert_ne.
Qed.

(** [get_historical_data] on a store with the daily table: every category
    holds the points of its rows dated [cutoff] or later, taken from the
    rows sorted by date. *)
Lemma get_historical_data_lookup (clk : clock) (db : database) (t : table daily_row)
    (days : Z) :
  daily_spending db = Some t →
  ∃ history, get_historical_data clk (DbFile db) days = Ok history ∧
    ∀ c, history !! c =
      match filter (λ r, row_category r = c)
              (merge_sort date_le
                 (filter (λ r, String.leb (days_ago clk days) (row_date r)) (rows t))) with
      | [] => None
      | rs => Some (point_of_row <$> rs)
      end.
Proof.
  intros Ht. eexists. split.
  - unfold get_historical_data, connect. cbv beta iota delta [mbind result_bind].
    unfold select_daily_since. rewrite Ht. reflexivity.
  - intros c. rewrite fold_append_point_lookup, lookup_empty. done.
Qed.

(** For every category, [get_historical_data] returns exactly the snapshots
    of that category dated on or after the cut-off, each once, in ascending
    date order; a category without such a snapshot is absent rather than
    mapped to an empty list. *)
Theorem get_historical_data_groups (clk : clock) (db : database) (t : table daily_row)
    (days : Z) :
  daily_spending db = Some t →
  ∃ history, get_historical_data clk (DbFile db) days = Ok history ∧
    ∀ c,
      match history !! c with
      | None => selected_rows (days_ago clk days) c (rows t) = []
      | Some points =>
          points ≠ [] ∧
          points ≡ₚ point_of_row <$> selected_rows (days_ago clk days) c (rows t) ∧
          StronglySorted point_date_le points
      end.
Proof.
  intros Ht.
  destruct (get_historical_data_lookup clk db t days Ht) as (history & Hrun & Hlook).
  exists history. split; [exact Hrun|]. intros c. rewrite Hlook.
  set (inrange := filter (λ r, String.leb (days_ago clk days) (row_date r)) (rows t)).
  assert (filter (λ r, row_category r = c) (merge_sort date_le inrange)
          ≡ₚ selected_rows (days_ago clk days) c (rows t)) as Hperm.
  { rewrite merge_sort_Permutation. unfold inrange, selected_rows.
    by rewrite list_filter_filter. }
  assert (StronglySorted date_le
            (filter (λ r, row_category r = c) (merge_sort date_le inrange))) as Hsorted.
  { apply StronglySorted_filter, StronglySorted_merge_sort; apply _. }
  destruct (filter (λ r, row_category r = c) (merge_sort date_le inrange))
    as [|r rs] eqn:Hsel.
  - by apply Permutation_nil in Hperm.
  - split; [done|]. split.
    + by rewrite Hperm.
    + by apply (StronglySorted_fmap point_of_row date_le).
Qed.

Lemma stored_rows_selected :
  selected_rows "2025-05-11" "🥕 Groceries" stored_rows =
    [stored_row 2 "2025-06-10" "🥕 Groceries" 500;
     stored_row 3 "2025-06-09" "🥕 Groceries" 450] ∧
  selected_rows "2025-05-11" "🐕 Pet Care" stored_rows = [].
Proof. split; vm_compute; reflexivity. Qed.

Lemma get_historical_data_groups_witness :
  ∃ history points,
    get_historical_data sample_clock (DbFile stored_database) 30 = Ok history ∧
    history !! "🥕 Groceries"%string = Some points ∧
    points ≡ₚ point_of_row <$> [stored_row 2 "2025-06-10" "🥕 Groceries" 500;
                                stored_row 3 "2025-06-09" "🥕 Groceries" 450] ∧
    StronglySorted point_date_le points ∧
    history !! "🐕 Pet Care"%string = None.
Proof.
  destruct (get_historical_data_groups sample_clock stored_database
              {| rows := stored_rows; last_id := 4 |} 30 eq_refl)
    as (history & Hrun & Hgroups).
  destruct stored_rows_selected as [Hgroceries Hpets].
  pose proof (Hgroups "🥕 Groceries"%string) as Hg.
  pose proof (Hgroups "🐕 Pet Care"%string) as Hp.
  cbn [rows days_ago sample_clock] in Hg, Hp.
  rewrite Hgroceries in Hg. rewrite Hpets in Hp.
  destruct (history !! "🥕 Groceries"%string) as [points|] eqn:Hlook; [|discriminate Hg].
  destruct Hg as (_ & Hperm & Hsorted).
  exists history, points. split; [exact Hrun|]. split; [exact Hlook|].
  split; [exact Hperm|]. split; [exact Hsorted|].
  destruct (history !! "🐕 Pet Care"%string) as [nothing|] eqn:Hnone; [|reflexivity].
  destruct Hp as (Hne & Hnil & _). apply Permutation_nil_r in Hnil. by destruct Hne.
Defined.

Lemma filter_fmap_comm {A B} (f : A → B) (P : B → Prop) `{∀ y, Decision (P y)}
    (l : list A) :
  filter P (f <$> l) = f <$> filter (λ x, P (f x)) l.
Proof.
  induction l as [|x l IH]; [done|].
  rewrite fmap_cons, !filter_cons. case_decide; [|done]. by rewrite fmap_cons, IH.
Qed.

(** Round trip through the store: what [save_daily_data] has just written
    is what [get_historical_data] reads back.  When the cut-off lies on or
    before today, every category of the saved metrics appears in the
    history with exactly one point dated today, carrying the saved spent
    amount and percentage. *)
Theorem saved_snapshot_is_read (clk : clock) (db : database) (t : table daily_row)
    (spending_data : gmap string Qc) (metrics : gmap string metric) (days : Z) :
  daily_spending db = Some t →
  String.leb (days_ago clk days) (today clk) = true →
  ∃ st1 history,
    save_daily_data clk (DbFile db) spending_data metrics = Ok st1 ∧
    get_historical_data clk st1 days = Ok history ∧
    ∀ c data, metrics !! c = Some data →
      ∃ points, history !! c = Some points ∧
        filter (λ p, point_date p = today clk) points =
          [{| point_date := today clk; point_amount := spent data;
              point_percentage := percentage data |}].
Proof.
  intros Ht Hcut.
  destruct (save_daily_data_spec clk db t spending_data metrics Ht)
    as (db' & t' & Hsave & Ht' & _ & _ & Hhit & _).
  destruct (get_historical_data_lookup clk db' t' days Ht') as (history & Hread & Hlook).
  exists (DbFile db'), history. split; [exact Hsave|]. split; [exact Hread|].
  intros c data Hc. destruct (Hhit c data Hc) as (r & Hr & Hamt & _ & Hpct).
  rewrite Hlook.
  set (inrange := filter (λ r, String.leb (days_ago clk days) (row_date r)) (rows t')).
  set (F := filter (λ r, row_category r = c) (merge_sort date_le inrange)).
  assert (filter (λ r, row_date r = today clk) F ≡ₚ [r]) as Htoday.
  { unfold F. rewrite merge_sort_Permutation. unfold inrange.
    rewrite !list_filter_filter. rewrite <-Hr. unfold rows_with.
    erewrite list_filter_iff; [done|]. intros r'. unfold row_key. split.
    - intros [[Hd Hcat] _]. by rewrite Hd, Hcat.
    - intros [= Hd Hcat]. rewrite Hd. split; [done|].
      by apply Is_true_true. }
  apply Permutation_singleton_r in Htoday.
  assert (r ∈ rows_with (today clk, c) (rows t')) as Hin by (rewrite Hr; left).
  apply list_elem_of_filter in Hin as [Hkey _]. injection Hkey as Hdate Hcat.
  destruct F as [|r0 rs] eqn:HF; [done|].
  eexists. split; [reflexivity|].
  rewrite (filter_fmap_comm point_of_row (λ p, point_date p = today clk)).
  cbn [point_of_row point_date]. rewrite Htoday.
  unfold point_of_row. cbn. by rewrite Hdate, Hamt, Hpct.
Qed.

Lemma saved_snapshot_is_read_witness :
  ∃ st1 history,
    save_daily_data sample_clock (DbFile fresh_database) ∅ sample_metrics = Ok st1 ∧
    get_historical_data sample_clock st1 30 = Ok history.
Proof.
  destruct (saved_snapshot_is_read sample_clock fresh_database empty_table ∅
              sample_metrics 30 eq_refl eq_refl) as (st1 & history & Hsave & Hread & _).
  exists st1, history. exact (conj Hsave Hread).
Defined.

(** ** The whole run *)

(** The steps of [run] on a store that satisfies the constraints: each one
    ends normally and keeps the constraints. *)
Lemma run_steps (cfg : config) (clk : clock) (db : database)
    (transactions : list transaction) :
  database_ok db →
  ∃ metrics db1 history trends db2,
    calculate_metrics cfg (spending_data_of cfg transactions) = Ok metrics ∧
    save_daily_data clk (DbFile db) (spending_data_of cfg transactions) metrics =
      Ok (DbFile db1) ∧
    database_ok db1 ∧
    get_historical_data clk (DbFile db1) 30 = Ok history ∧
    calculate_spending_trends clk history = Ok trends ∧
    check_spending_alerts cfg clk (DbFile db1) metrics =
      Ok (raised_alerts cfg (map_to_list metrics), DbFile db2) ∧
    database_ok db2 ∧
    daily_spending db2 = daily_spending db1 ∧
    run cfg clk (DbFile db) transactions =
      Ok ({| bundle_metrics := metrics; bundle_trends := trends;
             bundle_alerts := raised_alerts cfg (map_to_list metrics) |}, DbFile db2).
Proof.
  intros Hok.
  destruct (calculate_metrics_entries cfg (spending_data_of cfg transactions))
    as (metrics & Hmetrics & _).
  destruct (save_daily_data_ok clk db (spending_data_of cfg transactions) metrics Hok)
    as (db1 & Hsave & Hok1).
  destruct Hok1 as (t1 & a1 & Ht1 & Ha1 & Hrest1).
  destruct (get_historical_data_lookup clk db1 t1 30 Ht1) as (history & Hread & _).
  destruct (calculate_spending_trends_lookup clk history) as (trends & Htrends & _).
  assert (database_ok db1) as Hok1 by (by exists t1, a1).
  destruct (check_spending_alerts_ok cfg clk db1 metrics Hok1) as (db2 & Hcheck & Hok2 & Hd2).
  exists metrics, db1, history, trends, db2.
  split; [exact Hmetrics|]. split; [exact Hsave|]. split; [exact Hok1|].
  split; [exact Hread|]. split; [exact Htrends|]. split; [exact Hcheck|].
  split; [exact Hok2|]. split; [exact Hd2|].
  unfold run. rewrite Hmetrics. cbv beta iota delta [mbind result_bind].
  rewrite Hsave. cbv beta iota. rewrite Hread. cbv beta iota.
  rewrite Htrends. cbv beta iota. by rewrite Hcheck.
Qed.

Lemma metrics_cover_targets (cfg : config) (spending_data : gmap string Qc)
    (metrics : gmap string metric) (c : string) :
  calculate_metrics cfg spending_data = Ok metrics →
  is_Some (metrics !! c) ↔ is_Some (monthly_targets cfg !! c).
Proof.
  intros Hrun.
  destruct (calculate_metrics_entries cfg spending_data) as (metrics' & Hrun' & Hentry).
  rewrite Hrun in Hrun'. injection Hrun' as <-. rewrite Hentry.
  destruct (monthly_targets cfg !! c) as [tgt|].
  - destruct (category_metric_spec spending_data c tgt) as (m & -> & _).
    split; by eauto.
  - split; intros [? ?]; done.
Qed.

(** On a store that satisfies the schema's constraints, the steps of [run]
    up to [check_spending_alerts] end normally: the returned metrics cover
    exactly the configured categories, and the store satisfies the
    constraints again and holds exactly one row for today per configured
    category, carrying the values of the returned metrics. *)
Theorem run_succeeds (cfg : config) (clk : clock) (db : database)
    (transactions : list transaction) :
  database_ok db →
  ∃ bundle db' t',
    run cfg clk (DbFile db) transactions = Ok (bundle, DbFile db') ∧
    database_ok db' ∧
    (∀ c, is_Some (bundle_metrics bundle !! c) ↔ is_Some (monthly_targets cfg !! c)) ∧
    daily_spending db' = Some t' ∧
    ∀ c, is_Some (monthly_targets cfg !! c) →
      ∃ r data, rows_with (today clk, c) (rows t') = [r] ∧
        bundle_metrics bundle !! c = Some data ∧ row_holds r data.
Proof.
  intros Hok.
  destruct (run_steps cfg clk db transactions Hok)
    as (metrics & db1 & history & trends & db2 &
        Hmetrics & Hsave & Hok1 & _ & _ & _ & Hok2 & Hd2 & Hrun).
  destruct Hok as (t & a & Ht & _).
  destruct (save_daily_data_spec clk db t (spending_data_of cfg transactions) metrics Ht)
    as (db1' & t1 & Hsave' & Ht1 & _ & _ & Hhit & _).
  rewrite Hsave in Hsave'. injection Hsave' as <-.
  eexists _, db2, t1. split; [exact Hrun|]. split; [exact Hok2|].
  cbn [bundle_metrics].
  split; [intros c; exact (metrics_cover_targets _ _ _ c Hmetrics)|].
  split; [by rewrite Hd2|].
  intros c Hc. apply (metrics_cover_targets _ _ _ c Hmetrics) in Hc as [data Hdata].
  destruct (Hhit c data Hdata) as (r & Hr & Hholds).
  exists r, data. exact (conj Hr (conj Hdata Hholds)).
Qed.

Lemma run_succeeds_witness :
  ∃ bundle db' t' r data,
    run default_config sample_clock (DbFile fresh_database) outflows_up =
      Ok (bundle, DbFile db') ∧
    database_ok db' ∧
    daily_spending db' = Some t' ∧
    rows_with (today sample_clock, "🥕 Groceries"%string) (rows t') = [r] ∧
    bundle_metrics bundle !! "🥕 Groceries"%string = Some data ∧
    row_holds r data.
Proof.
  destruct (run_succeeds default_config sample_clock fresh_database outflows_up
              fresh_database_ok) as (bundle & db' & t' & Hrun & Hok & _ & Ht' & Hrows).
  destruct (Hrows "🥕 Groceries"%string) as (r & data & Hr & Hdata & Hholds).
  { exists 900. reflexivity. }
  exists bundle, db', t', r, data.
  exact (conj Hrun (conj Hok (conj Ht' (conj Hr (conj Hdata Hholds))))).
Defined.

(** The alert log after a run: the old rows followed by one row per
    returned alert. *)
Lemma run_alert_log (cfg : config) (clk : clock) (db : database) (a0 : table alert_row)
    (transactions : list transaction) (bundle : bundle) (db' : database) :
  database_ok db → spending_alerts db = Some a0 →
  run cfg clk (DbFile db) transactions = Ok (bundle, DbFile db') →
  ∃ a',
    spending_alerts db' = Some a' ∧
    rows a' = rows a0 ++
      imap (λ i a, alert_row_of (today clk) (last_id a0 + 1 + Z.of_nat i) a)
        (bundle_alerts bundle).
Proof.
  intros Hok Ha0 Hrun.
  destruct (run_steps cfg clk db transactions Hok)
    as (metrics & db1 & history & trends & db2 &
        Hmetrics & Hsave & Hok1 & _ & _ & Hcheck & _ & _ & Hrun').
  rewrite Hrun in Hrun'. injection Hrun' as -> ->.
  destruct Hok as (t & a & Ht & Ha & _).
  destruct (save_daily_data_stores clk db t (spending_data_of cfg transactions) metrics Ht)
    as (db1' & t1 & Hsave' & _ & Ha1 & _).
  rewrite Hsave in Hsave'. injection Hsave' as <-.
  rewrite Ha0 in Ha1.
  destruct (check_spending_alerts_stores cfg clk db1 a0 metrics Ha1)
    as (db2' & a' & Hcheck' & Ha' & _ & Hrows & _).
  rewrite Hcheck in Hcheck'. injection Hcheck' as <-.
  exists a'. split; [exact Ha'|]. exact Hrows.
Qed.

(** Running the pipeline twice on the same day with the same transactions:
    both runs end normally with the same metrics and the same alerts; the
    daily table still holds exactly one row for today per configured
    category, while the alert log, which is never deduplicated, has grown by
    the alerts of both runs. *)
Theorem run_twice_same_day (cfg : config) (clk : clock) (db : database)
    (a0 : table alert_row) (transactions : list transaction) :
  database_ok db → spending_alerts db = Some a0 →
  ∃ b1 db1 b2 db2 t2 a2,
    run cfg clk (DbFile db) transactions = Ok (b1, DbFile db1) ∧
    run cfg clk (DbFile db1) transactions = Ok (b2, DbFile db2) ∧
    bundle_metrics b2 = bundle_metrics b1 ∧
    bundle_alerts b2 = bundle_alerts b1 ∧
    daily_spending db2 = Some t2 ∧
    (∀ c, is_Some (monthly_targets cfg !! c) →
       ∃ r, rows_with (today clk, c) (rows t2) = [r]) ∧
    spending_alerts db2 = Some a2 ∧
    length (rows a2) = (length (rows a0) + 2 * length (bundle_alerts b1))%nat.
Proof.
  intros Hok Ha0.
  destruct (run_steps cfg clk db transactions Hok)
    as (m1 & db1' & h1 & tr1 & db1 & Hm1 & _ & _ & _ & _ & _ & Hok1 & _ & Hrun1).
  destruct (run_alert_log cfg clk db a0 transactions _ db1 Hok Ha0 Hrun1)
    as (a1 & Ha1 & Hrows1).
  destruct (run_steps cfg clk db1 transactions Hok1)
    as (m2 & db2' & h2 & tr2 & db2 & Hm2 & Hsave2 & _ & _ & _ & _ & _ & Hd2 & Hrun2).
  destruct (run_alert_log cfg clk db1 a1 transactions _ db2 Hok1 Ha1 Hrun2)
    as (a2 & Ha2 & Hrows2).
  rewrite Hm1 in Hm2. injection Hm2 as <-.
  destruct Hok1 as (t1 & a1' & Ht1 & _).
  destruct (save_daily_data_spec clk db1 t1 (spending_data_of cfg transactions) m1 Ht1)
    as (db2'' & t2 & Hsave2' & Ht2 & _ & _ & Hhit & _).
  rewrite Hsave2 in Hsave2'. injection Hsave2' as <-.
  eexists _, db1, _, db2, t2, a2.
  split; [exact Hrun1|]. split; [exact Hrun2|].
  split; [reflexivity|]. split; [reflexivity|].
  split; [by rewrite Hd2|]. split; [|split; [exact Ha2|]].
  - intros c Hc. apply (metrics_cover_targets _ _ _ c Hm1) in Hc as [data Hdata].
    destruct (Hhit c data Hdata) as (r & Hr & _). by exists r.
  - cbn [bundle_alerts] in *. rewrite Hrows2, Hrows1, !length_app, !length_imap. lia.
Qed.

Lemma run_twice_same_day_witness :
  ∃ b1 db1 b2 db2,
    run default_config sample_clock (DbFile fresh_database) outflows_up =
      Ok (b1, DbFile db1) ∧
    run default_config sample_clock (DbFile db1) outflows_up = Ok (b2, DbFile db2) ∧
    bundle_metrics b2 = bundle_metrics b1.
Proof.
  destruct (run_twice_same_day default_config sample_clock fresh_database empty_table
              outflows_up fresh_database_ok eq_refl)
    as (b1 & db1 & b2 & db2 & t2 & a2 & Hrun1 & Hrun2 & Hm & _).
  exists b1, db1, b2, db2. exact (conj Hrun1 (conj Hrun2 Hm)).
Defined.

(** * Sums of amounts *)

Lemma fold_left_Qcplus (xs : list Qc) (start : Qc) :
  fold_left Qcplus xs start = (start + py_sum xs)%Qc.
Proof.
  unfold py_sum. revert start. induction xs as [|x xs IH]; intros start; cbn [fold_left].
  - by rewrite Qcplus_0_r.
  - rewrite IH, (IH (0 + x)%Qc). ring.
Qed.

Lemma py_sum_cons (x : Qc) (xs : list Qc) : py_sum (x :: xs) = (x + py_sum xs)%Qc.
Proof. unfold py_sum at 1. cbn [fold_left]. rewrite fold_left_Qcplus. ring. Qed.

(** * Slack notification *)

Lemma elem_of_option_list {A} (mx : option A) (x : A) : x ∈ option_list mx ↔ mx = Some x.
Proof.
  destruct mx as [y|]; cbn.
  - rewrite list_elem_of_singleton. naive_solver.
  - split; [by intros ?%elem_of_nil|done].
Qed.

Lemma elem_of_raised_alerts cfg (items : list (string * metric)) (a : alert) :
  a ∈ raised_alerts cfg items ↔
  ∃ c data, (c, data) ∈ items ∧ raised_alert cfg c data = Some a.
Proof.
  unfold raised_alerts. rewrite list_elem_of_bind. split.
  - intros ([c data] & Ha & Hin). exists c, data. split; [done|].
    by apply elem_of_option_list in Ha.
  - intros (c & data & Hin & Ha). exists (c, data). split; [|done].
    by apply elem_of_option_list.
Qed.

(** The severity of the alert an item raises is decided by the 100 percent
    mark alone, whatever the threshold. *)
Lemma raised_alert_danger cfg c (data : metric) :
  (∃ a, raised_alert cfg c data = Some a ∧ alert_severity a = danger) ↔
  (Qc_of_Z 100 ≤ percentage data)%Qc.
Proof.
  destruct alert_labels_distinct as [_ Hsev]. unfold raised_alert.
  destruct (decide (spending_alert_threshold cfg ≤ percentage data ∧
                    percentage data < Qc_of_Z 100)%Qc) as [[_ Hlt]|Hnot].
  - split.
    + intros (a & [= <-] & Hs). cbn in Hs. by destruct Hsev.
    + intros Hge. exfalso. by apply (Qclt_not_le _ _ Hlt).
  - destruct (decide (Qc_of_Z 100 ≤ percentage data)%Qc) as [Hge|Hlt].
    + split; [done|]. intros _. by eexists.
    + split; [|done]. by intros (a & [=] & _).
Qed.

Lemma filter_iff_in {A} (P Q : A → Prop) `{∀ x, Decision (P x)} `{∀ x, Decision (Q x)}
    (l : list A) :
  (∀ x, x ∈ l → (P x ↔ Q x)) → filter P l = filter Q l.
Proof.
  induction l as [|x l IH]; intros Hpq; [done|].
  rewrite !filter_cons.
  rewrite IH by (intros y Hy; apply Hpq; by right).
  destruct (Hpq x) as [Hp Hq]; [by left|].
  destruct (decide (P x)), (decide (Q x)); try done; by exfalso; auto.
Qed.

(** The alerts of severity danger are exactly the over-budget alerts. *)
Lemma raised_alert_severity cfg c (data : metric) (a : alert) :
  raised_alert cfg c data = Some a →
  alert_severity a = danger ↔ alert_type a = over_budget_alert.
Proof.
  destruct alert_labels_distinct as [Hty Hsev]. unfold raised_alert.
  destruct (decide (spending_alert_threshold cfg ≤ percentage data ∧
                    percentage data < Qc_of_Z 100)%Qc) as [_|_].
  - intros [= <-]. cbn [alert_severity alert_type]. split; intros E.
    + by destruct Hsev.
    + by destruct Hty.
  - destruct (decide (Qc_of_Z 100 ≤ percentage data)%Qc) as [_|_]; [|done].
    intros [= <-]. done.
Qed.

(** After [check_spending_alerts], [send_slack_notification] makes a request
    exactly when a webhook is configured and some category stands at 100
    percent or more of its target; the alerts of severity danger are exactly
    the over-budget alerts, and the request lists their messages only, one
    bullet line each in the order of the alert list; a failing request is
    swallowed: the call has no other outcome. *)
Theorem slack_reports_over_budget (cfg : config) (clk : clock) (db : database)
    (t : table alert_row) (metrics : gmap string metric)
    (webhook_url : option string) (post : string → slack_message → bool) :
  spending_alerts db = Some t →
  ∃ alerts st',
    check_spending_alerts cfg clk (DbFile db) metrics = Ok (alerts, st') ∧
    let critical := filter (λ a, alert_severity a = danger) alerts in
    let over := ∃ c data, metrics !! c = Some data ∧ (Qc_of_Z 100 ≤ percentage data)%Qc in
    (critical ≠ [] ↔ over) ∧
    critical = filter (λ a, alert_type a = over_budget_alert) alerts ∧
    match send_slack_notification webhook_url post alerts with
    | SlackSkipped => webhook_url = None ∨ webhook_url = Some ""%string ∨ ¬ over
    | SlackPosted url message | SlackFailed url message =>
        webhook_url = Some url ∧ url ≠ ""%string ∧ over ∧
        slack_block_text message =
          ("*🚨 Budget Alerts*" +:+ newline +:+
           String.concat newline ((λ a, "• " +:+ alert_message a) <$> critical))%string
    end.
Proof.
  intros Ht.
  destruct (check_spending_alerts_stores cfg clk db t metrics Ht)
    as (db' & t' & Hrun & _).
  exists (raised_alerts cfg (map_to_list metrics)), (DbFile db').
  split; [exact Hrun|]. intros critical over.
  assert (∀ a, a ∈ critical ↔
            ∃ c data, metrics !! c = Some data ∧ raised_alert cfg c data = Some a ∧
                      alert_severity a = danger) as Hcrit.
  { intros a. unfold critical. rewrite list_elem_of_filter, elem_of_raised_alerts.
    split.
    - intros (Hs & c & data & Hin & Ha). exists c, data.
      by apply elem_of_map_to_list in Hin.
    - intros (c & data & Hc & Ha & Hs). split; [done|]. exists c, data.
      by apply elem_of_map_to_list in Hc. }
  assert (critical ≠ [] ↔ over) as Hover.
  { split.
    - intros Hne. destruct critical as [|a rest] eqn:Hl; [done|].
      destruct (proj1 (Hcrit a)) as (c & data & Hc & Ha & Hs); [left|].
      exists c, data. split; [done|]. apply (raised_alert_danger cfg c). by exists a.
    - intros (c & data & Hc & Hge) Hnil.
      apply (raised_alert_danger cfg c) in Hge as (a & Ha & Hs).
      assert (a ∈ critical) as Hin by (apply Hcrit; by exists c, data).
      rewrite Hnil in Hin. by apply elem_of_nil in Hin. }
  split; [exact Hover|]. split.
  { unfold critical. apply filter_iff_in. intros a Ha.
    apply elem_of_raised_alerts in Ha as (c & data & _ & Ha).
    by apply (raised_alert_severity cfg c data). }
  unfold send_slack_notification. fold critical.
  destruct webhook_url as [url|]; [|by left].
  destruct (decide (url = ""%string ∨ raised_alerts cfg (map_to_list metrics) = []))
    as [[-> | Hnil]|Hsome].
  - right. by left.
  - right. right. intros Hov. apply Hover in Hov. apply Hov.
    unfold critical. by rewrite Hnil.
  - destruct (decide (critical = [])) as [Hnone|Hcr].
    + right. right. intros Hov. by apply Hover in Hov.
    + assert (url ≠ ""%string) as Hurl by (intros ->; apply Hsome; by left).
      destruct (post url _); (split; [done|]; split; [done|]; split; [by apply Hover|done]).
Qed.

Lemma slack_reports_over_budget_witness :
  ∃ alerts st',
    check_spending_alerts default_config sample_clock (DbFile fresh_database)
      sample_metrics = Ok (alerts, st') ∧
    filter (λ a, alert_severity a = danger) alerts ≠ [].
Proof.
  destruct (slack_reports_over_budget default_config sample_clock fresh_database
              empty_table sample_metrics (Some "https://hooks.example/T"%string)
              (λ _ _, true) eq_refl)
    as (alerts & st' & Hrun & Hover & _).
  exists alerts, st'. split; [exact Hrun|]. apply Hover.
  exists "🍽️ Dining Out"%string, (sample_metric 250 250 close_to_limit).
  split; [reflexivity|]. by vm_compute.
Defined.

(** * Signs and the 100 percent mark *)

Lemma Qc_of_Z_pos (z : Z) : 0 < z → (0 < Qc_of_Z z)%Qc.
Proof. intros Hz. rewrite <-Z2Qc_inj_0. by apply (proj1 (Z2Qc_inj_lt 0 z)). Qed.

Lemma Qc_of_Z_nonneg (z : Z) : 0 ≤ z → (0 ≤ Qc_of_Z z)%Qc.
Proof. intros Hz. rewrite <-Z2Qc_inj_0. by apply (proj1 (Z2Qc_inj_le 0 z)). Qed.

Lemma outflow_units_pos (t : transaction) : amount t < 0 → (0 < outflow_units t)%Qc.
Proof.
  intros Hneg. unfold outflow_units, Qcdiv.
  apply Qcmult_pos_pos.
  - apply Qc_of_Z_pos. lia.
  - apply Qcinv_pos. by apply Qc_of_Z_pos.
Qed.

Lemma py_sum_pos (xs : list Qc) :
  xs ≠ [] → Forall (λ x, 0 < x)%Qc xs → (0 < py_sum xs)%Qc.
Proof.
  intros Hne Hall. destruct xs as [|x xs]; [done|]. clear Hne.
  revert x Hall. induction xs as [|y ys IH]; intros x Hall.
  - apply Forall_cons in Hall as [Hx _]. rewrite py_sum_cons.
    unfold py_sum. cbn. by rewrite Qcplus_0_r.
  - apply Forall_cons in Hall as [Hx Hall]. rewrite py_sum_cons.
    apply Qcplus_pos_pos; [done|]. by apply IH.
Qed.

(** Every amount recorded by the aggregation is strictly positive, so no
    metric computed from transactions has a negative spent amount or a
    negative percentage. *)
Theorem spending_is_positive (cfg : config) (transactions : list transaction) :
  (∀ c v, spending_data_of cfg transactions !! c = Some v → (0 < v)%Qc) ∧
  ∀ metrics,
    calculate_metrics cfg (spending_data_of cfg transactions) = Ok metrics →
    ∀ c m, metrics !! c = Some m → (0 ≤ spent m)%Qc ∧ (0 ≤ percentage m)%Qc.
Proof.
  assert (∀ c v, spending_data_of cfg transactions !! c = Some v → (0 < v)%Qc) as Hpos.
  { intros c v. unfold spending_data_of. rewrite process_transactions_lookup.
    case_decide as Hc; [|done]. destruct Hc as [_ Hne]. intros [= <-].
    unfold running_sum. change (fold_left py_add ?xs py_zero) with (py_sum xs).
    apply py_sum_pos; [done|]. unfold contributions.
    apply Forall_fmap, Forall_forall. intros t Ht.
    apply list_elem_of_filter in Ht as [[Hneg _] _].
    by apply outflow_units_pos. }
  split; [exact Hpos|].
  intros metrics Hrun c m Hm.
  destruct (calculate_metrics_entries cfg (spending_data_of cfg transactions))
    as (metrics' & Hrun' & Hentry).
  rewrite Hrun in Hrun'. injection Hrun' as <-.
  rewrite Hentry in Hm. destruct (monthly_targets cfg !! c) as [tgt|]; [|done].
  destruct (category_metric_spec (spending_data_of cfg transactions) c tgt)
    as (m' & Hm' & Hspent & _ & Hpct & Hzero & _).
  rewrite Hm' in Hm. injection Hm as <-.
  assert (0 ≤ spent m')%Qc as Hs.
  { rewrite Hspent. destruct (spending_data_of cfg transactions !! c) as [v|] eqn:Hv.
    - cbn. apply Qclt_le_weak. by eapply Hpos.
    - done. }
  split; [exact Hs|].
  destruct (decide (0 < tgt)) as [Htgt|Htgt].
  - rewrite Hpct by done. apply Qcmult_nonneg_nonneg.
    + unfold Qcdiv. apply Qcmult_nonneg_nonneg; [done|].
      apply Qclt_le_weak, Qcinv_pos. by apply Qc_of_Z_pos.
    + by apply Qc_of_Z_nonneg.
  - rewrite Hzero by lia. done.
Qed.

Lemma raised_alert_over cfg c (data : metric) :
  (∃ a, raised_alert cfg c data = Some a ∧ alert_type a = over_budget_alert) ↔
  (Qc_of_Z 100 ≤ percentage data)%Qc.
Proof.
  destruct alert_labels_distinct as [Hty _]. unfold raised_alert.
  destruct (decide (spending_alert_threshold cfg ≤ percentage data ∧
                    percentage data < Qc_of_Z 100)%Qc) as [[_ Hlt]|Hnot].
  - split.
    + intros (a & [= <-] & Hs). cbn in Hs. by destruct Hty.
    + intros Hge. exfalso. by apply (Qclt_not_le _ _ Hlt).
  - destruct (decide (Qc_of_Z 100 ≤ percentage data)%Qc) as [Hge|Hlt].
    + split; [done|]. intros _. by eexists.
    + split; [|done]. by intros (a & [=] & _).
Qed.

(** The alert and the status of a category draw the line differently: the
    over-budget alert is raised from exactly 100 percent on, the over-budget
    status only above 100 percent.  So a category has the over-budget alert
    exactly when its status is over budget or its percentage is exactly
    100, and at exactly 100 percent it is alerted as over budget while its
    status reads close to limit. *)
Theorem over_budget_alert_vs_status (cfg : config) (clk : clock) (db : database)
    (t : table alert_row) (spending_data : gmap string Qc) :
  spending_alerts db = Some t →
  ∃ metrics alerts st',
    calculate_metrics cfg spending_data = Ok metrics ∧
    check_spending_alerts cfg clk (DbFile db) metrics = Ok (alerts, st') ∧
    ∀ c m, metrics !! c = Some m →
      ((∃ a, a ∈ alerts ∧ alert_category a = c ∧ alert_type a = over_budget_alert) ↔
         status m = over_budget ∨ percentage m = Qc_of_Z 100) ∧
      (percentage m = Qc_of_Z 100 → status m = close_to_limit).
Proof.
  intros Ht.
  destruct (calculate_metrics_entries cfg spending_data) as (metrics & Hmetrics & Hentry).
  destruct (check_spending_alerts_stores cfg clk db t metrics Ht)
    as (db' & t' & Hrun & _).
  exists metrics, (raised_alerts cfg (map_to_list metrics)), (DbFile db').
  split; [exact Hmetrics|]. split; [exact Hrun|].
  intros c m Hm.
  assert ((status m = over_budget ↔ (Qc_of_Z 100 < percentage m)%Qc) ∧
          (status m = close_to_limit ↔
             (Qc_of_Z 90 < percentage m)%Qc ∧ (percentage m ≤ Qc_of_Z 100)%Qc))
    as [Hover Hclose].
  { rewrite Hentry in Hm. destruct (monthly_targets cfg !! c) as [tgt|]; [|done].
    destruct (category_metric_spec spending_data c tgt)
      as (m' & Hm' & _ & _ & _ & _ & Ho & Hc & _).
    rewrite Hm' in Hm. by injection Hm as <-. }
  split.
  - rewrite Hover. split.
    + intros (a & Hin & Hcat & Hty).
      apply elem_of_raised_alerts in Hin as (c' & m' & Hin & Ha).
      apply elem_of_map_to_list in Hin.
      pose proof (raised_alert_category _ _ _ _ Ha) as Hc'.
      rewrite Hcat in Hc'. subst c'. rewrite Hm in Hin. injection Hin as <-.
      assert (Qc_of_Z 100 ≤ percentage m)%Qc as Hge.
      { apply (raised_alert_over cfg c). by exists a. }
      apply Qcle_lt_or_eq in Hge as [?|?]; [by left|by right].
    + intros Hor.
      assert (Qc_of_Z 100 ≤ percentage m)%Qc as Hge.
      { destruct Hor as [Hlt| ->]; [by apply Qclt_le_weak|done]. }
      apply (raised_alert_over cfg c) in Hge as (a & Ha & Hty).
      exists a. split; [|split; [by eapply raised_alert_category|done]].
      apply elem_of_raised_alerts. exists c, m. split; [|done].
      by apply elem_of_map_to_list.
  - intros Hp. apply Hclose. rewrite Hp. split; [by apply Z2Qc_inj_lt|done].
Qed.

Lemma percentages_at_the_mark :
  (Qc_of_Z 900 / Qc_of_Z 900 * Qc_of_Z 100 = Qc_of_Z 100)%Qc ∧
  (Qc_of_Z 100 < Qc_of_Z 300 / Qc_of_Z 250 * Qc_of_Z 100)%Qc.
Proof. split; [apply Qc_is_canon; reflexivity|reflexivity]. Qed.

Lemma metrics_at_the_mark :
  ∃ metrics m1 m2,
    calculate_metrics default_config spending_at_the_mark = Ok metrics ∧
    metrics !! "🥕 Groceries"%string = Some m1 ∧ percentage m1 = Qc_of_Z 100 ∧
    metrics !! "🍽️ Dining Out"%string = Some m2 ∧ (Qc_of_Z 100 < percentage m2)%Qc.
Proof.
  destruct percentages_at_the_mark as [Hexact Habove].
  destruct (calculate_metrics_entries default_config spending_at_the_mark)
    as (metrics & Hrun & Hentry).
  pose proof (Hentry "🥕 Groceries"%string) as H1.
  pose proof (Hentry "🍽️ Dining Out"%string) as H2.
  change (monthly_targets default_config !! "🥕 Groceries"%string) with (Some 900) in H1.
  change (monthly_targets default_config !! "🍽️ Dining Out"%string) with (Some 250) in H2.
  cbv beta iota in H1, H2.
  destruct (category_metric_spec spending_at_the_mark "🥕 Groceries" 900)
    as (m1 & Hm1 & Hs1 & _ & Hp1 & _).
  destruct (category_metric_spec spending_at_the_mark "🍽️ Dining Out" 250)
    as (m2 & Hm2 & Hs2 & _ & Hp2 & _).
  rewrite Hm1 in H1. rewrite Hm2 in H2.
  change (default 0%Qc (spending_at_the_mark !! "🥕 Groceries"%string))
    with (Qc_of_Z 900) in Hs1.
  change (default 0%Qc (spending_at_the_mark !! "🍽️ Dining Out"%string))
    with (Qc_of_Z 300) in Hs2.
  exists metrics, m1, m2. split; [exact Hrun|]. split; [exact H1|]. split.
  { rewrite Hp1 by lia. rewrite Hs1. exact Hexact. }
  split; [exact H2|]. rewrite Hp2 by lia. rewrite Hs2. exact Habove.
Qed.

Lemma over_budget_alert_vs_status_witness :
  ∃ metrics alerts st' m1 m2,
    calculate_metrics default_config spending_at_the_mark = Ok metrics ∧
    check_spending_alerts default_config sample_clock (DbFile fresh_database) metrics =
      Ok (alerts, st') ∧
    metrics !! "🥕 Groceries"%string = Some m1 ∧
    percentage m1 = Qc_of_Z 100 ∧ status m1 = close_to_limit ∧
    (∃ a, a ∈ alerts ∧ alert_category a = "🥕 Groceries"%string ∧
          alert_type a = over_budget_alert) ∧
    metrics !! "🍽️ Dining Out"%string = Some m2 ∧
    status m2 = over_budget ∧
    (∃ a, a ∈ alerts ∧ alert_category a = "🍽️ Dining Out"%string ∧
          alert_type a = over_budget_alert).
Proof.
  destruct (over_budget_alert_vs_status default_config sample_clock fresh_database
              empty_table spending_at_the_mark eq_refl)
    as (metrics & alerts & st' & Hm & Hrun & Hall).
  destruct metrics_at_the_mark as (metrics' & m1 & m2 & Hm' & H1 & Hp1 & H2 & Hp2).
  rewrite Hm in Hm'. injection Hm' as <-.
  destruct (Hall _ m1 H1) as [Halert1 Hclose1].
  destruct (Hall _ m2 H2) as [Halert2 _].
  assert (status m2 = over_budget) as Hover2.
  { destruct (calculate_metrics_entries default_config spending_at_the_mark)
      as (metrics' & Hm' & Hentry).
    rewrite Hm in Hm'. injection Hm' as <-.
    rewrite Hentry in H2.
    change (monthly_targets default_config !! "🍽️ Dining Out"%string) with (Some 250) in H2.
    cbv beta iota in H2.
    destruct (category_metric_spec spending_at_the_mark "🍽️ Dining Out" 250)
      as (m & Hmm & _ & _ & _ & _ & Hover & _).
    rewrite Hmm in H2. injection H2 as <-. by apply Hover. }
  exists metrics, alerts, st', m1, m2.
  split; [exact Hm|]. split; [exact Hrun|]. split; [exact H1|]. split; [exact Hp1|].
  split; [exact (Hclose1 Hp1)|]. split; [apply Halert1; right; exact Hp1|].
  split; [exact H2|]. split; [exact Hover2|]. apply Halert2. left. exact Hover2.
Defined.

(** * Further properties of the trends *)

(** An entry is a function of the amounts in the window alone. *)
Lemma category_trend_window (clk : clock) (dps dps' : list point) :
  (7 ≤ length dps)%nat → (7 ≤ length dps')%nat →
  point_amount <$> last_n 14 dps = point_amount <$> last_n 14 dps' →
  category_trend clk dps = category_trend clk dps'.
Proof.
  intros Hlen Hlen' Hwin. unfold category_trend.
  destruct (decide (length dps < 7)%nat); [lia|].
  destruct (decide (length dps' < 7)%nat); [lia|].
  by rewrite Hwin.
Qed.

(** The trend of a category is determined by the amounts of its last 14
    snapshots: snapshots older than these, and the dates and percentages
    stored with the snapshots, never influence it. *)
Theorem trend_depends_on_window (clk : clock) (h h' : gmap string (list point))
    (c : string) (dps dps' : list point) :
  h !! c = Some dps → h' !! c = Some dps' →
  (7 ≤ length dps)%nat → (7 ≤ length dps')%nat →
  point_amount <$> last_n 14 dps = point_amount <$> last_n 14 dps' →
  ∃ trends trends' e,
    calculate_spending_trends clk h = Ok trends ∧
    calculate_spending_trends clk h' = Ok trends' ∧
    trends !! c = Some e ∧ trends' !! c = Some e ∧
    (∀ older, (14 ≤ length dps)%nat →
       category_trend clk (older ++ dps) = Ok (Some e)).
Proof.
  intros Hc Hc' Hlen Hlen' Hwin.
  destruct (calculate_spending_trends_lookup clk h) as (trends & Hrun & Hlook).
  destruct (calculate_spending_trends_lookup clk h') as (trends' & Hrun' & Hlook').
  specialize (Hlook c). specialize (Hlook' c). rewrite Hc in Hlook. rewrite Hc' in Hlook'.
  destruct (category_trend_spec clk dps Hlen) as (e & He & _).
  rewrite (category_trend_window clk dps dps') in Hlook by done.
  rewrite <-(category_trend_window clk dps dps'), He in Hlook, Hlook' by done.
  injection Hlook as Hlook. injection Hlook' as Hlook'.
  exists trends, trends', e. split; [exact Hrun|]. split; [exact Hrun'|].
  split; [done|]. split; [done|].
  intros older Hlong. rewrite <-He. apply category_trend_window.
  - rewrite length_app. lia.
  - done.
  - f_equal. unfold last_n. rewrite length_app.
    replace (length older + length dps - 14)%nat
      with (length older + (length dps - 14))%nat by lia.
    by rewrite drop_app_add.
Qed.

Lemma trend_depends_on_window_witness :
  ∃ trends trends' e,
    calculate_spending_trends sample_clock {[ "🥕 Groceries"%string := fortnight_points ]}
      = Ok trends ∧
    calculate_spending_trends sample_clock {[ "🥕 Groceries"%string := redated_points ]}
      = Ok trends' ∧
    trends !! "🥕 Groceries"%string = Some e ∧
    trends' !! "🥕 Groceries"%string = Some e ∧
    category_trend sample_clock (older_point :: fortnight_points) = Ok (Some e).
Proof.
  assert (length fortnight_points = 14%nat) as Hlen by reflexivity.
  assert (length redated_points = 15%nat) as Hlen' by reflexivity.
  destruct (trend_depends_on_window sample_clock
              {[ "🥕 Groceries"%string := fortnight_points ]}
              {[ "🥕 Groceries"%string := redated_points ]}
              "🥕 Groceries" fortnight_points redated_points)
    as (trends & trends' & e & Hrun & Hrun' & He & He' & Hold).
  - apply lookup_singleton_eq.
  - apply lookup_singleton_eq.
  - rewrite Hlen. lia.
  - rewrite Hlen'. lia.
  - reflexivity.
  - exists trends, trends', e. split; [exact Hrun|]. split; [exact Hrun'|].
    split; [exact He|]. split; [exact He'|].
    apply (Hold [older_point]). rewrite Hlen. lia.
Defined.







(** * Cleaning up old files *)

Lemma remove_expired_lookup cutoff exempt fs f p :
  remove_expired cutoff exempt fs f !! p =
    if bool_decide (p = f) && expired cutoff exempt p (fs !! p) then None else fs !! p.
Proof.
  unfold remove_expired. case_bool_decide as Hp.
  - subst f. cbn [andb]. unfold expired.
    destruct (fs !! p) as [[t| |]|] eqn:Hlook; try by rewrite Hlook.
    destruct (exempt p); cbn [negb andb]; [done|].
    case_bool_decide; [apply lookup_delete_eq|done].
  - cbn [andb]. destruct (fs !! f) as [[t| |]|]; try done.
    destruct (exempt f); [done|]. case_bool_decide; [|done].
    apply lookup_delete_ne. congruence.
Qed.

Lemma foldl_remove_expired_lookup cutoff exempt files fs p :
  foldl (remove_expired cutoff exempt) fs files !! p =
    if bool_decide (p ∈ files) && expired cutoff exempt p (fs !! p) then None else fs !! p.
Proof.
  revert fs. induction files as [|f files IH]; intros fs.
  - cbn [foldl]. rewrite bool_decide_eq_false_2; [done|]. apply not_elem_of_nil.
  - cbn [foldl]. rewrite IH, remove_expired_lookup.
    destruct (decide (p = f)) as [-> | Hne].
    + rewrite (bool_decide_eq_true_2 (f = f)) by done.
      rewrite (bool_decide_eq_true_2 (f ∈ f :: files)) by apply list_elem_of_here.
      cbn [andb]. destruct (expired cutoff exempt f (fs !! f)) eqn:Hexp.
      * by rewrite andb_false_r.
      * by rewrite Hexp, andb_false_r.
    + rewrite (bool_decide_eq_false_2 (p = f)) by done. cbn [andb].
      destruct (decide (p ∈ files)) as [Hin|Hnin].
      * rewrite !bool_decide_eq_true_2; [done| |done]. by apply list_elem_of_further.
      * rewrite !bool_decide_eq_false_2; [done| |done].
        intros [?|?]%elem_of_cons; done.
Qed.

Lemma elem_of_glob_star fs directory p :
  p ∈ glob_star fs directory ↔
    fs !! directory = Some Directory ∧ is_Some (fs !! p) ∧ visible_entry directory p = true.
Proof.
  unfold glob_star, isdir. case_bool_decide as Hdir.
  - rewrite list_elem_of_filter, list_elem_of_fmap. split.
    + intros (Hvis & [k n] & -> & Hin). apply elem_of_map_to_list in Hin.
      split; [done|]. split; [by exists n|done].
    + intros (_ & [n Hn] & Hvis). split; [done|]. exists (p, n). split; [done|].
      by apply elem_of_map_to_list.
  - split; [by intros ?%elem_of_nil|]. by intros (? & _).
Qed.

Lemma elem_of_listdir fs directory p :
  p ∈ listdir fs directory ↔ is_Some (fs !! p) ∧ is_Some (entry_name directory p).
Proof.
  unfold listdir. rewrite list_elem_of_filter, list_elem_of_fmap. split.
  - intros (Hvis & [k n] & -> & Hin). apply elem_of_map_to_list in Hin.
    split; [by exists n|done].
  - intros ([n Hn] & Hvis). split; [done|]. exists (p, n). split; [done|].
    by apply elem_of_map_to_list.
Qed.

Lemma list_nil_no_elem {A} (l : list A) : (∀ x, x ∉ l) → l = [].
Proof. destruct l as [|a l]; [done|]. intros Hno. destruct (Hno a). apply list_elem_of_here. Qed.

Lemma strip_prefix_nil (s : string) : strip_prefix "" s = Some s.
Proof. by destruct s. Qed.

Lemma strip_prefix_cons (a b : ascii) (q s : string) :
  strip_prefix (String a q) (String b s) = if Ascii.eqb a b then strip_prefix q s else None.
Proof. done. Qed.

Lemma strip_prefix_Some (q s r : string) : strip_prefix q s = Some r → s = q +:+ r.
Proof.
  revert s. induction q as [|a q IH]; intros s Hs.
  - rewrite strip_prefix_nil in Hs. by injection Hs as ->.
  - destruct s as [|b s]; [done|]. rewrite strip_prefix_cons in Hs.
    destruct (Ascii.eqb_spec a b) as [->|]; [|done].
    change (String b q +:+ r) with (String b (q +:+ r)). by rewrite (IH s Hs).
Qed.

Lemma strip_prefix_app (q r : string) : strip_prefix q (q +:+ r) = Some r.
Proof.
  induction q as [|a q IH]; [apply strip_prefix_nil|].
  change (String a q +:+ r) with (String a (q +:+ r)).
  by rewrite strip_prefix_cons, Ascii.eqb_refl.
Qed.

Lemma strip_prefix_longer (q : string) (a : ascii) (r : string) :
  strip_prefix (q +:+ String a r) q = None.
Proof.
  induction q as [|b q IH]; [done|].
  change (String b q +:+ String a r) with (String b (q +:+ String a r)).
  by rewrite strip_prefix_cons, Ascii.eqb_refl.
Qed.

Lemma entry_name_self (directory : string) : entry_name directory directory = None.
Proof. unfold entry_name. by rewrite strip_prefix_longer. Qed.

Lemma visible_entry_self (directory : string) : visible_entry directory directory = false.
Proof. unfold visible_entry. by rewrite entry_name_self. Qed.

(** The loops remove regular files only. *)
Lemma expired_regular cutoff exempt p n :
  expired cutoff exempt p (Some n) = true ↔
    ∃ t, n = RegularFile t ∧ exempt p = false ∧ t < cutoff.
Proof.
  unfold expired. destruct n as [t| |].
  - rewrite andb_true_iff, negb_true_iff, bool_decide_eq_true. split.
    + intros [? ?]. by exists t.
    + intros (t' & [= <-] & ? & ?). done.
  - split; [done|]. by intros (? & ? & _).
  - split; [done|]. by intros (? & ? & _).
Qed.

Section cleanup_directory.
Variables (cutoff_date test_cutoff_date : Z) (directory : string) (fs fs' : filesystem).
Hypothesis Hrun : cleanup_directory cutoff_date test_cutoff_date directory fs = Cleaned fs'.

Let test_dir := path_join directory "test".
Let fs1 := foldl (remove_expired cutoff_date production_exempt) fs
             (glob_star fs directory).
Let fs2 := foldl (remove_expired test_cutoff_date (λ _, false)) fs1
             (glob_star fs1 test_dir).

Lemma cleanup_fs1_lookup p :
  fs1 !! p = if bool_decide (p ∈ glob_star fs directory) &&
                expired cutoff_date production_exempt p (fs !! p)
             then None else fs !! p.
Proof. apply foldl_remove_expired_lookup. Qed.

Lemma cleanup_fs2_lookup p :
  fs2 !! p = if bool_decide (p ∈ glob_star fs1 test_dir) &&
                expired test_cutoff_date (λ _, false) p (fs1 !! p)
             then None else fs1 !! p.
Proof. apply foldl_remove_expired_lookup. Qed.

Lemma cleanup_fs1_sub p : fs1 !! p = None ∨ fs1 !! p = fs !! p.
Proof. rewrite cleanup_fs1_lookup. destruct (_ && _); [by left|by right]. Qed.

Lemma cleanup_fs2_sub p : fs2 !! p = None ∨ fs2 !! p = fs1 !! p.
Proof. rewrite cleanup_fs2_lookup. destruct (_ && _); [by left|by right]. Qed.

Lemma cleanup_fs1_directory p : fs1 !! p = Some Directory ↔ fs !! p = Some Directory.
Proof.
  rewrite cleanup_fs1_lookup. destruct (fs !! p) as [[t| |]|] eqn:Hp; cbn [expired].
  - destruct (_ && _); split; done.
  - by rewrite andb_false_r.
  - by rewrite andb_false_r.
  - by rewrite andb_false_r.
Qed.

Lemma cleanup_fs2_test_dir : fs2 !! test_dir = fs1 !! test_dir.
Proof.
  rewrite cleanup_fs2_lookup. rewrite bool_decide_eq_false_2; [done|].
  intros (_ & _ & Hvis)%elem_of_glob_star. by rewrite visible_entry_self in Hvis.
Qed.

Lemma cleanup_directory_result :
  fs' = match fs1 !! test_dir with
        | Some Directory =>
            match listdir fs2 test_dir with [] => delete test_dir fs2 | _ => fs2 end
        | _ => fs1
        end ∧
  (fs1 !! test_dir = None ∨ fs1 !! test_dir = Some Directory).
Proof.
  unfold cleanup_directory in Hrun. fold test_dir fs1 in Hrun. fold fs2 in Hrun.
  rewrite cleanup_fs2_test_dir in Hrun.
  destruct (fs1 !! test_dir) as [[t| |]|]; try done.
  - split; [|by right]. destruct (listdir fs2 test_dir); by injection Hrun as <-.
  - split; [|by left]. by injection Hrun as <-.
Qed.

Lemma cleanup_directory_sub p : fs' !! p = None ∨ fs' !! p = fs !! p.
Proof.
  destruct cleanup_directory_result as [Hres _]. rewrite Hres. clear Hres.
  assert (fs2 !! p = None ∨ fs2 !! p = fs !! p) as H2.
  { destruct (cleanup_fs2_sub p) as [-> | ->]; [by left|apply cleanup_fs1_sub]. }
  destruct (fs1 !! test_dir) as [[t| |]|]; try apply cleanup_fs1_sub.
  destruct (listdir fs2 test_dir); [|done].
  destruct (decide (p = test_dir)) as [-> | Hne].
  - left. apply lookup_delete_eq.
  - by rewrite lookup_delete_ne.
Qed.

Lemma cleanup_directory_removed p n :
  fs !! p = Some n →
  fs' !! p = None ↔
    (fs !! directory = Some Directory ∧ visible_entry directory p = true ∧
     expired cutoff_date production_exempt p (Some n) = true) ∨
    (fs !! test_dir = Some Directory ∧ visible_entry test_dir p = true ∧
     expired test_cutoff_date (λ _, false) p (Some n) = true) ∨
    (p = test_dir ∧ n = Directory ∧ listdir fs' test_dir = []).
Proof.
  intros Hp.
  assert (fs1 !! p = None ↔
            fs !! directory = Some Directory ∧ visible_entry directory p = true ∧
            expired cutoff_date production_exempt p (Some n) = true) as H1.
  { rewrite cleanup_fs1_lookup, Hp.
    destruct (expired _ production_exempt p (Some n)) eqn:Hexp.
    - rewrite andb_true_r. case_bool_decide as Hin.
      + apply elem_of_glob_star in Hin as (? & _ & ?). done.
      + split; [done|]. intros (Hd & Hvis & _). destruct Hin.
        apply elem_of_glob_star. rewrite Hp. by eauto.
    - rewrite andb_false_r. split; [done|]. by intros (_ & _ & ?). }
  assert (fs2 !! p = None ↔
            fs1 !! p = None ∨
            (fs !! test_dir = Some Directory ∧ visible_entry test_dir p = true ∧
             expired test_cutoff_date (λ _, false) p (Some n) = true)) as H2.
  { rewrite cleanup_fs2_lookup.
    destruct (cleanup_fs1_sub p) as [Hnone|Hsame].
    { rewrite Hnone. cbn [expired]. rewrite andb_false_r. split; [by left|done]. }
    rewrite Hsame, Hp.
    destruct (expired _ (λ _, false) p (Some n)) eqn:Hexp.
    - rewrite andb_true_r. case_bool_decide as Hin.
      + apply elem_of_glob_star in Hin as (Hd & _ & ?).
        apply cleanup_fs1_directory in Hd. split; [|done]. intros _. by right.
      + split; [done|]. intros [?|(Hd & Hvis & _)]; [done|]. destruct Hin.
        apply elem_of_glob_star. rewrite Hsame, Hp.
        split; [by apply cleanup_fs1_directory|]. by eauto.
    - rewrite andb_false_r. split; [done|]. intros [?|(_ & _ & ?)]; done. }
  assert (∀ q, q ∈ listdir (delete test_dir fs2) test_dir → q ∈ listdir fs2 test_dir) as Hsubl.
  { intros q (Hq & Hn)%elem_of_listdir. apply elem_of_listdir. split; [|done].
    destruct (decide (q = test_dir)) as [-> | Hne].
    - rewrite lookup_delete_eq in Hq. by destruct Hq.
    - by rewrite lookup_delete_ne in Hq. }
  destruct cleanup_directory_result as [Hres Hkind]. rewrite Hres. clear Hres.
  destruct (fs1 !! test_dir) as [[t| |]|] eqn:Htest.
  - destruct Hkind; done.
  - destruct (listdir fs2 test_dir) as [|q qs] eqn:Hlist.
    + destruct (decide (p = test_dir)) as [-> | Hne].
      * rewrite lookup_delete_eq. split; [|done]. intros _. right. right.
        split; [done|]. split.
        { destruct (cleanup_fs1_sub test_dir) as [Hn|Hs]; congruence. }
        apply list_nil_no_elem. intros q Hq%Hsubl. by apply elem_of_nil in Hq.
      * rewrite lookup_delete_ne by done. rewrite H2, H1.
        split; [intros [?|?]; by eauto|]. intros [?|[?|(? & _)]]; by eauto.
    + rewrite H2, H1. split; [intros [?|?]; by eauto|].
      intros [?|[?|(_ & _ & Hnil)]]; [by eauto|by eauto|]. by rewrite Hlist in Hnil.
  - destruct Hkind; done.
  - rewrite H1. split; [by eauto|]. intros [?|[(Hd & _)|(-> & -> & _)]]; [done| |].
    + apply cleanup_fs1_directory in Hd. congruence.
    + destruct (cleanup_fs1_sub test_dir) as [Hn|Hs]; [by apply H1|congruence].
Qed.

Lemma cleanup_directory_untouched p :
  visible_entry directory p = false → visible_entry test_dir p = false → p ≠ test_dir →
  fs' !! p = fs !! p.
Proof.
  intros Hv Hvt Hne. destruct (fs !! p) as [n|] eqn:Hp.
  - destruct (cleanup_directory_sub p) as [Hnone|Hsame]; [|congruence].
    apply (cleanup_directory_removed p n Hp) in Hnone
      as [(_ & Hvis & _)|[(_ & Hvis & _)|(? & _)]]; congruence.
  - destruct (cleanup_directory_sub p) as [Hnone|Hsame]; congruence.
Qed.

End cleanup_directory.

(** Whether [cleanup_directory] ends normally is decided by what
    [directory/test] names once the first loop is over. *)
Lemma cleanup_directory_outcome (cutoff_date test_cutoff_date : Z) (directory : string) (fs : filesystem) :
  let test_dir := path_join directory "test" in
  let removed :=
    bool_decide (test_dir ∈ glob_star fs directory) &&
    expired cutoff_date production_exempt test_dir (fs !! test_dir) in
  match (if removed then None else fs !! test_dir) with
  | None | Some Directory => ∃ fs', cleanup_directory cutoff_date test_cutoff_date directory fs = Cleaned fs'
  | Some _ => cleanup_directory cutoff_date test_cutoff_date directory fs = NotADirectoryError test_dir
  end.
Proof.
  intros test_dir removed. subst test_dir removed.
  unfold cleanup_directory. cbv zeta.
  rewrite cleanup_fs2_test_dir, foldl_remove_expired_lookup.
  destruct (if _ && _ then None else fs !! _) as [[t| |]|]; try done.
  - destruct (listdir _ _); by eexists.
  - by eexists.
Qed.

(** *** Paths *)

Lemma str_in_slash_cons (b : ascii) (s : string) :
  str_in "/" (String b s) = Ascii.eqb "/" b || str_in "/" s.
Proof.
  cbn [str_in strip_prefix]. by destruct (Ascii.eqb "/" b).
Qed.

Lemma str_in_slash_app (q r : string) :
  str_in "/" (q +:+ r) = str_in "/" q || str_in "/" r.
Proof.
  induction q as [|a q IH]; [done|].
  change (String a q +:+ r) with (String a (q +:+ r)).
  rewrite !str_in_slash_cons, IH. by rewrite orb_assoc.
Qed.

Lemma str_in_test_slash (s : string) : str_in "/test/" s = true → str_in "/" s = true.
Proof.
  induction s as [|b s IH]; [done|]. intros Hin. rewrite str_in_slash_cons.
  destruct (Ascii.eqb_spec "/" b) as [<-|Hne]; [done|].
  apply IH. cbn [str_in strip_prefix] in Hin.
  by rewrite (proj2 (Ascii.eqb_neq _ _) Hne) in Hin.
Qed.

Lemma strip_prefix_test_slash (s : string) :
  str_in "/" s = false → strip_prefix "test/" s = None.
Proof.
  intros Hno. destruct (strip_prefix "test/" s) as [r|] eqn:Hs; [|done].
  apply strip_prefix_Some in Hs. subst s.
  by rewrite str_in_slash_app in Hno.
Qed.

Lemma visible_entry_inv (directory p : string) :
  visible_entry directory p = true →
  ∃ name, p = (directory +:+ "/") +:+ name ∧ str_in "/" name = false ∧ hidden name = false.
Proof.
  unfold visible_entry, entry_name. intros Hvis.
  destruct (strip_prefix (directory +:+ "/") p) as [name|] eqn:Hname; [|done].
  destruct (bool_decide (name = "") || str_in "/" name) eqn:Hbad; [done|].
  apply orb_false_iff in Hbad as [_ Hslash]. apply negb_true_iff in Hvis.
  exists name. split; [by apply strip_prefix_Some|done].
Qed.

Lemma entry_name_inv (directory p name : string) :
  entry_name directory p = Some name → p = (directory +:+ "/") +:+ name.
Proof.
  unfold entry_name. intros Hname.
  destruct (strip_prefix (directory +:+ "/") p) as [name'|] eqn:Hstrip; [|done].
  destruct (bool_decide (name' = "") || str_in "/" name'); [done|].
  injection Hname as ->. by apply strip_prefix_Some.
Qed.

(** The guard [not "/test/" in file_path] of the first loop never fires:
    the loop runs over the direct entries of the directory. *)
Lemma production_test_guard (directory p : string) :
  directory = "/app/reports" ∨ directory = "/app/logs" →
  visible_entry directory p = true → str_in "/test/" p = false.
Proof.
  intros Hd (name & -> & Hslash & _)%visible_entry_inv.
  pose proof (strip_prefix_test_slash name Hslash) as Hstrip.
  assert (str_in "/test/" name = false) as Hin.
  { destruct (str_in "/test/" name) eqn:Hin; [|done].
    apply str_in_test_slash in Hin. congruence. }
  destruct Hd as [-> | ->]; cbv [String.append]; cbn; by rewrite Hstrip, Hin.
Qed.

Lemma logs_outside_reports (p : string) :
  p = "/app/logs"%string ∨ p = path_join "/app/logs" "test" →
  visible_entry "/app/reports" p = false ∧
  visible_entry (path_join "/app/reports" "test") p = false ∧
  p ≠ path_join "/app/reports" "test".
Proof. intros [-> | ->]; (split; [reflexivity|split; [reflexivity|discriminate]]). Qed.

Lemma reports_test_outside_logs (q : string) :
  is_Some (entry_name (path_join "/app/reports" "test") q) →
  visible_entry "/app/logs" q = false ∧
  visible_entry (path_join "/app/logs" "test") q = false ∧
  q ≠ path_join "/app/logs" "test".
Proof.
  intros [name ->%entry_name_inv].
  split; [reflexivity|split; [reflexivity|]].
  cbv [String.append path_join]. discriminate.
Qed.

Section cleanup_old_files.
Variables (cutoff_date test_cutoff_date : Z) (fs mid fs' : filesystem).
Hypothesis Hreports : cleanup_directory cutoff_date test_cutoff_date "/app/reports" fs = Cleaned mid.
Hypothesis Hlogs : cleanup_directory cutoff_date test_cutoff_date "/app/logs" mid = Cleaned fs'.

Lemma cleanup_mid_logs (p : string) :
  p = "/app/logs"%string ∨ p = path_join "/app/logs" "test" → mid !! p = fs !! p.
Proof.
  intros (? & ? & ?)%logs_outside_reports.
  by apply (cleanup_directory_untouched cutoff_date test_cutoff_date "/app/reports").
Qed.

Lemma cleanup_reports_test_listdir :
  listdir mid (path_join "/app/reports" "test") = [] ↔
  listdir fs' (path_join "/app/reports" "test") = [].
Proof.
  split; intros Hnil; apply list_nil_no_elem; intros q Hq;
    apply elem_of_listdir in Hq as [Hsome Hentry].
  - assert (q ∈ listdir mid (path_join "/app/reports" "test")) as Hin.
    { apply elem_of_listdir. split; [|done].
      destruct (cleanup_directory_sub cutoff_date test_cutoff_date "/app/logs" mid fs' Hlogs q) as [Hn|Hs].
      - rewrite Hn in Hsome. by destruct Hsome.
      - by rewrite <-Hs. }
    rewrite Hnil in Hin. by apply elem_of_nil in Hin.
  - assert (q ∈ listdir fs' (path_join "/app/reports" "test")) as Hin.
    { apply elem_of_listdir. split; [|done].
      destruct (reports_test_outside_logs q Hentry) as (? & ? & ?).
      by rewrite (cleanup_directory_untouched cutoff_date test_cutoff_date "/app/logs" mid fs' Hlogs q). }
    rewrite Hnil in Hin. by apply elem_of_nil in Hin.
Qed.

Lemma cleanup_old_files_sub (p : string) : fs' !! p = None ∨ fs' !! p = fs !! p.
Proof.
  destruct (cleanup_directory_sub cutoff_date test_cutoff_date "/app/logs" mid fs' Hlogs p) as [?|Hs]; [by left|].
  rewrite Hs. apply (cleanup_directory_sub cutoff_date test_cutoff_date "/app/reports" fs mid Hreports).
Qed.

Lemma cleanup_old_files_removed (p : string) (n : node) :
  fs !! p = Some n →
  fs' !! p = None ↔
    removed_by cutoff_date test_cutoff_date fs fs' "/app/reports" p n ∨ removed_by cutoff_date test_cutoff_date fs fs' "/app/logs" p n.
Proof.
  intros Hp.
  pose proof (cleanup_directory_removed cutoff_date test_cutoff_date "/app/reports" fs mid Hreports p n Hp) as HA.
  assert (mid !! p = None ↔ removed_by cutoff_date test_cutoff_date fs fs' "/app/reports" p n) as HA'.
  { rewrite HA. unfold removed_by. cbv zeta. by rewrite cleanup_reports_test_listdir. }
  assert (mid !! p = Some n →
          (fs' !! p = None ↔ removed_by cutoff_date test_cutoff_date fs fs' "/app/logs" p n)) as HB.
  { intros Hmid.
    rewrite (cleanup_directory_removed cutoff_date test_cutoff_date "/app/logs" mid fs' Hlogs p n Hmid).
    unfold removed_by. cbv zeta.
    rewrite (cleanup_mid_logs "/app/logs" (or_introl eq_refl)).
    rewrite (cleanup_mid_logs (path_join "/app/logs" "test") (or_intror eq_refl)).
    reflexivity. }
  destruct (cleanup_directory_sub cutoff_date test_cutoff_date "/app/reports" fs mid Hreports p) as [Hnone|Hsame].
  - split; [intros _; left; by apply HA'|]. intros _.
    destruct (cleanup_directory_sub cutoff_date test_cutoff_date "/app/logs" mid fs' Hlogs p) as [?|Hs]; congruence.
  - rewrite Hp in Hsame. rewrite (HB Hsame). split; [by right|].
    intros [Hrep|?]; [|done]. apply HA' in Hrep. congruence.
Qed.

End cleanup_old_files.

Lemma cleanup_old_files_inv (now now' : Z) (fs fs' : filesystem) :
  cleanup_old_files now now' fs = Cleaned fs' →
  ∃ mid,
    cleanup_directory (now - timedelta_days 90) (now' - timedelta_days 7)
      "/app/reports" fs = Cleaned mid ∧
    cleanup_directory (now - timedelta_days 90) (now' - timedelta_days 7)
      "/app/logs" mid = Cleaned fs'.
Proof.
  unfold cleanup_old_files. cbv zeta. intros Hrun.
  destruct (cleanup_directory _ _ "/app/reports" fs) as [mid| |]; [|done|done].
  by exists mid.
Qed.

(** [cleanup_old_files] only removes.  A regular file is removed exactly
    when it is a visible direct entry of [/app/reports] or [/app/logs] whose
    path does not end in [latest_budget_data.json] and that is older than 90
    days, or a visible direct entry of one of their [test] sub-directories
    older than 7 days; a directory is removed exactly when it is one of the
    two [test] directories and ends up empty; nothing else is removed. *)
Theorem cleanup_old_files_spec (now now' : Z) (fs fs' : filesystem) :
  cleanup_old_files now now' fs = Cleaned fs' →
  (∀ p n, fs' !! p = Some n → fs !! p = Some n) ∧
  (∀ p t, fs !! p = Some (RegularFile t) →
     (fs' !! p = None ↔
        ∃ d, (d = "/app/reports"%string ∨ d = "/app/logs"%string) ∧
          ((fs !! d = Some Directory ∧ visible_entry d p = true ∧
            endswith p "latest_budget_data.json" = false ∧
            t < now - timedelta_days 90) ∨
           (fs !! path_join d "test" = Some Directory ∧
            visible_entry (path_join d "test") p = true ∧
            t < now' - timedelta_days 7)))) ∧
  (∀ p, fs !! p = Some Directory →
     (fs' !! p = None ↔
        ∃ d, (d = "/app/reports"%string ∨ d = "/app/logs"%string) ∧
          p = path_join d "test" ∧ listdir fs' p = [])) ∧
  (∀ p, fs !! p = Some Special → fs' !! p = Some Special).
Proof.
  intros (mid & Hreports & Hlogs)%cleanup_old_files_inv.
  pose proof (cleanup_old_files_sub _ _ fs mid fs' Hreports Hlogs) as Hsub.
  pose proof (cleanup_old_files_removed _ _ fs mid fs' Hreports Hlogs) as Hrem.
  set (cutoff_date := now - timedelta_days 90) in *.
  set (test_cutoff_date := now' - timedelta_days 7) in *.
  assert (∀ d p t, d = "/app/reports"%string ∨ d = "/app/logs"%string →
            (removed_by cutoff_date test_cutoff_date fs fs' d p (RegularFile t) ↔
               (fs !! d = Some Directory ∧ visible_entry d p = true ∧
                endswith p "latest_budget_data.json" = false ∧ t < cutoff_date) ∨
               (fs !! path_join d "test" = Some Directory ∧
                visible_entry (path_join d "test") p = true ∧
                t < test_cutoff_date))) as Hfile.
  { intros d p t Hd. unfold removed_by. cbv zeta. rewrite !expired_regular. split.
    - intros [(Hdir & Hvis & t' & [= <-] & Hex & Hold)|[(Hdir & Hvis & t' & [= <-] & _ & Hold)|
              (_ & ? & _)]]; [|by right|done].
      left. unfold production_exempt in Hex. apply orb_false_iff in Hex as [? _]. done.
    - intros [(Hdir & Hvis & Hlatest & Hold)|(Hdir & Hvis & Hold)].
      + left. split; [done|]. split; [done|]. exists t. split; [done|]. split; [|done].
        unfold production_exempt. by rewrite Hlatest, (production_test_guard d p Hd Hvis).
      + right. left. split; [done|]. split; [done|]. by exists t. }
  assert (∀ d p, removed_by cutoff_date test_cutoff_date fs fs' d p Directory ↔
                   p = path_join d "test" ∧ listdir fs' p = []) as Hdir.
  { intros d p. unfold removed_by. cbv zeta. cbn [expired]. split.
    - intros [(_ & _ & ?)|[(_ & _ & ?)|(-> & _ & ?)]]; done.
    - intros (-> & ?). by right; right. }
  split; [|split; [|split]].
  - intros p n Hp. destruct (Hsub p) as [Hn|Hs]; congruence.
  - intros p t Hp. rewrite (Hrem p _ Hp). split.
    + intros [Hr|Hr]; [exists "/app/reports"%string|exists "/app/logs"%string].
      * split; [by left|]. apply Hfile; [by left|done].
      * split; [by right|]. apply Hfile; [by right|done].
    + intros (d & [-> | ->] & Hd); [left|right]; apply Hfile; by eauto.
  - intros p Hp. rewrite (Hrem p _ Hp). split.
    + intros [Hr|Hr]; [exists "/app/reports"%string|exists "/app/logs"%string].
      * split; [by left|]. by apply Hdir.
      * split; [by right|]. by apply Hdir.
    + intros (d & [-> | ->] & Hd); [left|right]; by apply Hdir.
  - intros p Hp. destruct (Hsub p) as [Hn|Hs]; [|congruence].
    apply (Hrem p _ Hp) in Hn. unfold removed_by in Hn. cbv zeta in Hn. cbn [expired] in Hn.
    destruct Hn as [[(_ & _ & ?)|[(_ & _ & ?)|(_ & ? & _)]]|[(_ & _ & ?)|[(_ & _ & ?)|(_ & ? & _)]]];
      done.
Qed.

Lemma test_path_after_first_loop (cutoff_date : Z) (fs : filesystem) (directory : string) :
  directory = "/app/reports"%string ∨ directory = "/app/logs"%string →
  let test_dir := path_join directory "test" in
  let removed :=
    bool_decide (test_dir ∈ glob_star fs directory) &&
    expired cutoff_date production_exempt test_dir (fs !! test_dir) in
  match (if removed then None else fs !! test_dir) with
  | None | Some Directory => test_path_blocks cutoff_date fs directory = false
  | Some _ => test_path_blocks cutoff_date fs directory = true
  end.
Proof.
  intros Hd test_dir removed. subst removed. unfold test_path_blocks. fold test_dir.
  destruct (fs !! test_dir) as [[t| |]|] eqn:Htest; cbn [expired];
    rewrite ?andb_false_r; try done.
  assert (production_exempt test_dir = false) as ->.
  { subst test_dir. by destruct Hd as [-> | ->]. }
  assert (bool_decide (test_dir ∈ glob_star fs directory) = isdir fs directory) as ->.
  { unfold isdir. apply bool_decide_ext. rewrite elem_of_glob_star, Htest.
    assert (visible_entry directory test_dir = true) as ->.
    { subst test_dir. by destruct Hd as [-> | ->]. }
    split; [by intros (? & _)|]. intros ?. split; [done|]. split; [by eexists|done]. }
  cbn [negb andb]. by destruct (isdir fs directory && bool_decide (t < cutoff_date)).
Qed.

(** [cleanup_old_files] fails exactly when [test] under [/app/reports] or
    [/app/logs] is neither a directory nor a regular file that the 90-day
    rule removes; the exception is the [NotADirectoryError] of
    [os.listdir], for the first of the two directories where this
    happens. *)
Theorem cleanup_old_files_outcome (now now' : Z) (fs : filesystem) :
  let cutoff_date := now - timedelta_days 90 in
  match cleanup_old_files now now' fs with
  | Cleaned _ =>
      test_path_blocks cutoff_date fs "/app/reports" = false ∧
      test_path_blocks cutoff_date fs "/app/logs" = false
  | NotADirectoryError path =>
      (test_path_blocks cutoff_date fs "/app/reports" = true ∧
       path = path_join "/app/reports" "test") ∨
      (test_path_blocks cutoff_date fs "/app/reports" = false ∧
       test_path_blocks cutoff_date fs "/app/logs" = true ∧
       path = path_join "/app/logs" "test")
  | FileNotFoundError _ => False
  end.
Proof.
  intros cutoff_date. unfold cleanup_old_files. cbv zeta. fold cutoff_date.
  set (test_cutoff_date := now' - timedelta_days 7).
  pose proof (cleanup_directory_outcome cutoff_date test_cutoff_date "/app/reports" fs) as Hout.
  pose proof (test_path_after_first_loop cutoff_date fs "/app/reports" (or_introl eq_refl))
    as Hblocks.
  cbv zeta in Hout, Hblocks.
  assert (test_path_blocks cutoff_date fs "/app/reports" = false →
          ∃ mid, cleanup_directory cutoff_date test_cutoff_date "/app/reports" fs
                 = Cleaned mid) as Hok.
  { intros Hfree. rewrite Hfree in Hblocks.
    destruct (if _ && _ then None else fs !! _) as [[t| |]|]; done. }
  destruct (test_path_blocks cutoff_date fs "/app/reports") eqn:Hfirst.
  { destruct (if _ && _ then None else fs !! _) as [[t| |]|]; try done;
      rewrite Hout; by left. }
  destruct (Hok eq_refl) as [mid Hreports]. rewrite Hreports. clear Hout Hblocks Hok.
  assert (test_path_blocks cutoff_date mid "/app/logs"
          = test_path_blocks cutoff_date fs "/app/logs") as Hsame.
  { unfold test_path_blocks, isdir.
    rewrite (cleanup_mid_logs _ _ fs mid Hreports "/app/logs" (or_introl eq_refl)).
    by rewrite (cleanup_mid_logs _ _ fs mid Hreports (path_join "/app/logs" "test")
                  (or_intror eq_refl)). }
  pose proof (cleanup_directory_outcome cutoff_date test_cutoff_date "/app/logs" mid) as Hout.
  pose proof (test_path_after_first_loop cutoff_date mid "/app/logs" (or_intror eq_refl))
    as Hblocks.
  cbv zeta in Hout, Hblocks. rewrite Hsame in Hblocks.
  destruct (if _ && _ then None else mid !! _) as [[t| |]|].
  - rewrite Hout. by right.
  - destruct Hout as [fs' ->]. done.
  - rewrite Hout. by right.
  - destruct Hout as [fs' ->]. done.
Qed.

Lemma sample_files_cleanup :
  cleanup_old_files sample_now sample_now sample_files = Cleaned sample_files_cleaned.
Proof. vm_compute. reflexivity. Qed.

Lemma cleanup_old_files_spec_witness :
  cleanup_old_files sample_now sample_now sample_files = Cleaned sample_files_cleaned ∧
  (∀ p n, sample_files_cleaned !! p = Some n → sample_files !! p = Some n).
Proof.
  split; [exact sample_files_cleanup|].
  exact (proj1 (cleanup_old_files_spec sample_now sample_now sample_files
                  sample_files_cleaned sample_files_cleanup)).
Defined.

(** * The history endpoint *)

#[global] Instance key_le_trans : Transitive key_le.
Proof.
  intros [d1 c1] [d2 c2] [d3 c3]. unfold key_le. cbn [fst snd].
  destruct (String.compare d1 d2) eqn:H12; [| |done];
    destruct (String.compare d2 d3) eqn:H23; try done.
  - apply String.compare_eq_iff in H12 as ->. rewrite H23.
    rewrite !Is_true_true. apply string_leb_trans.
  - apply String.compare_eq_iff in H12 as ->. by rewrite H23.
  - apply String.compare_eq_iff in H23 as <-. by rewrite H12.
  - by rewrite (string_compare_lt_trans _ _ _ H12 H23).
Qed.

#[global] Instance key_le_total : Total key_le.
Proof.
  intros [d1 c1] [d2 c2]. unfold key_le. cbn [fst snd].
  rewrite (String.compare_antisym d1 d2).
  destruct (String.compare d2 d1) eqn:H21; cbn [CompOpp]; [|by right|by left].
  rewrite !Is_true_true. apply String.leb_total.
Qed.

#[global] Instance history_order_trans : Transitive history_order.
Proof. intros r1 r2 r3. unfold history_order. apply key_le_trans. Qed.

#[global] Instance history_order_total : Total history_order.
Proof. intros r1 r2. unfold history_order. apply key_le_total. Qed.

Lemma item_key_of_row (r : daily_row) : item_key (item_of_row r) = row_key r.
Proof. done. Qed.

Lemma cutoff_date_of_spec (clk : api_clock) (days : Z) :
  cutoff_date_of clk days =
    if decide (1 ≤ now_ordinal clk - days ≤ 3652059 ∧ Z.abs days ≤ 999999999)
    then Ok (strftime_ymd clk (now_ordinal clk - days)) else Raise OverflowError.
Proof.
  unfold cutoff_date_of, timedelta, datetime_sub.
  destruct (decide (Z.abs days ≤ 999999999)) as [Hd|Hd];
    cbv beta iota delta [mbind result_bind].
  - destruct (decide (1 ≤ now_ordinal clk - days ≤ 3652059)) as [Hr|Hr].
    + by rewrite decide_True.
    + rewrite decide_False; [done|]. by intros [? _].
  - rewrite decide_False; [done|]. by intros [_ ?].
Qed.

(** The outcomes of the history endpoint.  Without a database file the
    answer is 404.  With one, the cut-off is computed first, outside the
    [try]: when the requested number of days is beyond 999999999 in either
    direction, or leads to a day outside the years 1 to 9999, the function
    raises [OverflowError] and sends nothing itself.  Otherwise a file that
    cannot be read as a database, or that has no [daily_spending] table,
    is answered with 500, and any other with 200 and the stored rows dated
    on or after the cut-off, each once, in ascending order of date and then
    category, [count] being their number. *)
Theorem serve_historical_data_spec (path_exists : bool) (clk : api_clock) (st : storage)
    (days : Z) :
  let computable := 1 ≤ now_ordinal clk - days ≤ 3652059 ∧ Z.abs days ≤ 999999999 in
  let cutoff := strftime_ymd clk (now_ordinal clk - days) in
  match serve_historical_data path_exists clk st days with
  | Raise e => path_exists = true ∧ ¬ computable ∧ e = OverflowError
  | Ok (Error404 _) => path_exists = false
  | Ok (Error500 _) =>
      path_exists = true ∧ computable ∧
      (st = Unopenable ∨ ∃ db, connect st = Ok db ∧ daily_spending db = None)
  | Ok (Json200 response) =>
      path_exists = true ∧ computable ∧
      ∃ db t fetched,
        connect st = Ok db ∧ daily_spending db = Some t ∧
        response_days response = days ∧
        response_start_date response = cutoff ∧
        response_data response = item_of_row <$> fetched ∧
        response_count response = length (response_data response) ∧
        fetched ≡ₚ filter (λ r, String.leb cutoff (row_date r)) (rows t) ∧
        StronglySorted key_le (item_key <$> response_data response) ∧
        (NoDup (row_key <$> rows t) → NoDup (item_key <$> response_data response))
  end.
Proof.
  intros computable cutoff.
  unfold serve_historical_data. destruct path_exists; cbn [negb]; [|done].
  rewrite cutoff_date_of_spec. fold computable cutoff.
  destruct (decide computable) as [Hc|Hc];
    cbv beta iota delta [mbind result_bind]; [|done].
  destruct st as [| |db]; cbn [connect];
    cbv beta iota delta [mbind result_bind]; unfold select_history.
  - split; [done|]. split; [done|]. by left.
  - cbn [daily_spending]. split; [done|]. split; [done|]. right. by eexists.
  - destruct (daily_spending db) as [t|] eqn:Ht.
    + split; [done|]. split; [done|].
      set (inrange := filter (λ r, String.leb cutoff (row_date r)) (rows t)).
      exists db, t, (merge_sort history_order inrange).
      cbn [response_days response_start_date response_data response_count].
      split; [done|]. split; [done|]. split; [done|]. split; [done|]. split; [done|].
      split; [done|]. split; [apply merge_sort_Permutation|]. split.
      * rewrite <-list_fmap_compose.
        apply (StronglySorted_fmap _ history_order); [by intros x y|].
        apply StronglySorted_merge_sort; apply _.
      * intros Hnd. rewrite <-list_fmap_compose.
        change (item_key ∘ item_of_row) with row_key.
        rewrite merge_sort_Permutation. unfold inrange.
        apply (sublist_NoDup _ _ Hnd). apply fmap_sublist, sublist_filter.
    + split; [done|]. split; [done|]. right. by exists db.
Qed.

(** A request for a thousand million days, or for more days than have
    passed since the year 1, is not answered by the function. *)
Example serve_historical_data_overflow :
  serve_historical_data true sample_api_clock (DbFile fresh_database) 1000000000 =
    Raise OverflowError ∧
  serve_historical_data true sample_api_clock (DbFile fresh_database) 739412 =
    Raise OverflowError ∧
  serve_historical_data false sample_api_clock NoFile 1000000000 =
    Ok (Error404 "No historical data available").
Proof. split; [|split]; reflexivity. Qed.

(** From the automation to the API: after a run on a store that satisfies
    the schema's constraints, a request whose cut-off can be computed is
    answered with 200, [count] is the number of items and no
    [(date, category)] key occurs twice in the data.  When the cut-off lies
    on or before the day of the run, every configured category moreover has
    exactly one item for that day, carrying the spent amount, percentage
    and target of the metrics that the run returned. *)
Theorem history_endpoint_after_run (cfg : config) (clk : clock) (api_clk : api_clock)
    (db : database) (transactions : list transaction) (days : Z) (cutoff : string) :
  database_ok db →
  cutoff_date_of api_clk days = Ok cutoff →
  ∃ bundle db' response,
    run cfg clk (DbFile db) transactions = Ok (bundle, DbFile db') ∧
    serve_historical_data true api_clk (DbFile db') days = Ok (Json200 response) ∧
    response_start_date response = cutoff ∧
    response_count response = length (response_data response) ∧
    NoDup (item_key <$> response_data response) ∧
    (String.leb cutoff (today clk) = true →
     ∀ c, is_Some (monthly_targets cfg !! c) →
       ∃ data, bundle_metrics bundle !! c = Some data ∧
         filter (λ i, item_key i = (today clk, c)) (response_data response) =
           [item_of_metric (today clk) c data]).
Proof.
  intros Hok Hcutoff.
  destruct (run_steps cfg clk db transactions Hok)
    as (metrics & db1 & history & trends & db2 &
        Hmetrics & Hsave & Hok1 & _ & _ & _ & Hok2 & Hd2 & Hrun).
  destruct Hok as (t & a & Ht & _).
  destruct (save_daily_data_spec clk db t (spending_data_of cfg transactions) metrics Ht)
    as (db1' & t1 & Hsave' & Ht1 & _ & _ & Hhit & _).
  rewrite Hsave in Hsave'. injection Hsave' as <-.
  destruct Hok2 as (t2 & a2 & Ht2 & _ & Hkeys & _).
  rewrite Hd2, Ht1 in Ht2. injection Ht2 as <-.
  set (inrange := filter (λ r, String.leb cutoff (row_date r)) (rows t1)).
  eexists _, db2, _. split; [exact Hrun|]. split.
  { unfold serve_historical_data. cbn [negb connect]. rewrite Hcutoff.
    cbv beta iota zeta delta [mbind result_bind]. unfold select_history.
    rewrite Hd2, Ht1. reflexivity. }
  cbn [response_data response_count response_start_date bundle_metrics]. fold inrange.
  split; [done|]. split; [done|]. split.
  { rewrite <-list_fmap_compose. change (item_key ∘ item_of_row) with row_key.
    rewrite merge_sort_Permutation. unfold inrange.
    apply (sublist_NoDup _ _ Hkeys). apply fmap_sublist, sublist_filter. }
  intros Hcut c Hc.
  apply (metrics_cover_targets _ _ _ c Hmetrics) in Hc as [data Hdata].
  destruct (Hhit c data Hdata) as (r & Hr & Hamt & Hbudget & Hpct).
  exists data. split; [exact Hdata|].
  rewrite (filter_fmap_comm item_of_row (λ i, item_key i = (today clk, c))).
  assert (filter (λ r, item_key (item_of_row r) = (today clk, c))
            (merge_sort history_order inrange) ≡ₚ [r]) as Htoday.
  { rewrite merge_sort_Permutation. unfold inrange.
    rewrite list_filter_filter. rewrite <-Hr. unfold rows_with.
    erewrite list_filter_iff; [done|]. intros r'. rewrite item_key_of_row. split.
    - by intros [? _].
    - intros Hkey. split; [done|]. injection Hkey as Hd _. rewrite Hd.
      by apply Is_true_true. }
  apply Permutation_singleton_r in Htoday. rewrite Htoday.
  assert (r ∈ rows_with (today clk, c) (rows t1)) as Hin by (rewrite Hr; left).
  apply list_elem_of_filter in Hin as [Hkey _]. injection Hkey as Hdate Hcat.
  unfold item_of_row, item_of_metric. cbn [fmap list_fmap].
  by rewrite Hdate, Hcat, Hamt, Hbudget, Hpct.
Qed.

Lemma history_endpoint_after_run_witness :
  ∃ bundle db' response data,
    run default_config sample_clock (DbFile fresh_database) outflows_up =
      Ok (bundle, DbFile db') ∧
    serve_historical_data true sample_api_clock (DbFile db') 30 = Ok (Json200 response) ∧
    response_start_date response = "2025-05-11"%string ∧
    response_count response = length (response_data response) ∧
    bundle_metrics bundle !! "🥕 Groceries"%string = Some data ∧
    filter (λ i, item_key i = ("2025-06-10", "🥕 Groceries")%string) (response_data response) =
      [item_of_metric "2025-06-10" "🥕 Groceries" data].
Proof.
  destruct (history_endpoint_after_run default_config sample_clock sample_api_clock
              fresh_database outflows_up 30 "2025-05-11" fresh_database_ok eq_refl)
    as (bundle & db' & response & Hrun & Hserve & Hstart & Hcount & _ & Htoday).
  destruct (Htoday eq_refl "🥕 Groceries"%string (mk_is_Some _ _ eq_refl))
    as (data & Hdata & Hitem).
  exists bundle, db', response, data.
  exact (conj Hrun (conj Hserve (conj Hstart (conj Hcount (conj Hdata Hitem))))).
Defined.

(** * Removing the test data *)

Lemma remove_file_lookup (fs : filesystem) (f p : string) :
  remove_file fs f !! p =
    if bool_decide (p = f) && match fs !! p with Some (RegularFile _) => true | _ => false end
    then None else fs !! p.
Proof.
  unfold remove_file. case_bool_decide as Hp.
  - subst f. cbn [andb]. destruct (fs !! p) as [[t| |]|] eqn:Hlook; try by rewrite Hlook.
    apply lookup_delete_eq.
  - cbn [andb]. destruct (fs !! f) as [[t| |]|]; try done.
    apply lookup_delete_ne. congruence.
Qed.

Lemma foldl_remove_file_lookup (files : list string) (fs : filesystem) (p : string) :
  foldl remove_file fs files !! p =
    if bool_decide (p ∈ files) && match fs !! p with Some (RegularFile _) => true | _ => false end
    then None else fs !! p.
Proof.
  revert fs. induction files as [|f files IH]; intros fs.
  - cbn [foldl]. rewrite bool_decide_eq_false_2; [done|]. apply not_elem_of_nil.
  - cbn [foldl]. rewrite IH, remove_file_lookup.
    destruct (decide (p = f)) as [->|Hne].
    + rewrite (bool_decide_eq_true_2 (f = f)) by done.
      rewrite (bool_decide_eq_true_2 (f ∈ f :: files)) by apply list_elem_of_here.
      cbn [andb]. destruct (fs !! f) as [[t| |]|] eqn:Hf; rewrite ?andb_false_r; done.
    + rewrite (bool_decide_eq_false_2 (p = f)) by done. cbn [andb].
      destruct (decide (p ∈ files)) as [Hin|Hnin].
      * rewrite !bool_decide_eq_true_2; [done| |done]. by apply list_elem_of_further.
      * rewrite !bool_decide_eq_false_2; [done| |done].
        intros [?|?]%elem_of_cons; done.
Qed.

Lemma clean_test_loop_lookup (fs : filesystem) (test_dir p : string) :
  foldl remove_file fs (glob_star fs test_dir) !! p =
    if test_file fs test_dir p then None else fs !! p.
Proof.
  rewrite foldl_remove_file_lookup. unfold test_file, isdir.
  destruct (fs !! p) as [[t| |]|] eqn:Hp; rewrite ?andb_false_r; try done.
  rewrite !andb_true_r.
  destruct (decide (p ∈ glob_star fs test_dir)) as [Hin|Hnin].
  - rewrite bool_decide_eq_true_2 by done.
    apply elem_of_glob_star in Hin as (Hd & _ & Hv).
    by rewrite Hv, bool_decide_eq_true_2.
  - rewrite bool_decide_eq_false_2 by done.
    case_bool_decide as Hd; [|done]. destruct (visible_entry test_dir p) eqn:Hv; [|done].
    destruct Hnin. apply elem_of_glob_star. rewrite Hp. by eauto.
Qed.

Lemma os_path_join_plain (path name : string) :
  plain_path path = true → os_path_join path name = path_join path name.
Proof.
  unfold plain_path, os_path_join. intros Hplain.
  do 8 (apply andb_prop in Hplain as [Hplain _]).
  apply andb_prop in Hplain as [Habs Hend].
  apply bool_decide_eq_true in Habs. apply negb_true_iff in Hend. rewrite Hend.
  rewrite bool_decide_eq_false_2; [done|].
  intros ->. by destruct Habs.
Qed.

(** How [clean_test_data] ends for a reports directory given as a plain
    path.  Without a test directory nothing happens.  Otherwise every
    visible regular file directly in it is removed, and then [os.rmdir] is
    called: it succeeds when nothing else was in the directory, raises
    [ENOTDIR] when [test] is not a directory, and raises [ENOTEMPTY], with
    the files already removed, when the directory holds a hidden entry or
    an entry that is not a regular file. *)
Theorem clean_test_data_spec (reports_dir : string) (fs : filesystem) :
  plain_path reports_dir = true →
  let test_dir := path_join reports_dir "test" in
  match clean_test_data reports_dir fs with
  | NothingToClean => fs !! test_dir = None
  | TestDataCleaned fs' =>
      fs !! test_dir = Some Directory ∧
      (∀ p, is_Some (entry_name test_dir p) → is_Some (fs !! p) →
         test_file fs test_dir p = true) ∧
      ∀ p, fs' !! p =
           if bool_decide (p = test_dir) || test_file fs test_dir p then None else fs !! p
  | RmdirFailed e fs' =>
      (∀ p, fs' !! p = if test_file fs test_dir p then None else fs !! p) ∧
      match e with
      | ENOENT => False
      | ENOTDIR => ∃ n, fs !! test_dir = Some n ∧ n ≠ Directory
      | ENOTEMPTY =>
          fs !! test_dir = Some Directory ∧
          ∃ p, is_Some (entry_name test_dir p) ∧ is_Some (fs !! p) ∧
               test_file fs test_dir p = false
      end
  end.
Proof.
  intros Hplain test_dir. unfold clean_test_data.
  rewrite (os_path_join_plain _ _ Hplain). cbv zeta. fold test_dir.
  destruct (fs !! test_dir) as [n|] eqn:Htest; [|done].
  assert (match glob_star fs test_dir with
          | [] => rmdir fs test_dir
          | _ => rmdir (foldl remove_file fs (glob_star fs test_dir)) test_dir
          end = rmdir (foldl remove_file fs (glob_star fs test_dir)) test_dir) as ->.
  { by destruct (glob_star fs test_dir). }
  set (fs1 := foldl remove_file fs (glob_star fs test_dir)).
  pose proof (clean_test_loop_lookup fs test_dir) as Hloop. fold fs1 in Hloop.
  assert (fs1 !! test_dir = Some n) as Htest1.
  { rewrite Hloop. unfold test_file. by rewrite visible_entry_self, andb_false_r. }
  unfold rmdir. rewrite Htest1. destruct n as [t| |].
  - split; [exact Hloop|]. by exists (RegularFile t).
  - destruct (listdir fs1 test_dir) as [|q qs] eqn:Hlist.
    + split; [done|]. split.
      * intros p Hentry Hsome. destruct (test_file fs test_dir p) eqn:Hfile; [done|].
        assert (p ∈ listdir fs1 test_dir) as Hin.
        { apply elem_of_listdir. split; [|done]. by rewrite Hloop, Hfile. }
        rewrite Hlist in Hin. by apply elem_of_nil in Hin.
      * intros p. case_bool_decide as Hp.
        { subst p. cbn [orb]. apply lookup_delete_eq. }
        cbn [orb]. rewrite lookup_delete_ne by done. apply Hloop.
    + split; [exact Hloop|]. split; [done|]. exists q.
      assert (q ∈ listdir fs1 test_dir) as Hin by (rewrite Hlist; left).
      apply elem_of_listdir in Hin as [Hsome Hentry]. rewrite Hloop in Hsome.
      destruct (test_file fs test_dir q); [by destruct Hsome|done].
  - split; [exact Hloop|]. by exists Special.
Qed.

Lemma sample_test_data_cleaned :
  ∃ fs', clean_test_data "/app/reports" sample_files = TestDataCleaned fs'.
Proof. eexists. vm_compute. reflexivity. Qed.

Lemma sample_test_files :
  test_file sample_files (path_join "/app/reports" "test")
    "/app/reports/test/test_budget_data_20250520_060000.json" = true ∧
  test_file sample_files (path_join "/app/reports" "test")
    "/app/reports/latest_budget_data.json" = false.
Proof. split; vm_compute; reflexivity. Qed.

Lemma clean_test_data_spec_witness :
  ∃ fs',
    clean_test_data "/app/reports" sample_files = TestDataCleaned fs' ∧
    fs' !! "/app/reports/test"%string = None ∧
    fs' !! "/app/reports/test/test_budget_data_20250520_060000.json"%string = None ∧
    fs' !! "/app/reports/latest_budget_data.json"%string = Some (RegularFile 0).
Proof.
  pose proof (clean_test_data_spec "/app/reports" sample_files eq_refl) as Hspec.
  destruct sample_test_data_cleaned as [fs' Hclean].
  cbv zeta in Hspec. rewrite Hclean in Hspec. destruct Hspec as (_ & _ & Hlook).
  destruct sample_test_files as [Hin Hout].
  exists fs'. split; [exact Hclean|]. split; [|split].
  - rewrite Hlook. rewrite bool_decide_eq_true_2; reflexivity.
  - rewrite Hlook, Hin, orb_true_r. reflexivity.
  - rewrite Hlook, Hout. rewrite bool_decide_eq_false_2; [reflexivity|discriminate].
Defined.
